(** * Brittymail relay: account registry and message adapter

    A shallow embedding of [main.py]: the [BrityworksAccountManager]
    registry, the administrative endpoints that mutate it, the
    [/forward-email/] endpoint that builds the vendor document, and the
    SMTP [handle_DATA] hook with its attachment extraction and fan-out.

    Conventions.
    - Python [str] values are [string] and [bytes] are [list byte].  The
      string methods [lower], [upper] and [strip] the program calls on
      addresses, on the routing header and on typed lines are fields of
      the class [StrMethods]: the definitions call them through the
      class and the general theorems hold for every instance, Python's
      Unicode-aware methods included.  The examples run at the instance
      [ascii_text], which folds and trims the ASCII range and agrees
      with Python on the ASCII strings they use.
    - A Python [dict] used as the account table is an insertion-ordered
      association list ([PyDict]); its keys are unique, which the
      predicate [PyDict.wf] records and every operation preserves.
    - JSON documents handed to an HTTP client are values of type [json].
    - Code that can raise returns a sum; the administrative endpoints run
      in a state-and-exception monad in which state changes made before a
      raise are kept, as in Python.
    - The HTTP transport and the disk are oracles passed as arguments. *)

From Stdlib Require Import String Ascii List Bool Arith NArith ZArith Lia.
From Stdlib.Strings Require Import Byte.
Import ListNotations.
Open Scope string_scope.
Set Warnings "-register-all".

(* ================================================================== *)
(** * Python string primitives used by the program *)

Module PyStr.

(** [bool(s)] for an optional string: [None] and [""] are falsy. *)
Definition truthy (s : option string) : bool :=
  match s with
  | Some s => negb (s =? "")
  | None => false
  end.

Definition lower_char (c : ascii) : ascii :=
  let n := nat_of_ascii c in
  if ((65 <=? n) && (n <=? 90))%nat then ascii_of_nat (n + 32) else c.

Definition upper_char (c : ascii) : ascii :=
  let n := nat_of_ascii c in
  if ((97 <=? n) && (n <=? 122))%nat then ascii_of_nat (n - 32) else c.

Fixpoint map_chars (f : ascii -> ascii) (s : string) : string :=
  match s with
  | EmptyString => EmptyString
  | String c r => String (f c) (map_chars f r)
  end.

(** [s.lower()] and [s.upper()] on ASCII text; header names are compared
    with them. *)
Definition lower : string -> string := map_chars lower_char.
Definition upper : string -> string := map_chars upper_char.

(** [c.isspace()]: tab, newline, vertical tab, form feed, carriage
    return, the four separators 0x1c-0x1f and the blank. *)
Definition is_space (c : ascii) : bool :=
  let n := nat_of_ascii c in
  (((9 <=? n) && (n <=? 13)) || ((28 <=? n) && (n <=? 32)))%nat.

Fixpoint lstrip (s : string) : string :=
  match s with
  | EmptyString => EmptyString
  | String c r => if is_space c then lstrip r else s
  end.

Fixpoint rstrip (s : string) : string :=
  match s with
  | EmptyString => EmptyString
  | String c r =>
      let r' := rstrip r in
      if is_space c && (r' =? "") then EmptyString else String c r'
  end.

(** [s.strip()] *)
Definition strip (s : string) : string := rstrip (lstrip s).

(** [needle in hay] on strings: substring test. *)
Fixpoint contains (needle hay : string) : bool :=
  prefix needle hay ||
  match hay with
  | EmptyString => false
  | String _ r => contains needle r
  end.

End PyStr.

(** The string methods of Python the program relies on. *)
Class StrMethods := {
  str_lower : string -> string;
  str_upper : string -> string;
  str_strip : string -> string
}.

(** Their behaviour on ASCII text. *)
#[global] Instance ascii_text : StrMethods := {|
  str_lower := PyStr.lower;
  str_upper := PyStr.upper;
  str_strip := PyStr.strip
|}.

(* ================================================================== *)
(** * Exceptions *)

(** The exceptions the modelled code can raise, and the result of code
    that may raise. *)
Inductive PyException :=
| TypeError (msg : string)
| AttributeError (msg : string)
| ValueError (msg : string).

Inductive result (A : Type) :=
| Return (a : A)
| Raise (e : PyException).
Arguments Return {A} a.
Arguments Raise {A} e.

Definition rbind {A B} (r : result A) (k : A -> result B) : result B :=
  match r with
  | Return a => k a
  | Raise e => Raise e
  end.

(* ================================================================== *)
(** * Python list primitives *)

(** [x in l] *)
Definition list_mem (x : string) (l : list string) : bool :=
  existsb (String.eqb x) l.

(** [l.remove(x)]: drops the first occurrence only.  The program calls
    it under an [if x in l] guard, so the [ValueError] of a missing
    element never arises; here a missing element leaves the list as is. *)
Fixpoint list_remove (x : string) (l : list string) : list string :=
  match l with
  | [] => []
  | y :: r => if y =? x then r else y :: list_remove x r
  end.

(* ================================================================== *)
(** * Insertion-ordered dictionaries with string keys *)

Module PyDict.
Section Dict.
Context {V : Type}.

Definition t := list (string * V).

(** [d.get(k)] *)
Fixpoint get (k : string) (d : t) : option V :=
  match d with
  | [] => None
  | (k', v) :: r => if k' =? k then Some v else get k r
  end.

(** [k in d] *)
Definition mem (k : string) (d : t) : bool :=
  match get k d with
  | Some _ => true
  | None => false
  end.

(** [d[k] = v]: an existing key keeps its position, a new key goes last. *)
Fixpoint set (k : string) (v : V) (d : t) : t :=
  match d with
  | [] => [(k, v)]
  | (k', v') :: r =>
      if k' =? k then (k, v) :: r else (k', v') :: set k v r
  end.

(** [del d[k]] (the program guards it with [k in d]). *)
Fixpoint del (k : string) (d : t) : t :=
  match d with
  | [] => []
  | (k', v') :: r =>
      if k' =? k then del k r else (k', v') :: del k r
  end.

(** [list(d.keys())], [list(d.values())], [len(d)] *)
Definition keys (d : t) : list string := map fst d.
Definition values (d : t) : list V := map snd d.
Definition len (d : t) : nat := length d.

(** Keys are unique: the representation invariant of a Python dict. *)
Definition wf (d : t) : Prop := NoDup (keys d).

End Dict.
Arguments t : clear implicits.
End PyDict.

(* ================================================================== *)
(** * Accounts and the account manager *)

(** Cookie and header bundles are opaque string tables. *)
Definition bundle := list (string * string).

(** What a record of [accounts.json] holds under a key that should
    carry text: nothing, JSON [null], or a string.  (The file is written
    by hand or by the endpoints, which store strings; other JSON types
    under [email] are outside the model.) *)
Inductive Stored :=
| Absent
| Null
| Text (s : string).

(** One account record of [accounts.json].  A record kept by the manager
    always carries its identifier; the address and [display_name] are
    read with [.get] and may be missing from a hand-written file, and so
    may the two bundles, read with [.get(.., {})]. *)
Record Account := {
  account_id : string;
  email_field : Stored;
  display_name : option string;
  cookies : bundle;
  headers : bundle
}.

(** [account.get('email')]: the address, or [None] when the key is
    missing or holds [null]. *)
Definition email (a : Account) : option string :=
  match email_field a with
  | Text e => Some e
  | Absent | Null => None
  end.

Record BrityworksAccountManager := {
  accounts : PyDict.t Account;
  selected_accounts : list string
}.

Abbreviation Manager := BrityworksAccountManager.

Definition with_selected (m : Manager) (sel : list string) : Manager :=
  {| accounts := accounts m; selected_accounts := sel |}.

Definition with_accounts (m : Manager) (d : PyDict.t Account) : Manager :=
  {| accounts := d; selected_accounts := selected_accounts m |}.

(** [load_accounts]: records with a falsy [account_id] are skipped, a
    repeated identifier overwrites the earlier record in place, and an
    empty result raises ([None]). *)
Fixpoint load_into (d : PyDict.t Account) (accounts_list : list Account)
  : PyDict.t Account :=
  match accounts_list with
  | [] => d
  | account :: rest =>
      if PyStr.truthy (Some (account_id account))
      then load_into (PyDict.set (account_id account) account d) rest
      else load_into d rest
  end.

Definition load_accounts (accounts_list : list Account) : option Manager :=
  let d := load_into [] accounts_list in
  match d with
  | [] => None
  | _ => Some {| accounts := d; selected_accounts := [] |}
  end.

(** [get_account] *)
Definition get_account (m : Manager) (aid : option string) : option Account :=
  if PyStr.truthy aid then
    match aid with
    | Some a => PyDict.get a (accounts m)
    | None => None
    end
  else
    match PyDict.values (accounts m) with
    | a :: _ => Some a
    | [] => None
    end.

(** [list_accounts] *)
Definition list_accounts (m : Manager) : list string :=
  PyDict.keys (accounts m).

(** [set_selected_accounts]: the returned boolean is the method's result. *)
Definition set_selected_accounts (m : Manager) (account_ids : list string)
  : bool * Manager :=
  match account_ids with
  | [] => (true, with_selected m (PyDict.keys (accounts m)))
  | _ =>
      let valid_accounts :=
        filter (fun aid => PyDict.mem aid (accounts m)) account_ids in
      match valid_accounts with
      | [] => (false, m)
      | _ => (true, with_selected m valid_accounts)
      end
  end.

(** [s.lower().strip()]: the normal form under which addresses are
    compared. *)
Definition normalize {py : StrMethods} (s : string) : string :=
  str_strip (str_lower s).

(** [account.get('email', '')]: the default stands in for a missing key
    only, a stored [null] comes back as [None]. *)
Definition email_or_empty (a : Account) : option string :=
  match email_field a with
  | Absent => Some ""
  | Null => None
  | Text e => Some e
  end.

(** [x.lower().strip()] on such a value: [None] has no [lower]. *)
Definition lower_strip_value {py : StrMethods} (x : option string)
  : result string :=
  match x with
  | Some s => Return (normalize s)
  | None =>
      Raise (AttributeError "'NoneType' object has no attribute 'lower'")
  end.

(** The search loop of [get_account_by_email] over the selected ids. *)
Fixpoint find_by_email {py : StrMethods} (d : PyDict.t Account)
  (sender_email_lower : string) (sel : list string)
  : result (option Account) :=
  match sel with
  | [] => Return None
  | aid :: rest =>
      match PyDict.get aid d with
      | Some account =>
          rbind (lower_strip_value (email_or_empty account))
            (fun account_email =>
               if account_email =? sender_email_lower
               then Return (Some account)
               else find_by_email d sender_email_lower rest)
      | None => find_by_email d sender_email_lower rest
      end
  end.

(** [get_account_by_email] *)
Definition get_account_by_email {py : StrMethods} (m : Manager)
  (sender_email : option string) : result (option Account) :=
  match sender_email with
  | Some s =>
      if s =? "" then Return None
      else find_by_email (accounts m) (normalize s) (selected_accounts m)
  | None => Return None
  end.

(** [get_all_selected_accounts] *)
Fixpoint lookup_all (d : PyDict.t Account) (sel : list string)
  : list Account :=
  match sel with
  | [] => []
  | aid :: rest =>
      match PyDict.get aid d with
      | Some account => account :: lookup_all d rest
      | None => lookup_all d rest
      end
  end.

Definition get_all_selected_accounts (m : Manager) : list Account :=
  lookup_all (accounts m) (selected_accounts m).

(** [get_selected_account]: explicit id, then sender address, then the
    first selected account. *)
Definition get_selected_account {py : StrMethods} (m : Manager)
  (aid sender_email : option string) : result (option Account) :=
  if PyStr.truthy aid then
    (* Priority 1: explicit account id *)
    match aid with
    | Some a =>
        if list_mem a (selected_accounts m)
        then Return (PyDict.get a (accounts m))
        else Return None
    | None => Return None
    end
  else
    (* Priority 2: match the sender address *)
    rbind (if PyStr.truthy sender_email
           then get_account_by_email m sender_email else Return None)
      (fun matched =>
         match matched with
         | Some account => Return (Some account)
         | None =>
             (* Priority 3: first selected account *)
             match selected_accounts m with
             | fallback_account_id :: _ =>
                 Return (PyDict.get fallback_account_id (accounts m))
             | [] => Return None
             end
         end).

(* ================================================================== *)
(** * JSON documents *)

Inductive json :=
| JNull
| JBool (b : bool)
| JNum (n : nat)
| JStr (s : string)
| JList (items : list json)
| JDict (fields : list (string * json)).

(** [j[k]] on a JSON object; [None] when [j] is no object or lacks [k]. *)
Definition jget (k : string) (j : json) : option json :=
  match j with
  | JDict fields => PyDict.get k fields
  | _ => None
  end.

(** A Python value that is either a string or [None]. *)
Definition jstr_opt (s : option string) : json :=
  match s with
  | Some s => JStr s
  | None => JNull
  end.

(* ================================================================== *)
(** * Base64 ([base64.b64encode], RFC 4648 with padding) *)

Module Base64.

Definition alphabet : list ascii :=
  list_ascii_of_string
    "ABCDEFGHIJKLMNOPQRSTUVWXYZabcdefghijklmnopqrstuvwxyz0123456789+/".

Definition pad : ascii := "="%char.

Definition char_of_sextet (n : N) : ascii :=
  nth (N.to_nat n) alphabet pad.

Fixpoint index_of (c : ascii) (l : list ascii) (i : N) : option N :=
  match l with
  | [] => None
  | x :: r => if Ascii.eqb x c then Some i else index_of c r (N.succ i)
  end.

Definition sextet_of_char (c : ascii) : option N := index_of c alphabet 0%N.

(** The 24-bit group of up to three bytes, most significant first. *)
Definition group (a b c : N) : N := (a * 65536 + b * 256 + c)%N.

Definition s0 (n : N) : N := (n / 262144)%N.
Definition s1 (n : N) : N := ((n / 4096) mod 64)%N.
Definition s2 (n : N) : N := ((n / 64) mod 64)%N.
Definition s3 (n : N) : N := (n mod 64)%N.

Fixpoint b64encode (bs : list byte) : string :=
  match bs with
  | [] => EmptyString
  | [a] =>
      let n := group (Byte.to_N a) 0 0 in
      String (char_of_sextet (s0 n)) (String (char_of_sextet (s1 n))
        (String pad (String pad EmptyString)))
  | [a; b] =>
      let n := group (Byte.to_N a) (Byte.to_N b) 0 in
      String (char_of_sextet (s0 n)) (String (char_of_sextet (s1 n))
        (String (char_of_sextet (s2 n)) (String pad EmptyString)))
  | a :: b :: c :: rest =>
      let n := group (Byte.to_N a) (Byte.to_N b) (Byte.to_N c) in
      String (char_of_sextet (s0 n)) (String (char_of_sextet (s1 n))
        (String (char_of_sextet (s2 n)) (String (char_of_sextet (s3 n))
          (b64encode rest))))
  end.

(** The number whose four sextets are given. *)
Definition ungroup (x0 x1 x2 x3 : N) : N :=
  (((x0 * 64 + x1) * 64 + x2) * 64 + x3)%N.

Definition byte0 (n : N) : option byte := Byte.of_N (n / 65536)%N.
Definition byte1 (n : N) : option byte := Byte.of_N ((n / 256) mod 256)%N.
Definition byte2 (n : N) : option byte := Byte.of_N (n mod 256)%N.

Definition opt_cons {A} (x : option A) (l : option (list A)) : option (list A) :=
  match x, l with
  | Some x, Some l => Some (x :: l)
  | _, _ => None
  end.

(** Strict decoder ([base64.b64decode(s, validate=True)]): the input is a
    sequence of four-character groups, padding only in the last one. *)
Fixpoint b64decode (s : string) : option (list byte) :=
  match s with
  | EmptyString => Some []
  | String c0 (String c1 (String c2 (String c3 rest))) =>
      match sextet_of_char c0, sextet_of_char c1 with
      | Some x0, Some x1 =>
          if Ascii.eqb c3 pad then
            match rest with
            | EmptyString =>
                if Ascii.eqb c2 pad then
                  opt_cons (byte0 (ungroup x0 x1 0 0)) (Some [])
                else
                  match sextet_of_char c2 with
                  | Some x2 =>
                      let n := ungroup x0 x1 x2 0 in
                      opt_cons (byte0 n) (opt_cons (byte1 n) (Some []))
                  | None => None
                  end
            | _ => None
            end
          else
            match sextet_of_char c2, sextet_of_char c3 with
            | Some x2, Some x3 =>
                let n := ungroup x0 x1 x2 x3 in
                opt_cons (byte0 n) (opt_cons (byte1 n) (opt_cons (byte2 n)
                  (b64decode rest)))
            | _, _ => None
            end
      | _, _ => None
      end
  | _ => None
  end.

End Base64.

(* ================================================================== *)
(** * Parsed mail messages ([email.message.Message]) *)

(** What the handler reads from a parsed message: the header list, what
    [get_filename()] does on the part (it returns the file name found in
    the part's parameters or [None], and raises [ValueError] on a
    malformed RFC 2231 parameter), and either the transfer-decoded body
    of a leaf part or the sub-parts of a container (a [multipart/*]
    part, or a [message/rfc822] part, whose payload is the list holding
    the enclosed message). *)
Inductive Message :=
| Leaf (hdrs : list (string * string)) (filename : result (option string))
       (payload : list byte)
| Multipart (hdrs : list (string * string))
            (filename : result (option string)) (parts : list Message).

Definition msg_headers (m : Message) : list (string * string) :=
  match m with
  | Leaf h _ _ => h
  | Multipart h _ _ => h
  end.

(** [part.get_filename()] *)
Definition get_filename (m : Message) : result (option string) :=
  match m with
  | Leaf _ f _ => f
  | Multipart _ f _ => f
  end.

(** [msg.is_multipart()] *)
Definition is_multipart (m : Message) : bool :=
  match m with
  | Leaf _ _ _ => false
  | Multipart _ _ _ => true
  end.

(** [part.get_payload(decode=True)]: [None] on a container. *)
Definition get_payload_decoded (m : Message) : option (list byte) :=
  match m with
  | Leaf _ _ payload => Some payload
  | Multipart _ _ _ => None
  end.

(** [msg.get(name)]: first header of that name, compared without case.
    The parser accepts printable ASCII only in a header name and the
    program asks for ASCII names, so folding the ASCII range is exact
    here. *)
Fixpoint header_get (name : string) (hdrs : list (string * string))
  : option string :=
  match hdrs with
  | [] => None
  | (n, v) :: r =>
      if PyStr.lower n =? PyStr.lower name then Some v else header_get name r
  end.

Definition msg_get (m : Message) (name : string) : option string :=
  header_get name (msg_headers m).

(** [msg.walk()]: the part itself, then its sub-parts, depth first. *)
Fixpoint walk (m : Message) : list Message :=
  m :: match m with
       | Leaf _ _ _ => []
       | Multipart _ _ parts => flat_map walk parts
       end.

(** [str(x)] of an optional header value. *)
Definition py_str (x : option string) : string :=
  match x with
  | Some v => v
  | None => "None"
  end.

(** One attachment record handed to the forwarder. *)
Definition attachment_record (filename : string) (content : list byte) : json :=
  JDict [("filename", JStr filename);
         ("content", JStr (Base64.b64encode content))].

(** [base64.b64encode(x)] where [x] may be [None]. *)
Definition b64encode_value (x : option (list byte)) : result string :=
  match x with
  | Some bs => Return (Base64.b64encode bs)
  | None => Raise (TypeError "a bytes-like object is required, not 'NoneType'")
  end.

(** The test the handler applies to a part's disposition. *)
Definition marked_attachment (part : Message) : bool :=
  PyStr.contains "attachment" (py_str (msg_get part "Content-Disposition")).

(** The body of the [for part in msg.walk()] loop, over the parts still to
    visit, with the list built so far. *)
Fixpoint collect_attachments (todo : list Message) (attachments : list json)
  : result (list json) :=
  match todo with
  | [] => Return attachments
  | part :: rest =>
      if marked_attachment part then
        rbind (get_filename part) (fun filename =>
          if PyStr.truthy filename then
            match filename with
            | Some filename =>
                rbind (b64encode_value (get_payload_decoded part))
                  (fun content =>
                     collect_attachments rest
                       (attachments ++
                          [JDict [("filename", JStr filename);
                                  ("content", JStr content)]]))
            | None => collect_attachments rest attachments
            end
          else collect_attachments rest attachments)
      else collect_attachments rest attachments
  end.

Definition extract_attachments (msg : Message) : result (list json) :=
  if is_multipart msg then collect_attachments (walk msg) []
  else Return [].

(* ================================================================== *)
(** * HTTP plumbing *)

(** The body of an answer as [response.json()] reads it: a document, or
    text that is no JSON, on which it raises the given decoding error. *)
Inductive Body :=
| Json (doc : json)
| NotJson (error : string).

(** What [await client.post(..)] followed by [raise_for_status()] can do. *)
Inductive HttpOutcome :=
| Ok2xx (status_code : nat) (body : Body)
| HTTPStatusError (status_code : nat) (text : string)
| RequestError (msg : string)
| OtherError (msg : string).

(** What a FastAPI endpoint does: return a body or raise [HTTPException]. *)
Inductive Response (A : Type) :=
| OK (body : A)
| HTTPException (status_code : nat) (detail : string).
Arguments OK {A} body.
Arguments HTTPException {A} status_code detail.

(** The process-wide state the endpoints work on: the global
    [account_manager] and the contents of the configuration file. *)
Record Server := {
  account_manager : option Manager;
  config_file : option (list Account)
}.

(** State and exception: the state reached when an endpoint raises is
    kept, nothing is rolled back. *)
Definition Endpoint (A : Type) : Type := Server -> Response A * Server.

Definition ret {A} (a : A) : Endpoint A := fun s => (OK a, s).

Definition bind {A B} (c : Endpoint A) (k : A -> Endpoint B) : Endpoint B :=
  fun s =>
    match c s with
    | (OK a, s') => k a s'
    | (HTTPException code detail, s') => (HTTPException code detail, s')
    end.

Definition raise {A} (code : nat) (detail : string) : Endpoint A :=
  fun s => (HTTPException code detail, s).

Declare Scope endpoint_scope.
Delimit Scope endpoint_scope with endpoint.
Notation "x <- c ;; k" := (bind c (fun x => k))
  (at level 61, c at next level, right associativity) : endpoint_scope.
Notation "c ;; k" := (bind c (fun _ => k))
  (at level 61, right associativity) : endpoint_scope.
Open Scope endpoint_scope.

(** [if not account_manager: raise HTTPException(500, ..)] *)
Definition require_manager : Endpoint Manager :=
  fun s =>
    match account_manager s with
    | Some m => (OK m, s)
    | None => (HTTPException 500 "Account manager not initialized", s)
    end.

Definition put_manager (m : Manager) : Endpoint unit :=
  fun s => (OK tt, {| account_manager := Some m; config_file := config_file s |}).

(** [save_accounts]: [disk_ok] tells whether the write and the rename go
    through; the method swallows the error and answers [False]. *)
Definition save_accounts (disk_ok : bool) : Endpoint bool :=
  fun s =>
    match account_manager s with
    | Some m =>
        if disk_ok
        then (OK true, {| account_manager := Some m;
                          config_file := Some (PyDict.values (accounts m)) |})
        else (OK false, s)
    | None => (OK false, s)
    end.

(** The request body of the account endpoints (pydantic [AccountCreate]). *)
Record AccountCreate := {
  new_account_id : string;
  new_email : string;
  new_display_name : string;
  new_cookies : bundle;
  new_headers : bundle
}.

Definition account_of (account : AccountCreate) : Account :=
  {| account_id := new_account_id account;
     email_field := Text (new_email account);
     display_name := Some (new_display_name account);
     cookies := new_cookies account;
     headers := new_headers account |}.

Definition message_body (message aid : string) : json :=
  JDict [("message", JStr message); ("account_id", JStr aid)].

Definition not_found {A} (aid : string) : Endpoint A :=
  raise 404 ("Account '" ++ aid ++ "' not found").

Definition persist_failed {A} : Endpoint A :=
  raise 500 "Failed to persist account configuration".

(* ================================================================== *)
(** * Account management endpoints *)

(** [GET /accounts/{account_id}] *)
Definition get_account_endpoint (aid : string) : Endpoint json :=
  m <- require_manager ;;
  match PyDict.get aid (accounts m) with
  | None => not_found aid
  | Some account =>
      ret (JDict [("account_id", JStr aid);
                  ("email", jstr_opt (email account));
                  ("display_name", jstr_opt (display_name account));
                  ("is_selected", JBool (list_mem aid (selected_accounts m)));
                  ("has_cookies", JBool (negb (Nat.eqb (length (cookies account)) 0)));
                  ("has_headers", JBool (negb (Nat.eqb (length (headers account)) 0)))])
  end.

(** The part of [create_account] under its comment "Add to memory". *)
Definition create_in_memory (m : Manager) (account : AccountCreate) : Manager :=
  let new_account := account_of account in
  with_accounts m
    (PyDict.set (new_account_id account) new_account (accounts m)).

(** [POST /accounts/] *)
Definition create_account (disk_ok : bool) (account : AccountCreate)
  : Endpoint json :=
  m <- require_manager ;;
  if PyDict.mem (new_account_id account) (accounts m) then
    raise 400 ("Account '" ++ new_account_id account ++ "' already exists")
  else
    put_manager (create_in_memory m account) ;;
    saved <- save_accounts disk_ok ;;
    if negb saved then persist_failed
    else ret (message_body "Account created successfully"
                           (new_account_id account)).

(** The part of [update_account] under "Update in memory": when the id
    changes, the old key is deleted and, if it was selected, its first
    occurrence in the selection is removed and the new id appended; then
    the new record is stored under the new id. *)
Definition update_in_memory (m : Manager) (aid : string)
  (account : AccountCreate) : Manager :=
  let updated_account := account_of account in
  let m1 :=
    if negb (aid =? new_account_id account) then
      let m' := with_accounts m (PyDict.del aid (accounts m)) in
      if list_mem aid (selected_accounts m') then
        with_selected m'
          (list_remove aid (selected_accounts m') ++ [new_account_id account])
      else m'
    else m in
  with_accounts m1
    (PyDict.set (new_account_id account) updated_account (accounts m1)).

(** [PUT /accounts/{account_id}] *)
Definition update_account (disk_ok : bool) (aid : string)
  (account : AccountCreate) : Endpoint json :=
  m <- require_manager ;;
  if negb (PyDict.mem aid (accounts m)) then not_found aid
  else
    put_manager (update_in_memory m aid account) ;;
    saved <- save_accounts disk_ok ;;
    if negb saved then persist_failed
    else ret (message_body "Account updated successfully"
                           (new_account_id account)).

(** The part of [delete_account] under "Remove from memory" and "Remove
    from selected accounts if present". *)
Definition delete_in_memory (m : Manager) (aid : string) : Manager :=
  let m1 := with_accounts m (PyDict.del aid (accounts m)) in
  if list_mem aid (selected_accounts m1)
  then with_selected m1 (list_remove aid (selected_accounts m1))
  else m1.

(** [DELETE /accounts/{account_id}] *)
Definition delete_account (disk_ok : bool) (aid : string) : Endpoint json :=
  m <- require_manager ;;
  if negb (PyDict.mem aid (accounts m)) then not_found aid
  else
    put_manager (delete_in_memory m aid) ;;
    saved <- save_accounts disk_ok ;;
    if negb saved then persist_failed
    else ret (message_body "Account deleted successfully" aid).

Definition select_in_memory (m : Manager) (aid : string) : Manager :=
  if negb (list_mem aid (selected_accounts m))
  then with_selected m (selected_accounts m ++ [aid])
  else m.

(** [POST /accounts/{account_id}/select] *)
Definition select_account (aid : string) : Endpoint json :=
  m <- require_manager ;;
  if negb (PyDict.mem aid (accounts m)) then not_found aid
  else
    put_manager (select_in_memory m aid) ;;
    ret (message_body "Account selected" aid).

Definition deselect_in_memory (m : Manager) (aid : string) : Manager :=
  if list_mem aid (selected_accounts m)
  then with_selected m (list_remove aid (selected_accounts m))
  else m.

(** [POST /accounts/{account_id}/deselect] *)
Definition deselect_account (aid : string) : Endpoint json :=
  m <- require_manager ;;
  if negb (PyDict.mem aid (accounts m)) then not_found aid
  else
    put_manager (deselect_in_memory m aid) ;;
    ret (message_body "Account deselected" aid).

(** [set_selected_accounts] run on the global manager, as the start-up
    code does; the body is the method's boolean. *)
Definition set_active (account_ids : list string) : Endpoint bool :=
  m <- require_manager ;;
  put_manager (snd (set_selected_accounts m account_ids)) ;;
  ret (fst (set_selected_accounts m account_ids)).

(** The registry operations, and runs of several of them. *)
Inductive RegistryOp :=
| SetActive (account_ids : list string)
| Select (aid : string)
| Deselect (aid : string)
| Create (disk_ok : bool) (account : AccountCreate)
| Update (disk_ok : bool) (aid : string) (account : AccountCreate)
| Delete (disk_ok : bool) (aid : string).

(** The state an operation leaves, whatever it answered. *)
Definition run_op (op : RegistryOp) (s : Server) : Server :=
  match op with
  | SetActive ids => snd (set_active ids s)
  | Select aid => snd (select_account aid s)
  | Deselect aid => snd (deselect_account aid s)
  | Create disk_ok account => snd (create_account disk_ok account s)
  | Update disk_ok aid account => snd (update_account disk_ok aid account s)
  | Delete disk_ok aid => snd (delete_account disk_ok aid s)
  end.

Definition run_ops (ops : list RegistryOp) (s : Server) : Server :=
  fold_left (fun st op => run_op op st) ops s.

(** Process start: the manager is built from the records of the file. *)
Definition boot (accounts_list : list Account) : Server :=
  {| account_manager := load_accounts accounts_list;
     config_file := Some accounts_list |}.

(* ================================================================== *)
(** * The forwarding endpoint [POST /forward-email/] *)

Definition BRITTYMAIL_SEND_URL : string :=
  "https://www.brityworks.com/mail/rest/v1/mails/send".

(** The validated request body (pydantic [ParsedEmailPayload]). *)
Record ParsedEmailPayload := {
  p_raw_email : string;
  p_sender_email : string;
  p_recipient_email : string;
  p_subject : string;
  p_account_id : option string;
  p_attachments : list json
}.

Definition as_str (j : option json) : option string :=
  match j with
  | Some (JStr s) => Some s
  | _ => None
  end.

(** Request validation: the four text fields are required strings,
    [account_id] is an optional string, [attachments] an optional list.
    [None] stands for the 422 answer FastAPI gives to a body that does
    not fit. *)
Definition parse_payload (j : json) : option ParsedEmailPayload :=
  match as_str (jget "raw_email" j), as_str (jget "sender_email" j),
        as_str (jget "recipient_email" j), as_str (jget "subject" j) with
  | Some raw, Some sender, Some recipient, Some subj =>
      let mk aid atts :=
        Some {| p_raw_email := raw; p_sender_email := sender;
                p_recipient_email := recipient; p_subject := subj;
                p_account_id := aid; p_attachments := atts |} in
      let with_aid aid :=
        match jget "attachments" j with
        | None => mk aid []
        | Some (JList atts) => mk aid atts
        | Some _ => None
        end in
      match jget "account_id" j with
      | None => with_aid None
      | Some JNull => with_aid None
      | Some (JStr a) => with_aid (Some a)
      | Some _ => None
      end
  | _, _, _, _ => None
  end.

(** The document sent to the vendor, field for field. *)
Definition brittymail_json_data (payload : ParsedEmailPayload) : json :=
  let sender_email := p_sender_email payload in
  let recipient_email := p_recipient_email payload in
  JDict [
    ("priority", JStr "3");
    ("docSecuType", JStr "PERSONAL");
    ("demandReply", JBool false);
    ("senderEngExprYN", JBool true);
    ("openAlert", JBool false);
    ("openAlertTargets", JList []);
    ("deleteSecurityPhrase", JBool false);
    ("cpgsPassed", JBool false);
    ("originalFolderID", JNum 0);
    ("originalMailSeq", JNum 0);
    ("preMailSeq", JNum 0);
    ("processCode", JStr "NONE");
    ("preFolderID", JNum 0);
    ("contentText", JStr (p_raw_email payload));
    ("contentType", JStr "MIME");
    ("individualMail", JBool false);
    ("isConfidentialExtMail", JBool false);
    ("topMailID", JNull);
    ("originalMessageID", JNull);
    ("from", JDict [
       ("email", JStr sender_email);
       ("dcomp", JStr "O");
       ("userID", JStr sender_email);
       ("sendrIndiVal", JStr (sender_email ++ "<" ++ sender_email ++ ">"))]);
    ("attachs", JList (p_attachments payload));
    ("subject", JStr (p_subject payload));
    ("recipients", JList [
       JDict [
         ("email", JStr recipient_email);
         ("recipientType", JStr "TO");
         ("directKeyin", JBool false);
         ("rcvrName", JStr recipient_email);
         ("displayName", JStr recipient_email)]]);
    ("nonEncMail", JBool false);
    ("disabledMailOption", JDict [
       ("disabledConfidential", JBool false);
       ("disabledConfidential_Strict", JBool false)]);
    ("approvalList", JList [])
  ].

(** One call to the vendor: address, credentials, document. *)
Record VendorCall := {
  call_url : string;
  call_cookies : bundle;
  call_headers : bundle;
  call_json : json
}.

(** Account resolution and document construction of the endpoint.  The
    resolution runs outside the endpoint's [try]: what it raises leaves
    the endpoint as it is ([Raise]). *)
Definition prepare_vendor_call {py : StrMethods} (m : Manager)
  (payload : ParsedEmailPayload) : result (Response VendorCall) :=
  rbind (get_selected_account m (p_account_id payload)
           (Some (p_sender_email payload)))
    (fun account =>
       match account with
       | None =>
           Return (HTTPException 400
             ("No matching account found for sender: "
                ++ p_sender_email payload))
       | Some account =>
           Return (OK {| call_url := BRITTYMAIL_SEND_URL;
                         call_cookies := cookies account;
                         call_headers := headers account;
                         call_json := brittymail_json_data payload |})
       end).

(** The [try] block around the vendor call: a 2xx answer is returned
    with its body read as JSON; a body that is no JSON makes
    [response.json()] raise inside the block, and the last handler
    answers 500 with the error's text. *)
Definition answer_of_vendor (outcome : HttpOutcome) : Response json :=
  match outcome with
  | Ok2xx _ (Json body) =>
      OK (JDict [("message", JStr "Email forwarded successfully!");
                 ("brittymail_response", body)])
  | Ok2xx _ (NotJson e) =>
      HTTPException 500 ("An internal server error occurred: " ++ e)
  | HTTPStatusError _ text =>
      HTTPException 500
        ("Failed to forward email to Brittymail: " ++ text)
  | RequestError e =>
      HTTPException 500
        ("Network error forwarding email to Brittymail: " ++ e)
  | OtherError e =>
      HTTPException 500 ("An internal server error occurred: " ++ e)
  end.

(** [forward_email_to_brittymail]; [vendor] is the vendor's answer. *)
Definition forward_email_to_brittymail {py : StrMethods} (m : Manager)
  (vendor : VendorCall -> HttpOutcome) (payload : ParsedEmailPayload)
  : result (Response json) :=
  rbind (prepare_vendor_call m payload) (fun prepared =>
    match prepared with
    | HTTPException code detail => Return (HTTPException code detail)
    | OK call => Return (answer_of_vendor (vendor call))
    end).

(* ================================================================== *)
(** * The SMTP hook [CustomSMTPHandler.handle_DATA] *)

Record Envelope := {
  mail_from : option string;
  rcpt_tos : list string;
  content : list byte
}.

(** What one run of the hook did: the reply given to the SMTP client,
    the bodies posted to the forwarder in order, and the two counters it
    logs at the end. *)
Record Completed := {
  reply : string;
  attempts : list json;
  success_count : nat;
  failed_count : nat
}.

Definition effective_sender (envelope : Envelope) : string :=
  match mail_from envelope with
  | Some s => if s =? "" then "unknown_sender@example.com" else s
  | None => "unknown_sender@example.com"
  end.

Definition effective_recipient (envelope : Envelope) : string :=
  match rcpt_tos envelope with
  | r :: _ => r
  | [] => "unknown_recipient@example.com"
  end.

(** [msg.get("Subject", "No Subject")] *)
Definition subject_of (msg : Message) : string :=
  match msg_get msg "Subject" with
  | Some s => s
  | None => "No Subject"
  end.

(** [send_from_all] as computed from the routing header. *)
Definition send_from_all_of {py : StrMethods}
  (account_id_hdr : option string) : bool :=
  match account_id_hdr with
  | Some a => if a =? "" then false else str_upper a =? "ALL"
  | None => false
  end.

Definition fastapi_payload (raw_email_str recipient_email subject : string)
  (attachments : list json) (account : Account) : json :=
  JDict [("raw_email", JStr raw_email_str);
         ("sender_email", jstr_opt (email account));
         ("recipient_email", JStr recipient_email);
         ("subject", JStr subject);
         ("account_id", JStr (account_id account));
         ("attachments", JList attachments)].

Section Handler.

Context {py : StrMethods}.

(** [bytes.decode('utf-8', errors='ignore')] and [Parser().parsestr]. *)
Variable decode_utf8_ignore : list byte -> string.
Variable parsestr : string -> Message.

(** The answer of the world to the [i]-th post of one run. *)
Variable post : nat -> json -> HttpOutcome.

(** The [for account in accounts_to_use] loop. *)
Fixpoint send_each (mk : Account -> json) (i : nat)
  (accounts_to_use : list Account) (sent : list json)
  (succeeded failed : nat) : Completed :=
  match accounts_to_use with
  | [] =>
      {| reply := "250 OK"; attempts := sent;
         success_count := succeeded; failed_count := failed |}
  | account :: rest =>
      let body := mk account in
      match post i body with
      | Ok2xx _ _ =>
          send_each mk (S i) rest (sent ++ [body]) (S succeeded) failed
      | HTTPStatusError _ _ =>
          send_each mk (S i) rest (sent ++ [body]) succeeded (S failed)
      | RequestError _ =>
          send_each mk (S i) rest (sent ++ [body]) succeeded (S failed)
      | OtherError _ =>
          send_each mk (S i) rest (sent ++ [body]) succeeded (S failed)
      end
  end.

(** The accounts one message is sent from. *)
Definition accounts_to_use_of (m : Manager) (account_id_hdr : option string)
  (sender_email : string) : result (list Account) :=
  if send_from_all_of account_id_hdr
  then Return (get_all_selected_accounts m)
  else
    rbind (get_selected_account m account_id_hdr (Some sender_email))
      (fun single_account =>
         match single_account with
         | Some single_account => Return [single_account]
         | None => Return []
         end).

Definition handle_DATA (m : Manager) (envelope : Envelope) : result Completed :=
  let raw_email_str := decode_utf8_ignore (content envelope) in
  let msg := parsestr raw_email_str in
  let sender_email := effective_sender envelope in
  let recipient_email := effective_recipient envelope in
  let subject := subject_of msg in
  let account_id_hdr := msg_get msg "X-Brityworks-Account" in
  rbind (extract_attachments msg) (fun attachments =>
  rbind (accounts_to_use_of m account_id_hdr sender_email)
    (fun accounts_to_use =>
    match accounts_to_use with
    | [] =>
        Return {| reply := "250 OK"; attempts := [];
                  success_count := 0; failed_count := 0 |}
    | _ =>
        Return (send_each
                  (fastapi_payload raw_email_str recipient_email subject
                     attachments)
                  0 accounts_to_use [] 0 0)
    end)).

End Handler.

(** The forwarder as seen by the hook's HTTP client when the transport
    works: 422 for a body that does not validate, else the endpoint; an
    exception that leaves the endpoint is answered by the framework with
    500. *)
Definition serve_forward_email {py : StrMethods} (m : Manager)
  (vendor : VendorCall -> HttpOutcome) (body : json) : HttpOutcome :=
  match parse_payload body with
  | None => HTTPStatusError 422 "Unprocessable Entity"
  | Some payload =>
      match forward_email_to_brittymail m vendor payload with
      | Return (OK answer) => Ok2xx 200 (Json answer)
      | Return (HTTPException code detail) => HTTPStatusError code detail
      | Raise _ => HTTPStatusError 500 "Internal Server Error"
      end
  end.

(* ================================================================== *)
(** * Concrete registries, messages and envelopes used in examples *)

Module Sample.

Definition acct (aid addr : string) : Account :=
  {| account_id := aid;
     email_field := Text addr;
     display_name := Some aid;
     cookies := [("EP_LOGINID", addr)];
     headers := [("accept", "application/json")] |}.

Definition alice : Account := acct "alice" "a@x.com".
Definition bob : Account := acct "bob" "Foo@Bar.com ".
Definition carol : Account := acct "carol" "c@z.com".

(** Two configured accounts, both active. *)
Definition two : Manager :=
  {| accounts := [("alice", alice); ("bob", bob)];
     selected_accounts := ["alice"; "bob"] |}.

(** Three configured accounts, all active. *)
Definition three : Manager :=
  {| accounts := [("alice", alice); ("bob", bob); ("carol", carol)];
     selected_accounts := ["alice"; "bob"; "carol"] |}.

(** Only [bob] is configured and active. *)
Definition only_bob : Manager :=
  {| accounts := [("bob", bob)]; selected_accounts := ["bob"] |}.

(** The second account has an empty address. *)
Definition blank : Account := acct "blank" "".
Definition with_blank : Manager :=
  {| accounts := [("alice", alice); ("blank", blank)];
     selected_accounts := ["alice"; "blank"] |}.

(** An account whose record holds [null] under [email], listed and
    active before [bob]. *)
Definition nul : Account :=
  {| account_id := "nul";
     email_field := Null;
     display_name := Some "nul";
     cookies := [];
     headers := [] |}.
Definition null_first : Manager :=
  {| accounts := [("nul", nul); ("bob", bob)];
     selected_accounts := ["nul"; "bob"] |}.

(** A server whose manager is [m] and whose file holds [m]'s records. *)
Definition server_of (m : Manager) : Server :=
  {| account_manager := Some m;
     config_file := Some (PyDict.values (accounts m)) |}.

Definition dave : AccountCreate :=
  {| new_account_id := "dave"; new_email := "d@w.com";
     new_display_name := "Dave"; new_cookies := []; new_headers := [] |}.

(** A record that renames its target to [bob]. *)
Definition as_bob : AccountCreate :=
  {| new_account_id := "bob"; new_email := "new@b.com";
     new_display_name := "Bob again"; new_cookies := []; new_headers := [] |}.

(** Raw messages and their parses, as [Parser().parsestr] gives them. *)

Definition bytes_of (s : string) : list byte :=
  map byte_of_ascii (list_ascii_of_string s).

(** UTF-8 decoding of ASCII input. *)
Definition decode (bs : list byte) : string :=
  string_of_list_ascii (map ascii_of_byte bs).

Definition raw_plain : string :=
"Subject: hi

body
".

Definition plain : Message :=
  Leaf [("Subject", "hi")] (Return None) (bytes_of "body
").

(** A text part and a forwarded message attached as [fwd.eml]. *)
Definition raw_forwarded : string :=
"Subject: fwd
MIME-Version: 1.0
Content-Type: multipart/mixed; boundary=B

--B
Content-Type: text/plain

hello
--B
Content-Type: message/rfc822
Content-Disposition: attachment; filename=fwd.eml

Subject: inner

inner body
--B--
".

Definition forwarded_parts : list Message :=
  [Leaf [("Content-Type", "text/plain")] (Return None) (bytes_of "hello");
   Multipart [("Content-Type", "message/rfc822");
              ("Content-Disposition", "attachment; filename=fwd.eml")]
             (Return (Some "fwd.eml"))
             [Leaf [("Subject", "inner")] (Return None)
                   (bytes_of "inner body")]].

Definition forwarded : Message :=
  Multipart [("Subject", "fwd"); ("MIME-Version", "1.0");
             ("Content-Type", "multipart/mixed; boundary=B")]
            (Return None) forwarded_parts.

(** The same message with the routing header set to [all]. *)
Definition raw_forwarded_all : string :=
"Subject: fwd
X-Brityworks-Account: all
MIME-Version: 1.0
Content-Type: multipart/mixed; boundary=B

--B
Content-Type: text/plain

hello
--B
Content-Type: message/rfc822
Content-Disposition: attachment; filename=fwd.eml

Subject: inner

inner body
--B--
".

Definition forwarded_all : Message :=
  Multipart [("Subject", "fwd"); ("X-Brityworks-Account", "all");
             ("MIME-Version", "1.0");
             ("Content-Type", "multipart/mixed; boundary=B")]
            (Return None) forwarded_parts.

(** An inline text part without a file name and an attachment [a.txt]
    whose decoded content is [hello]. *)
Definition raw_report : string :=
"Subject: report
MIME-Version: 1.0
Content-Type: multipart/mixed; boundary=B

--B
Content-Type: text/plain
Content-Disposition: inline

see attached
--B
Content-Type: text/plain
Content-Disposition: attachment; filename=a.txt
Content-Transfer-Encoding: base64

aGVsbG8=
--B--
".

Definition a_txt : Message :=
  Leaf [("Content-Type", "text/plain");
        ("Content-Disposition", "attachment; filename=a.txt");
        ("Content-Transfer-Encoding", "base64")]
       (Return (Some "a.txt")) (bytes_of "hello").

Definition report : Message :=
  Multipart [("Subject", "report"); ("MIME-Version", "1.0");
             ("Content-Type", "multipart/mixed; boundary=B")]
            (Return None)
            [Leaf [("Content-Type", "text/plain");
                   ("Content-Disposition", "inline")]
                  (Return None) (bytes_of "see attached");
             a_txt].

(** A message that is one attachment and nothing else. *)
Definition raw_lone : string :=
"Subject: lone
Content-Type: text/plain
Content-Disposition: attachment; filename=a.txt
Content-Transfer-Encoding: base64

aGVsbG8=
".

Definition lone : Message :=
  Leaf [("Subject", "lone"); ("Content-Type", "text/plain");
        ("Content-Disposition", "attachment; filename=a.txt");
        ("Content-Transfer-Encoding", "base64")]
       (Return (Some "a.txt")) (bytes_of "hello").

(** An inline part whose file name contains the word [attachment], a
    part whose disposition is spelled with a capital letter, and an
    attachment whose file name parameter is empty. *)
Definition raw_odd : string :=
"Subject: odd
MIME-Version: 1.0
Content-Type: multipart/mixed; boundary=B

--B
Content-Type: text/plain
Content-Disposition: inline; filename=attachment.txt

zz
--B
Content-Type: text/plain
Content-Disposition: Attachment; filename=b.txt

yy
--B
Content-Type: text/plain
Content-Disposition: attachment; filename=

xx
--B--
".

Definition inline_named : Message :=
  Leaf [("Content-Type", "text/plain");
        ("Content-Disposition", "inline; filename=attachment.txt")]
       (Return (Some "attachment.txt")) (bytes_of "zz").

Definition capitalised : Message :=
  Leaf [("Content-Type", "text/plain");
        ("Content-Disposition", "Attachment; filename=b.txt")]
       (Return (Some "b.txt")) (bytes_of "yy").

Definition unnamed : Message :=
  Leaf [("Content-Type", "text/plain");
        ("Content-Disposition", "attachment; filename=")]
       (Return (Some "")) (bytes_of "xx").

Definition odd : Message :=
  Multipart [("Subject", "odd"); ("MIME-Version", "1.0");
             ("Content-Type", "multipart/mixed; boundary=B")]
            (Return None) [inline_named; capitalised; unnamed].

(** An attachment whose file name parameter cannot be decoded. *)
Definition raw_garbled : string :=
"Subject: garbled
MIME-Version: 1.0
Content-Type: multipart/mixed; boundary=B

--B
Content-Type: text/plain
Content-Disposition: attachment; filename*=%00''a.txt

hi
--B--
".

Definition garbled_part : Message :=
  Leaf [("Content-Type", "text/plain");
        ("Content-Disposition", "attachment; filename*=%00''a.txt")]
       (Raise (ValueError "embedded null character")) (bytes_of "hi").

Definition garbled : Message :=
  Multipart [("Subject", "garbled"); ("MIME-Version", "1.0");
             ("Content-Type", "multipart/mixed; boundary=B")]
            (Return None) [garbled_part].

(** A message without attachments, to be sent from all accounts. *)
Definition raw_broadcast : string :=
"Subject: news
X-Brityworks-Account: All

body
".

Definition broadcast : Message :=
  Leaf [("Subject", "news"); ("X-Brityworks-Account", "All")]
       (Return None)
       (bytes_of "body
").

Definition parsestr (raw : string) : Message :=
  if raw =? raw_forwarded then forwarded
  else if raw =? raw_broadcast then broadcast
  else if raw =? raw_forwarded_all then forwarded_all
  else if raw =? raw_report then report
  else if raw =? raw_lone then lone
  else if raw =? raw_odd then odd
  else if raw =? raw_garbled then garbled
  else if raw =? raw_plain then plain
  else Leaf [] (Return None) [].

Definition envelope_of (sender : string) (raw : string) : Envelope :=
  {| mail_from := Some sender;
     rcpt_tos := ["r@z.com"; "cc@z.com"];
     content := bytes_of raw |}.

(** A vendor that accepts everything, and the forwarder running on it. *)
Definition vendor_ok (call : VendorCall) : HttpOutcome :=
  Ok2xx 200 (Json (JDict [("result", JStr "SUCCESS")])).

(** A vendor that answers 200 with a page that is no JSON. *)
Definition vendor_html (call : VendorCall) : HttpOutcome :=
  Ok2xx 200 (NotJson "Expecting value: line 1 column 1 (char 0)").

Definition post_to (m : Manager) (i : nat) (body : json) : HttpOutcome :=
  serve_forward_email m vendor_ok body.

(** A transport in which the second post of a run fails. *)
Definition post_second_fails (m : Manager) (i : nat) (body : json)
  : HttpOutcome :=
  if Nat.eqb i 1 then RequestError "connection refused"
  else serve_forward_email m vendor_ok body.

End Sample.

(* ================================================================== *)
(** * Vocabulary of the specification *)

(** [x] is a configured account identifier. *)
Definition configured (m : Manager) (x : string) : Prop :=
  In x (PyDict.keys (accounts m)).

(** [x] is in the Active Set. *)
Definition active (m : Manager) (x : string) : Prop :=
  In x (selected_accounts m).

(** No stored address the sender search can read is [null]. *)
Definition no_null_email (m : Manager) : Prop :=
  forall aid account,
    In aid (selected_accounts m) ->
    PyDict.get aid (accounts m) = Some account ->
    email_field account <> Null.

(** The Active Set holds configured identifiers only. *)
Definition active_subset (m : Manager) : Prop :=
  forall x, active m x -> configured m x.

(** A string of whitespace only. *)
Fixpoint blank (s : string) : bool :=
  match s with
  | EmptyString => true
  | String c r => PyStr.is_space c && blank r
  end.

(** [s] does not start with whitespace. *)
Definition starts_clean (s : string) : bool :=
  match s with
  | EmptyString => true
  | String c _ => negb (PyStr.is_space c)
  end.

(** [get_filename()] returns a non-empty file name on the part. *)
Definition has_filename (part : Message) : bool :=
  match get_filename part with
  | Return f => PyStr.truthy f
  | Raise _ => false
  end.

(** A part the handler turns into an attachment record: its disposition
    text contains [attachment] and it has a non-empty file name. *)
Definition is_attachment_part (part : Message) : bool :=
  marked_attachment part && has_filename part.

(** The record the handler builds for such a part. *)
Definition record_of (part : Message) : json :=
  attachment_record
    (match get_filename part with Return (Some f) => f | _ => "" end)
    (match get_payload_decoded part with Some bs => bs | None => [] end).

(** An attempt counts as a success when the post returns a 2xx answer. *)
Definition delivered (o : HttpOutcome) : bool :=
  match o with
  | Ok2xx _ _ => true
  | _ => false
  end.

(** The outcomes of posting [mk account] for each account in turn, the
    first post being number [i]. *)
Fixpoint outcomes_from (post : nat -> json -> HttpOutcome)
  (mk : Account -> json) (i : nat) (accounts_to_use : list Account)
  : list HttpOutcome :=
  match accounts_to_use with
  | [] => []
  | account :: rest =>
      post i (mk account) :: outcomes_from post mk (S i) rest
  end.

(* ================================================================== *)
(** * The remaining endpoints and the start-up code *)

(** One entry of the listing of [GET /accounts/]. *)
Definition listing_entry (m : Manager) (entry : string * Account) : json :=
  JDict [("account_id", JStr (fst entry));
         ("email", jstr_opt (email (snd entry)));
         ("display_name", jstr_opt (display_name (snd entry)));
         ("is_selected", JBool (list_mem (fst entry) (selected_accounts m)))].

(** [GET /accounts/] *)
Definition list_accounts_endpoint : Endpoint json :=
  m <- require_manager ;;
  let accounts_list := map (listing_entry m) (accounts m) in
  ret (JDict [("total", JNum (length accounts_list));
              ("selected", JNum (length (selected_accounts m)));
              ("accounts", JList accounts_list)]).

(** Filler for list positions that are never read. *)
Definition no_entry : string * Account :=
  ("", {| account_id := ""; email_field := Absent; display_name := None;
          cookies := []; headers := [] |}).

(** A typed number outside [1 .. len(account_list)]. *)
Definition out_of_range (m : Manager) (idx : Z) : bool :=
  ((idx <? 1) || (Z.of_nat (length (accounts m)) <? idx))%Z.

(** [[account_list[idx-1][0] for idx in selected_indices]] *)
Definition ids_of_indices (m : Manager) (selected_indices : list Z)
  : list string :=
  map (fun idx => fst (nth (Z.to_nat (idx - 1)) (accounts m) no_entry))
      selected_indices.

(** The prompt loop of [display_accounts_menu].  [inputs] are the lines
    the user will type; when they run out [input()] raises [EOFError],
    which the loop's [except Exception] turns into [False].
    [parse_indices] is [[int(x.strip()) for x in choice.split(',')]],
    [None] standing for its [ValueError]. *)
Fixpoint menu_loop {py : StrMethods}
  (parse_indices : string -> option (list Z))
  (m : Manager) (inputs : list string) : bool * Manager :=
  match inputs with
  | [] => (false, m)
  | line :: rest =>
      let choice := str_strip line in
      if choice =? "0" then (true, snd (set_selected_accounts m []))
      else
        match parse_indices choice with
        | None => menu_loop parse_indices m rest
        | Some selected_indices =>
            if existsb (out_of_range m) selected_indices
            then menu_loop parse_indices m rest
            else
              let selected_account_ids :=
                ids_of_indices m selected_indices in
              if fst (set_selected_accounts m selected_account_ids)
              then (true, snd (set_selected_accounts m selected_account_ids))
              else (false, m)
        end
  end.

(** [display_accounts_menu] *)
Definition display_accounts_menu {py : StrMethods}
  (parse_indices : string -> option (list Z))
  (m : Manager) (inputs : list string) : bool * Manager :=
  match accounts m with
  | [] => (false, m)
  | _ => menu_loop parse_indices m inputs
  end.


(** Every record is stored under its own identifier. *)
Definition keyed (d : PyDict.t Account) : Prop :=
  Forall (fun entry => account_id (snd entry) = fst entry) d.

(** No key is the empty string. *)
Definition ids_nonempty (d : PyDict.t Account) : Prop :=
  Forall (fun entry => fst entry <> "") d.

(** An entry of the listing flagged as selected. *)
Definition flagged_selected (entry : json) : bool :=
  match jget "is_selected" entry with
  | Some (JBool true) => true
  | _ => false
  end.

(** The fields of the vendor document that depend on the request. *)
Definition variable_fields : list string :=
  ["contentText"; "from"; "attachs"; "subject"; "recipients"].

(** A part on which the extraction loop raises: its disposition text
    contains [attachment] and either the file name lookup raises, or it
    returns a non-empty name and the part is a container, whose decoded
    payload is [None]. *)
Definition trips_extraction (part : Message) : bool :=
  marked_attachment part &&
  match get_filename part with
  | Raise _ => true
  | Return f => PyStr.truthy f && is_multipart part
  end.

(** The exception the loop raises on such a part. *)
Definition raised_on (part : Message) : PyException :=
  match get_filename part with
  | Raise e => e
  | Return _ => TypeError "a bytes-like object is required, not 'NoneType'"
  end.

(** The number lists of a few typed lines, for examples. *)
Definition sample_parse_indices (choice : string) : option (list Z) :=
  if choice =? "2,1" then Some [2%Z; 1%Z]
  else if choice =? "1,1" then Some [1%Z; 1%Z]
  else if choice =? "7" then Some [7%Z]
  else None.

(* ================================================================== *)
(** * Facts about the list and dictionary primitives *)

Lemma list_mem_In (x : string) (l : list string) :
  list_mem x l = true <-> In x l.
Proof.
  unfold list_mem. rewrite existsb_exists. split.
  - intros [y [Hy Heq]]. apply String.eqb_eq in Heq. now subst.
  - intros H. exists x. split; [assumption | apply String.eqb_refl].
Qed.

Lemma list_mem_false (x : string) (l : list string) :
  list_mem x l = false <-> ~ In x l.
Proof.
  rewrite <- list_mem_In. destruct (list_mem x l); split; congruence.
Qed.

Lemma list_remove_incl (x y : string) (l : list string) :
  In y (list_remove x l) -> In y l.
Proof.
  induction l as [|z l IH]; simpl; [tauto|].
  destruct (String.eqb_spec z x); simpl; intuition.
Qed.

Lemma list_remove_other (x y : string) (l : list string) :
  y <> x -> In y l -> In y (list_remove x l).
Proof.
  intros Hne. induction l as [|z l IH]; simpl; [tauto|].
  destruct (String.eqb_spec z x); simpl; intros [->|H]; subst; intuition.
Qed.

Lemma list_remove_NoDup (x : string) (l : list string) :
  NoDup l -> ~ In x (list_remove x l) /\ NoDup (list_remove x l).
Proof.
  induction 1 as [|z l Hz Hl IH]; simpl.
  - split; [tauto | constructor].
  - destruct (String.eqb_spec z x).
    + subst. split; assumption.
    + destruct IH as [IH1 IH2]. split.
      * simpl. intros [->|H]; [congruence | contradiction].
      * constructor; [|assumption].
        intros H. apply Hz. eapply list_remove_incl; eassumption.
Qed.

Module PyDictFacts.
Section Facts.
Context {V : Type}.
Implicit Types (d : PyDict.t V) (k : string) (v : V).

Lemma mem_In k d : PyDict.mem k d = true <-> In k (PyDict.keys d).
Proof.
  unfold PyDict.mem, PyDict.keys.
  induction d as [|[k' v'] d IH]; simpl.
  - split; [discriminate | tauto].
  - destruct (String.eqb_spec k' k).
    + split; auto.
    + rewrite IH. split; [auto | intros [?|?]; [congruence | assumption]].
Qed.

Lemma mem_false k d : PyDict.mem k d = false <-> ~ In k (PyDict.keys d).
Proof.
  rewrite <- mem_In. destruct (PyDict.mem k d); split; congruence.
Qed.

Lemma get_Some_In k v d : PyDict.get k d = Some v -> In k (PyDict.keys d).
Proof.
  intros H. apply mem_In. unfold PyDict.mem. now rewrite H.
Qed.

Lemma In_get k d : In k (PyDict.keys d) -> exists v, PyDict.get k d = Some v.
Proof.
  intros H. apply mem_In in H. unfold PyDict.mem in H.
  destruct (PyDict.get k d) as [v|]; [now exists v | discriminate].
Qed.

Lemma get_set_same k v d : PyDict.get k (PyDict.set k v d) = Some v.
Proof.
  induction d as [|[k' v'] d IH]; simpl.
  - now rewrite String.eqb_refl.
  - destruct (String.eqb_spec k' k) as [->|Hne]; simpl.
    + now rewrite String.eqb_refl.
    + destruct (String.eqb_spec k' k); [contradiction | exact IH].
Qed.

Lemma get_set_other k k' v d :
  k' <> k -> PyDict.get k' (PyDict.set k v d) = PyDict.get k' d.
Proof.
  intros Hne. induction d as [|[k0 v0] d IH]; simpl.
  - destruct (String.eqb_spec k k'); [congruence | reflexivity].
  - destruct (String.eqb_spec k0 k) as [->|H0]; simpl.
    + destruct (String.eqb_spec k k'); [congruence | reflexivity].
    + destruct (String.eqb_spec k0 k'); [reflexivity | exact IH].
Qed.

Lemma get_del_same k d : PyDict.get k (PyDict.del k d) = None.
Proof.
  induction d as [|[k' v'] d IH]; simpl; [reflexivity|].
  destruct (String.eqb_spec k' k) as [->|Hne]; simpl; [exact IH|].
  destruct (String.eqb_spec k' k); [contradiction | exact IH].
Qed.

Lemma get_del_other k k' d :
  k' <> k -> PyDict.get k' (PyDict.del k d) = PyDict.get k' d.
Proof.
  intros Hne. induction d as [|[k0 v0] d IH]; simpl; [reflexivity|].
  destruct (String.eqb_spec k0 k) as [->|H0]; simpl.
  - destruct (String.eqb_spec k k'); [congruence | exact IH].
  - destruct (String.eqb_spec k0 k'); [reflexivity | exact IH].
Qed.

Lemma keys_set_present k v d :
  In k (PyDict.keys d) -> PyDict.keys (PyDict.set k v d) = PyDict.keys d.
Proof.
  unfold PyDict.keys.
  induction d as [|[k' v'] d IH]; simpl; [tauto|].
  destruct (String.eqb_spec k' k) as [->|Hne]; simpl; [reflexivity|].
  intros [?|H]; [contradiction|]. now rewrite IH.
Qed.

Lemma keys_set_absent k v d :
  ~ In k (PyDict.keys d) ->
  PyDict.keys (PyDict.set k v d) = (PyDict.keys d ++ [k])%list.
Proof.
  unfold PyDict.keys.
  induction d as [|[k' v'] d IH]; simpl; [reflexivity|].
  intros H. destruct (String.eqb_spec k' k) as [->|Hne]; simpl.
  - exfalso. auto.
  - rewrite IH; auto.
Qed.

Lemma In_keys_set k k' v d :
  In k' (PyDict.keys (PyDict.set k v d)) <-> k' = k \/ In k' (PyDict.keys d).
Proof.
  rewrite <- !mem_In. unfold PyDict.mem.
  destruct (String.eqb_spec k' k) as [->|Hne].
  - rewrite get_set_same. tauto.
  - rewrite get_set_other by assumption. tauto.
Qed.

Lemma In_keys_del k k' d :
  In k' (PyDict.keys (PyDict.del k d)) <-> k' <> k /\ In k' (PyDict.keys d).
Proof.
  rewrite <- !mem_In. unfold PyDict.mem.
  destruct (String.eqb_spec k' k) as [->|Hne].
  - rewrite get_del_same. split; [discriminate | tauto].
  - rewrite get_del_other by assumption. tauto.
Qed.

Lemma wf_set k v d : PyDict.wf d -> PyDict.wf (PyDict.set k v d).
Proof.
  unfold PyDict.wf. intros Hwf.
  destruct (in_dec string_dec k (PyDict.keys d)) as [Hin|Hout].
  - now rewrite keys_set_present.
  - rewrite keys_set_absent by assumption.
    apply NoDup_app; [assumption | repeat constructor; auto | ].
    intros x Hx [<-|[]]. contradiction.
Qed.

Lemma wf_del k d : PyDict.wf d -> PyDict.wf (PyDict.del k d).
Proof.
  unfold PyDict.wf, PyDict.keys.
  induction d as [|[k' v'] d IH]; simpl; intros Hwf; [constructor|].
  inversion Hwf as [|? ? Hk Hd]; subst.
  destruct (String.eqb_spec k' k); [auto|].
  simpl. constructor; [|auto].
  intros Hin. apply Hk. apply (In_keys_del k k' d) in Hin. tauto.
Qed.

Lemma len_del k d :
  PyDict.wf d -> In k (PyDict.keys d) ->
  S (PyDict.len (PyDict.del k d)) = PyDict.len d.
Proof.
  unfold PyDict.wf, PyDict.keys, PyDict.len.
  induction d as [|[k' v'] d IH]; simpl; intros Hwf Hin; [tauto|].
  inversion Hwf as [|? ? Hk Hd]; subst.
  destruct (String.eqb_spec k' k) as [->|Hne].
  - f_equal. clear IH Hwf Hin Hd.
    induction d as [|[k0 v0] d IH]; simpl in *; [reflexivity|].
    destruct (String.eqb_spec k0 k) as [->|H0]; [tauto|].
    simpl. f_equal. apply IH. tauto.
  - simpl. f_equal. apply IH; [assumption|].
    destruct Hin; [contradiction | assumption].
Qed.

Lemma len_set_present k v d :
  In k (PyDict.keys d) -> PyDict.len (PyDict.set k v d) = PyDict.len d.
Proof.
  intros H. unfold PyDict.len.
  rewrite <- (length_map fst (PyDict.set k v d)), <- (length_map fst d).
  change (length (PyDict.keys (PyDict.set k v d)) = length (PyDict.keys d)).
  now rewrite keys_set_present.
Qed.

End Facts.
End PyDictFacts.

(* ================================================================== *)
(** * Case folding, trimming and the normal form of addresses *)

Module PyStrFacts.
Import PyStr.

Ltac each_char c :=
  destruct c as [[] [] [] [] [] [] [] []]; reflexivity.

Lemma lower_char_idem (c : ascii) : lower_char (lower_char c) = lower_char c.
Proof. each_char c. Qed.

Lemma lower_char_upper_char (c : ascii) :
  lower_char (upper_char c) = lower_char c.
Proof. each_char c. Qed.

Lemma is_space_lower_char (c : ascii) : is_space (lower_char c) = is_space c.
Proof. each_char c. Qed.

Lemma lower_idem (s : string) : lower (lower s) = lower s.
Proof.
  unfold lower. induction s as [|c s IH]; simpl; [reflexivity|].
  now rewrite lower_char_idem, IH.
Qed.

Lemma lower_upper (s : string) : lower (upper s) = lower s.
Proof.
  unfold lower, upper. induction s as [|c s IH]; simpl; [reflexivity|].
  now rewrite lower_char_upper_char, IH.
Qed.

Lemma lower_app (s t : string) : lower (s ++ t) = lower s ++ lower t.
Proof.
  unfold lower. induction s as [|c s IH]; simpl; [reflexivity|].
  now rewrite IH.
Qed.

Lemma lower_cons (c : ascii) (s : string) :
  lower (String c s) = String (lower_char c) (lower s).
Proof. reflexivity. Qed.

Lemma rstrip_cons (c : ascii) (s : string) :
  rstrip (String c s) =
    if is_space c && (rstrip s =? "") then "" else String c (rstrip s).
Proof. reflexivity. Qed.

Lemma lower_lstrip (s : string) : lower (lstrip s) = lstrip (lower s).
Proof.
  induction s as [|c s IH]; [reflexivity|].
  rewrite lower_cons. cbn [lstrip]. rewrite is_space_lower_char.
  destruct (is_space c); [exact IH | apply lower_cons].
Qed.

Lemma lower_rstrip (s : string) : lower (rstrip s) = rstrip (lower s).
Proof.
  induction s as [|c s IH]; [reflexivity|].
  rewrite lower_cons, !rstrip_cons, is_space_lower_char, <- IH.
  assert (E : (lower (rstrip s) =? "") = (rstrip s =? "")).
  { destruct (rstrip s); reflexivity. }
  rewrite E. destruct (is_space c && (rstrip s =? "")); reflexivity.
Qed.

Lemma lower_strip (s : string) : lower (strip s) = strip (lower s).
Proof. unfold strip. now rewrite lower_rstrip, lower_lstrip. Qed.

Lemma lstrip_starts_clean (s : string) : starts_clean (lstrip s) = true.
Proof.
  induction s as [|c s IH]; simpl; [reflexivity|].
  destruct (is_space c) eqn:E; [exact IH | simpl; now rewrite E].
Qed.

Lemma lstrip_clean (s : string) : starts_clean s = true -> lstrip s = s.
Proof.
  destruct s as [|c s]; simpl; [reflexivity|].
  destruct (is_space c); [discriminate | reflexivity].
Qed.

Lemma rstrip_starts_clean (s : string) :
  starts_clean s = true -> starts_clean (rstrip s) = true.
Proof.
  destruct s as [|c s]; simpl; [reflexivity|].
  destruct (is_space c) eqn:E; [discriminate|]. simpl. now rewrite E.
Qed.

Lemma rstrip_idem (s : string) : rstrip (rstrip s) = rstrip s.
Proof.
  induction s as [|c s IH]; simpl; [reflexivity|].
  destruct (is_space c && (rstrip s =? "")) eqn:E; [reflexivity|].
  simpl. rewrite IH, E. reflexivity.
Qed.

Lemma strip_idem (s : string) : strip (strip s) = strip s.
Proof.
  unfold strip.
  rewrite (lstrip_clean (rstrip (lstrip s))).
  - apply rstrip_idem.
  - apply rstrip_starts_clean, lstrip_starts_clean.
Qed.

Lemma lstrip_blank_app (w s : string) :
  blank w = true -> lstrip (w ++ s) = lstrip s.
Proof.
  induction w as [|c w IH]; simpl; [reflexivity|].
  intros H. apply andb_true_iff in H. destruct H as [Hc Hw].
  rewrite Hc. apply IH, Hw.
Qed.

Lemma rstrip_blank (w : string) : blank w = true -> rstrip w = "".
Proof.
  induction w as [|c w IH]; simpl; [reflexivity|].
  intros H. apply andb_true_iff in H. destruct H as [Hc Hw].
  rewrite (IH Hw), Hc. reflexivity.
Qed.

Lemma rstrip_app_blank (s w : string) :
  blank w = true -> rstrip (s ++ w) = rstrip s.
Proof.
  intros Hw. induction s as [|c s IH]; simpl.
  - apply rstrip_blank, Hw.
  - now rewrite IH.
Qed.

Lemma lstrip_app_clean (s w : string) :
  lstrip s <> "" -> lstrip (s ++ w) = lstrip s ++ w.
Proof.
  induction s as [|c s IH]; simpl; [congruence|].
  destruct (is_space c); [exact IH | reflexivity].
Qed.

Lemma lstrip_empty_blank (s : string) : lstrip s = "" -> blank s = true.
Proof.
  induction s as [|c s IH]; simpl; [reflexivity|].
  destruct (is_space c); [exact IH | discriminate].
Qed.

Lemma blank_lstrip (w : string) : blank w = true -> lstrip w = "".
Proof.
  induction w as [|c w IH]; simpl; [reflexivity|].
  intros H. apply andb_true_iff in H. destruct H as [Hc Hw].
  rewrite Hc. apply IH, Hw.
Qed.

Lemma blank_app (s w : string) :
  blank s = true -> blank w = true -> blank (s ++ w) = true.
Proof.
  induction s as [|c s IH]; simpl; [auto|].
  intros H Hw. apply andb_true_iff in H. destruct H as [Hc Hs].
  rewrite Hc. apply IH; assumption.
Qed.

(** Whitespace around a string does not survive [strip]. *)
Lemma strip_surrounded (w1 s w2 : string) :
  blank w1 = true -> blank w2 = true -> strip (w1 ++ s ++ w2) = strip s.
Proof.
  intros H1 H2. unfold strip. rewrite lstrip_blank_app by assumption.
  destruct (lstrip s) as [|c t] eqn:E.
  - apply lstrip_empty_blank in E.
    rewrite blank_lstrip by (apply blank_app; assumption). reflexivity.
  - rewrite lstrip_app_clean by (rewrite E; discriminate).
    rewrite E. apply rstrip_app_blank, H2.
Qed.

End PyStrFacts.

Import PyStrFacts.

(** On ASCII text the normal form is insensitive to case and to
    surrounding whitespace, and normalising twice changes nothing. *)
Lemma normalize_idem (s : string) :
  normalize (py := ascii_text) (normalize (py := ascii_text) s)
    = normalize (py := ascii_text) s.
Proof.
  unfold normalize.
  rewrite lower_strip, lower_idem. apply strip_idem.
Qed.

Lemma normalize_upper (s : string) :
  normalize (py := ascii_text) (PyStr.upper s)
    = normalize (py := ascii_text) s.
Proof. unfold normalize. now rewrite lower_upper. Qed.

Lemma normalize_lower (s : string) :
  normalize (py := ascii_text) (PyStr.lower s)
    = normalize (py := ascii_text) s.
Proof. unfold normalize. now rewrite lower_idem. Qed.

Lemma blank_lower (w : string) : blank (PyStr.lower w) = blank w.
Proof.
  unfold PyStr.lower. induction w as [|c w IH]; simpl; [reflexivity|].
  now rewrite is_space_lower_char, IH.
Qed.

Lemma normalize_surrounded (w1 s w2 : string) :
  blank w1 = true -> blank w2 = true ->
  normalize (py := ascii_text) (w1 ++ s ++ w2)
    = normalize (py := ascii_text) s.
Proof.
  intros H1 H2. unfold normalize. rewrite !lower_app.
  apply strip_surrounded; now rewrite blank_lower.
Qed.

(* ================================================================== *)
(** * The registry: activation and resolution *)

(** [set_selected_accounts] never touches the account table. *)
Lemma set_selected_accounts_accounts (m : Manager) (ids : list string) :
  accounts (snd (set_selected_accounts m ids)) = accounts m.
Proof.
  unfold set_selected_accounts. destruct ids as [|a ids]; [reflexivity|].
  destruct (filter (fun aid => PyDict.mem aid (accounts m)) (a :: ids));
    reflexivity.
Qed.

(** C4.  [set_selected_accounts] with an empty list makes the Active Set
    the list of all configured identifiers; with a non-empty list holding
    at least one configured identifier it succeeds and the Active Set
    consists of exactly the listed identifiers that are configured; with
    a non-empty list holding none it answers [False] and changes nothing.
    The account table is never touched. *)
Theorem set_selected_accounts_spec (m : Manager) (account_ids : list string) :
  let r := set_selected_accounts m account_ids in
  accounts (snd r) = accounts m /\
  (account_ids = [] ->
     fst r = true /\
     selected_accounts (snd r) = PyDict.keys (accounts m) /\
     (forall x, active (snd r) x <-> configured m x)) /\
  (account_ids <> [] ->
   (exists x, In x account_ids /\ configured m x) ->
     fst r = true /\
     selected_accounts (snd r) =
       filter (fun aid => PyDict.mem aid (accounts m)) account_ids /\
     (forall x, active (snd r) x <-> In x account_ids /\ configured m x)) /\
  (account_ids <> [] ->
   (forall x, In x account_ids -> ~ configured m x) ->
     fst r = false /\ snd r = m).
Proof.
  assert (Hfilter : forall x,
             In x (filter (fun aid => PyDict.mem aid (accounts m)) account_ids)
             <-> In x account_ids /\ configured m x).
  { intros x. rewrite filter_In, PyDictFacts.mem_In. reflexivity. }
  unfold set_selected_accounts.
  destruct account_ids as [|a ids].
  - simpl. split; [reflexivity|]. split; [|split].
    + intros _. split; [reflexivity|]. split; [reflexivity|].
      intros x. reflexivity.
    + intros H. congruence.
    + intros H. congruence.
  - remember (a :: ids) as l eqn:El.
    destruct (filter (fun aid => PyDict.mem aid (accounts m)) l)
      as [|v vs] eqn:Ef; simpl.
    + split; [reflexivity|]. split; [|split].
      * intros H. congruence.
      * intros _ [x Hx]. apply Hfilter in Hx. destruct Hx.
      * intros _ _. split; reflexivity.
    + split; [reflexivity|]. split; [|split].
      * intros H. congruence.
      * intros _ _. split; [reflexivity|]. split; [reflexivity|].
        exact Hfilter.
      * intros _ Hnone. exfalso.
        assert (Hv : In v (v :: vs)) by (left; reflexivity).
        apply Hfilter in Hv. destruct Hv as [Hin Hc].
        exact (Hnone v Hin Hc).
Qed.

Lemma set_selected_accounts_spec_witness :
  (fst (set_selected_accounts Sample.two ["bob"; "zed"]) = true /\
   selected_accounts (snd (set_selected_accounts Sample.two ["bob"; "zed"]))
     = ["bob"]) /\
  (fst (set_selected_accounts Sample.two ["zed"]) = false /\
   snd (set_selected_accounts Sample.two ["zed"]) = Sample.two) /\
  selected_accounts (snd (set_selected_accounts Sample.only_bob []))
    = ["bob"].
Proof.
  split; [|split].
  - destruct (set_selected_accounts_spec Sample.two ["bob"; "zed"])
      as (_ & _ & H & _).
    destruct H as (H1 & H2 & _).
    + discriminate.
    + exists "bob". split; [left; reflexivity | right; left; reflexivity].
    + split; [exact H1 | exact H2].
  - destruct (set_selected_accounts_spec Sample.two ["zed"])
      as (_ & _ & _ & H).
    apply H.
    + discriminate.
    + intros x [<-|[]]. unfold configured. simpl.
      intros [H0|[H0|[]]]; discriminate.
  - destruct (set_selected_accounts_spec Sample.only_bob [])
      as (_ & H & _).
    destruct (H eq_refl) as (_ & H2 & _). exact H2.
Defined.

(** Resolution by an explicit, non-empty identifier never looks at the
    sender address and never raises. *)
Lemma get_selected_account_explicit {py : StrMethods} (m : Manager)
  (X : string) (sender_email : option string) :
  X <> "" ->
  get_selected_account m (Some X) sender_email =
    Return (if list_mem X (selected_accounts m)
            then PyDict.get X (accounts m) else None).
Proof.
  intros HX. unfold get_selected_account. simpl.
  destruct (String.eqb_spec X ""); [contradiction|].
  simpl. destruct (list_mem X (selected_accounts m)); reflexivity.
Qed.

(** C3 (amended).  For every non-empty identifier [X] and whatever the
    sender address: when [X] is in the Active Set, resolution by explicit
    id answers the record stored under [X] (account [X] itself whenever
    [X] is configured); when [X] is not in the Active Set it fails; in
    both cases the answer is the same for every sender address, so
    neither sender matching nor the first-account fallback is used.  The
    empty identifier is treated as no identifier at all: resolution with
    it is resolution without an explicit id, whatever that does. *)
Theorem explicit_id_resolution {py : StrMethods} (m : Manager) (X : string)
  (sender_email : option string) :
  (X <> "" ->
   (active m X ->
      get_selected_account m (Some X) sender_email
        = Return (PyDict.get X (accounts m))
      /\ (configured m X ->
          exists account,
            get_selected_account m (Some X) sender_email
              = Return (Some account) /\
            PyDict.get X (accounts m) = Some account)) /\
   (~ active m X ->
      get_selected_account m (Some X) sender_email = Return None) /\
   get_selected_account m (Some X) sender_email =
     get_selected_account m (Some X) None) /\
  get_selected_account m (Some "") sender_email =
    get_selected_account m None sender_email.
Proof.
  split; [|reflexivity].
  intros HX.
  rewrite !get_selected_account_explicit by assumption.
  split; [|split].
  - intros Hact. apply list_mem_In in Hact. rewrite Hact.
    split; [reflexivity|].
    intros Hc. apply PyDictFacts.In_get in Hc. destruct Hc as [a Ha].
    exists a. rewrite Ha. split; reflexivity.
  - intros Hna. apply list_mem_false in Hna. now rewrite Hna.
  - reflexivity.
Qed.

Lemma explicit_id_resolution_witness :
  get_selected_account Sample.two (Some "bob") (Some "a@x.com")
    = Return (Some Sample.bob) /\
  get_selected_account Sample.only_bob (Some "alice") (Some "Foo@Bar.com")
    = Return None /\
  get_selected_account Sample.two (Some "") (Some "a@x.com")
    = get_selected_account Sample.two None (Some "a@x.com").
Proof.
  split; [|split].
  - destruct (explicit_id_resolution Sample.two "bob" (Some "a@x.com"))
      as [H _].
    destruct H as (H & _ & _); [discriminate|].
    destruct H as [H _]; [right; left; reflexivity|].
    rewrite H. reflexivity.
  - destruct (explicit_id_resolution Sample.only_bob "alice"
                (Some "Foo@Bar.com")) as [H _].
    destruct H as (_ & H & _); [discriminate|].
    apply H. intros [H0|[]]. discriminate.
  - exact (proj2 (explicit_id_resolution Sample.two "" (Some "a@x.com"))).
Defined.

(** C3 as stated fails for the empty identifier: it is not in the Active
    Set, yet resolution does not fail but falls through to the sender
    match (first line) or to the first active account (second line). *)
Lemma explicit_id_empty_falls_through :
  ~ active Sample.two "" /\
  get_selected_account Sample.two (Some "") (Some "foo@bar.com")
    = Return (Some Sample.bob) /\
  get_selected_account Sample.two (Some "") None
    = Return (Some Sample.alice).
Proof.
  split; [|split].
  - intros [H|[H|[]]]; discriminate.
  - reflexivity.
  - reflexivity.
Qed.

(** The sender search sees the address only through [normalize]. *)
Lemma get_account_by_email_normalized {py : StrMethods} (m : Manager)
  (s : string) :
  s <> "" ->
  get_account_by_email m (Some s) =
    find_by_email (accounts m) (normalize s) (selected_accounts m).
Proof.
  intros Hs. unfold get_account_by_email.
  destruct (String.eqb_spec s ""); [contradiction | reflexivity].
Qed.

(** Without an explicit identifier and with a non-empty sender, resolution
    is the sender search followed by the fall-back to the first active
    identifier. *)
Lemma get_selected_account_by_sender {py : StrMethods} (m : Manager)
  (s : string) :
  s <> "" ->
  get_selected_account m None (Some s) =
    rbind (get_account_by_email m (Some s)) (fun matched =>
      match matched with
      | Some account => Return (Some account)
      | None =>
          match selected_accounts m with
          | fallback :: _ => Return (PyDict.get fallback (accounts m))
          | [] => Return None
          end
      end).
Proof.
  intros Hs. unfold get_selected_account. simpl.
  destruct (String.eqb_spec s ""); [contradiction | reflexivity].
Qed.

(** A search that returns while some active record has the normal form
    looked for has found a record with that normal form. *)
Lemma find_by_email_found {py : StrMethods} (d : PyDict.t Account)
  (n : string) (sel : list string) (aid : string) (a : Account)
  (r : option Account) :
  In aid sel -> PyDict.get aid d = Some a ->
  lower_strip_value (email_or_empty a) = Return n ->
  find_by_email d n sel = Return r ->
  exists aid' a',
    r = Some a' /\
    In aid' sel /\ PyDict.get aid' d = Some a' /\
    lower_strip_value (email_or_empty a') = Return n.
Proof.
  intros Hin Hget Hn.
  induction sel as [|x sel IH]; simpl in *; [contradiction|].
  destruct (PyDict.get x d) as [ax|] eqn:Ex.
  - destruct (lower_strip_value (email_or_empty ax)) as [nx|e] eqn:En;
      simpl; [|discriminate].
    destruct (String.eqb_spec nx n) as [E|E].
    + intros Hr. injection Hr as <-. subst nx. exists x, ax. auto.
    + intros Hr. destruct Hin as [->|Hin].
      * rewrite Hget in Ex. injection Ex as <-. congruence.
      * destruct (IH Hin Hr) as (aid' & a' & H1 & H2 & H3 & H4).
        exists aid', a'. auto.
  - intros Hr. destruct Hin as [->|Hin]; [congruence|].
    destruct (IH Hin Hr) as (aid' & a' & H1 & H2 & H3 & H4).
    exists aid', a'. auto.
Qed.

(** The search raises only on reaching a stored [null]. *)
Lemma find_by_email_returns {py : StrMethods} (d : PyDict.t Account)
  (n : string) (sel : list string) :
  (forall aid account, In aid sel -> PyDict.get aid d = Some account ->
     email_field account <> Null) ->
  exists r, find_by_email d n sel = Return r.
Proof.
  induction sel as [|x sel IH]; intros Hnn; simpl.
  - eexists. reflexivity.
  - assert (Hrest : forall aid account, In aid sel ->
              PyDict.get aid d = Some account -> email_field account <> Null).
    { intros aid account Hin. apply Hnn. right. exact Hin. }
    destruct (PyDict.get x d) as [ax|] eqn:Ex; [|exact (IH Hrest)].
    assert (Hx : email_field ax <> Null).
    { apply (Hnn x ax); [left; reflexivity | exact Ex]. }
    unfold email_or_empty.
    destruct (email_field ax) as [| |e]; [|congruence|]; simpl.
    + destruct (normalize "" =? n); [eexists; reflexivity | exact (IH Hrest)].
    + destruct (normalize e =? n); [eexists; reflexivity | exact (IH Hrest)].
Qed.

Lemma get_account_by_email_returns {py : StrMethods} (m : Manager)
  (sender : option string) :
  no_null_email m -> exists r, get_account_by_email m sender = Return r.
Proof.
  intros Hnn. unfold get_account_by_email.
  destruct sender as [s|]; [|eexists; reflexivity].
  destruct (s =? ""); [eexists; reflexivity|].
  apply find_by_email_returns. exact Hnn.
Qed.

(** C9 (amended).  Two non-empty sender strings with the same normal
    form (lower-cased, then surrounding whitespace removed) resolve
    alike, both in the sender search and in full resolution without an
    explicit id, whatever the outcome is; when the search returns and
    some active, configured account's stored address has that normal
    form, the search has answered an active account whose stored address
    has it, and so has resolution; and the search returns whenever no
    active account stores [null] as its address.  The empty sender is
    never matched: the search answers no account for it, and resolution
    with it is resolution without a sender. *)
Theorem sender_resolution_normalized {py : StrMethods} (m : Manager)
  (s1 s2 : string) :
  (s1 <> "" -> s2 <> "" -> normalize s1 = normalize s2 ->
   get_account_by_email m (Some s1) = get_account_by_email m (Some s2) /\
   get_selected_account m None (Some s1) =
     get_selected_account m None (Some s2) /\
   (forall aid a r,
      active m aid -> PyDict.get aid (accounts m) = Some a ->
      lower_strip_value (email_or_empty a) = Return (normalize s1) ->
      get_account_by_email m (Some s1) = Return r ->
      exists aid' a',
        r = Some a' /\
        get_selected_account m None (Some s1) = Return (Some a') /\
        active m aid' /\ PyDict.get aid' (accounts m) = Some a' /\
        lower_strip_value (email_or_empty a') = Return (normalize s1)) /\
   (no_null_email m ->
      exists r, get_account_by_email m (Some s1) = Return r)) /\
  (get_account_by_email m (Some "") = Return None /\
   forall aid,
     get_selected_account m aid (Some "") = get_selected_account m aid None).
Proof.
  split.
  - intros H1 H2 Hn.
    assert (Hby : get_account_by_email m (Some s1)
                  = get_account_by_email m (Some s2)).
    { rewrite !get_account_by_email_normalized by assumption. now rewrite Hn. }
    split; [exact Hby|]. split; [|split].
    + rewrite !get_selected_account_by_sender by assumption. now rewrite Hby.
    + intros aid a r Hact Hget Hnorm Hr.
      rewrite get_selected_account_by_sender by assumption.
      rewrite Hr.
      rewrite get_account_by_email_normalized in Hr by assumption.
      destruct (find_by_email_found (accounts m) (normalize s1)
                  (selected_accounts m) aid a r Hact Hget Hnorm Hr)
        as (aid' & a' & F1 & F2 & F3 & F4).
      exists aid', a'. subst r. simpl. auto.
    + intros Hnn. apply get_account_by_email_returns. exact Hnn.
  - split; [reflexivity|]. intros aid. reflexivity.
Qed.

Lemma sender_resolution_normalized_witness :
  get_account_by_email Sample.two (Some " Foo@Bar.com ")
    = get_account_by_email Sample.two (Some "foo@bar.com") /\
  get_selected_account Sample.two None (Some " Foo@Bar.com ")
    = Return (Some Sample.bob).
Proof.
  destruct (sender_resolution_normalized Sample.two
              " Foo@Bar.com " "foo@bar.com") as [H _].
  destruct H as (H1 & _ & H3 & _).
  - discriminate.
  - discriminate.
  - reflexivity.
  - split; [exact H1|].
    destruct (H3 "bob" Sample.bob (Some Sample.bob))
      as (aid' & a' & E & G & _).
    + right; left; reflexivity.
    + reflexivity.
    + reflexivity.
    + reflexivity.
    + injection E as <-. exact G.
Defined.

(** C9 as stated fails in two ways.  The pair [""] and [" "]: both have
    the empty normal form, but the empty sender is not searched at all
    and resolves to the first active account, while the blank one
    matches the account whose stored address is empty.  And a stored
    address that differs from the sender only in case and surrounding
    whitespace does not match when the search first reaches an active
    account whose stored address is [null]: it raises. *)
Lemma sender_resolution_empty_differs :
  (normalize "" = normalize " " /\
   get_selected_account Sample.with_blank None (Some "")
     = Return (Some Sample.alice) /\
   get_selected_account Sample.with_blank None (Some " ")
     = Return (Some Sample.blank) /\
   Sample.alice <> Sample.blank) /\
  (normalize "Foo@Bar.com " = normalize "foo@bar.com" /\
   PyDict.get "bob" (accounts Sample.null_first) = Some Sample.bob /\
   active Sample.null_first "bob" /\
   get_account_by_email Sample.null_first (Some "foo@bar.com")
     = Raise (AttributeError "'NoneType' object has no attribute 'lower'") /\
   get_selected_account Sample.null_first None (Some "foo@bar.com")
     = Raise (AttributeError "'NoneType' object has no attribute 'lower'")).
Proof.
  split.
  - repeat split; try reflexivity. discriminate.
  - split; [reflexivity|]. split; [reflexivity|]. split.
    + right; left; reflexivity.
    + split; reflexivity.
Qed.

(* ================================================================== *)
(** * The administrative endpoints step by step *)

Ltac run_endpoint :=
  unfold bind, require_manager, put_manager, save_accounts, persist_failed,
    not_found, raise, ret; simpl.

Lemma create_account_run (disk_ok : bool) (account : AccountCreate)
  (s : Server) (m : Manager) :
  account_manager s = Some m ->
  PyDict.mem (new_account_id account) (accounts m) = false ->
  create_account disk_ok account s =
    (if disk_ok
     then OK (message_body "Account created successfully"
                (new_account_id account))
     else HTTPException 500 "Failed to persist account configuration",
     {| account_manager := Some (create_in_memory m account);
        config_file :=
          if disk_ok
          then Some (PyDict.values (accounts (create_in_memory m account)))
          else config_file s |}).
Proof.
  intros Hm Hmem. unfold create_account. run_endpoint.
  rewrite Hm, Hmem. simpl. destruct disk_ok; reflexivity.
Qed.

Lemma update_account_run (disk_ok : bool) (aid : string)
  (account : AccountCreate) (s : Server) (m : Manager) :
  account_manager s = Some m ->
  PyDict.mem aid (accounts m) = true ->
  update_account disk_ok aid account s =
    (if disk_ok
     then OK (message_body "Account updated successfully"
                (new_account_id account))
     else HTTPException 500 "Failed to persist account configuration",
     {| account_manager := Some (update_in_memory m aid account);
        config_file :=
          if disk_ok
          then Some (PyDict.values (accounts (update_in_memory m aid account)))
          else config_file s |}).
Proof.
  intros Hm Hmem. unfold update_account. run_endpoint.
  rewrite Hm, Hmem. simpl. destruct disk_ok; reflexivity.
Qed.

Lemma delete_account_run (disk_ok : bool) (aid : string)
  (s : Server) (m : Manager) :
  account_manager s = Some m ->
  PyDict.mem aid (accounts m) = true ->
  delete_account disk_ok aid s =
    (if disk_ok
     then OK (message_body "Account deleted successfully" aid)
     else HTTPException 500 "Failed to persist account configuration",
     {| account_manager := Some (delete_in_memory m aid);
        config_file :=
          if disk_ok
          then Some (PyDict.values (accounts (delete_in_memory m aid)))
          else config_file s |}).
Proof.
  intros Hm Hmem. unfold delete_account. run_endpoint.
  rewrite Hm, Hmem. simpl. destruct disk_ok; reflexivity.
Qed.

(** An endpoint that answers 404, 400 or 500-not-initialised leaves the
    manager as it was; otherwise the manager is the in-memory update.
    [manager_after] names the manager each operation leaves. *)
Lemma run_op_manager (op : RegistryOp) (s : Server) (m : Manager) :
  account_manager s = Some m ->
  account_manager (run_op op s) = Some
    match op with
    | SetActive ids => snd (set_selected_accounts m ids)
    | Select aid =>
        if PyDict.mem aid (accounts m) then select_in_memory m aid else m
    | Deselect aid =>
        if PyDict.mem aid (accounts m) then deselect_in_memory m aid else m
    | Create _ account =>
        if PyDict.mem (new_account_id account) (accounts m) then m
        else create_in_memory m account
    | Update _ aid account =>
        if PyDict.mem aid (accounts m) then update_in_memory m aid account
        else m
    | Delete _ aid =>
        if PyDict.mem aid (accounts m) then delete_in_memory m aid else m
    end.
Proof.
  intros Hm. destruct op as [ids|aid|aid|dk account|dk aid account|dk aid];
    simpl.
  - unfold set_active. run_endpoint. rewrite Hm. reflexivity.
  - unfold select_account. run_endpoint. rewrite Hm.
    destruct (PyDict.mem aid (accounts m)); simpl; [reflexivity | exact Hm].
  - unfold deselect_account. run_endpoint. rewrite Hm.
    destruct (PyDict.mem aid (accounts m)); simpl; [reflexivity | exact Hm].
  - destruct (PyDict.mem (new_account_id account) (accounts m)) eqn:E.
    + unfold create_account. run_endpoint. rewrite Hm, E. simpl. exact Hm.
    + rewrite (create_account_run dk account s m Hm E). reflexivity.
  - destruct (PyDict.mem aid (accounts m)) eqn:E.
    + rewrite (update_account_run dk aid account s m Hm E). reflexivity.
    + unfold update_account. run_endpoint. rewrite Hm, E. simpl. exact Hm.
  - destruct (PyDict.mem aid (accounts m)) eqn:E.
    + rewrite (delete_account_run dk aid s m Hm E). reflexivity.
    + unfold delete_account. run_endpoint. rewrite Hm, E. simpl. exact Hm.
Qed.

(* ================================================================== *)
(** * What the operations do to the two invariants *)

(** The account table keeps unique keys under every operation. *)
Lemma run_op_wf (op : RegistryOp) (s : Server) (m : Manager) :
  account_manager s = Some m -> PyDict.wf (accounts m) ->
  exists m', account_manager (run_op op s) = Some m' /\
             PyDict.wf (accounts m').
Proof.
  intros Hm Hwf. eexists. split; [apply (run_op_manager op s m Hm)|].
  destruct op as [ids|aid|aid|dk account|dk aid account|dk aid].
  - rewrite set_selected_accounts_accounts. exact Hwf.
  - unfold select_in_memory.
    destruct (PyDict.mem aid (accounts m)); [|exact Hwf].
    destruct (negb _); exact Hwf.
  - unfold deselect_in_memory.
    destruct (PyDict.mem aid (accounts m)); [|exact Hwf].
    destruct (list_mem _ _); exact Hwf.
  - destruct (PyDict.mem _ (accounts m)); [exact Hwf|].
    simpl. apply PyDictFacts.wf_set. exact Hwf.
  - destruct (PyDict.mem aid (accounts m)); [|exact Hwf].
    unfold update_in_memory. simpl. apply PyDictFacts.wf_set.
    destruct (negb (aid =? new_account_id account)); [|exact Hwf].
    simpl. destruct (list_mem aid (selected_accounts m)); simpl;
      apply PyDictFacts.wf_del; exact Hwf.
  - destruct (PyDict.mem aid (accounts m)); [|exact Hwf].
    unfold delete_in_memory. simpl.
    destruct (list_mem aid (selected_accounts m)); simpl;
      apply PyDictFacts.wf_del; exact Hwf.
Qed.

(** [l.remove(x)] clears [x] when [x] occurs at most once. *)
Lemma list_remove_once (x : string) (l : list string) :
  count_occ string_dec l x <= 1 -> ~ In x (list_remove x l).
Proof.
  induction l as [|y l IH]; simpl; [tauto|].
  destruct (string_dec y x) as [->|Hne].
  - rewrite String.eqb_refl. intros Hc Hin.
    apply (count_occ_In string_dec) in Hin. lia.
  - destruct (String.eqb_spec y x); [contradiction|].
    intros Hc [H|H]; [contradiction | exact (IH Hc H)].
Qed.

Lemma set_selected_accounts_subset (m : Manager) (ids : list string) :
  active_subset m -> active_subset (snd (set_selected_accounts m ids)).
Proof.
  intros Hsub. unfold set_selected_accounts.
  destruct ids as [|a ids].
  - intros x Hx. exact Hx.
  - destruct (filter (fun aid => PyDict.mem aid (accounts m)) (a :: ids))
      as [|v vs] eqn:Ef; [exact Hsub|].
    intros x Hx. change (In x (v :: vs)) in Hx.
    rewrite <- Ef in Hx. apply filter_In in Hx. destruct Hx as [_ Hx].
    apply PyDictFacts.mem_In in Hx. exact Hx.
Qed.

Lemma select_in_memory_subset (m : Manager) (aid : string) :
  configured m aid -> active_subset m -> active_subset (select_in_memory m aid).
Proof.
  intros Hc Hsub. unfold select_in_memory.
  destruct (negb (list_mem aid (selected_accounts m))); [|exact Hsub].
  intros x. unfold active, configured. simpl.
  rewrite in_app_iff. intros [H|[<-|[]]]; [apply Hsub, H | exact Hc].
Qed.

Lemma deselect_in_memory_subset (m : Manager) (aid : string) :
  active_subset m -> active_subset (deselect_in_memory m aid).
Proof.
  intros Hsub. unfold deselect_in_memory.
  destruct (list_mem aid (selected_accounts m)); [|exact Hsub].
  intros x. unfold active, configured. simpl. intros H.
  apply Hsub. eapply list_remove_incl. exact H.
Qed.

Lemma create_in_memory_subset (m : Manager) (account : AccountCreate) :
  active_subset m -> active_subset (create_in_memory m account).
Proof.
  intros Hsub x. unfold active, configured, create_in_memory. simpl.
  intros H. apply PyDictFacts.In_keys_set. right. apply Hsub, H.
Qed.

(** An update that keeps the identifier preserves the invariant. *)
Lemma update_in_memory_same_id_subset (m : Manager) (account : AccountCreate) :
  active_subset m ->
  active_subset (update_in_memory m (new_account_id account) account).
Proof.
  intros Hsub x. unfold active, configured, update_in_memory.
  rewrite String.eqb_refl. simpl.
  intros H. apply PyDictFacts.In_keys_set. right. apply Hsub, H.
Qed.

(** A renaming update preserves it when the old identifier occurs at most
    once in the selection. *)
Lemma update_in_memory_subset (m : Manager) (aid : string)
  (account : AccountCreate) :
  count_occ string_dec (selected_accounts m) aid <= 1 ->
  active_subset m -> active_subset (update_in_memory m aid account).
Proof.
  intros Honce Hsub.
  destruct (String.eqb_spec aid (new_account_id account)) as [->|Hne].
  { apply update_in_memory_same_id_subset. exact Hsub. }
  intros x. unfold active, configured, update_in_memory.
  destruct (String.eqb_spec aid (new_account_id account)); [contradiction|].
  simpl. destruct (list_mem aid (selected_accounts m)) eqn:Emem; simpl.
  - rewrite in_app_iff. intros [H|[<-|[]]].
    + apply PyDictFacts.In_keys_set. right. apply PyDictFacts.In_keys_del.
      split.
      * intros ->. exact (list_remove_once _ _ Honce H).
      * apply Hsub. eapply list_remove_incl. exact H.
    + apply PyDictFacts.In_keys_set. left. reflexivity.
  - intros H. apply PyDictFacts.In_keys_set. right.
    apply PyDictFacts.In_keys_del. split.
    + intros ->. apply list_mem_false in Emem. contradiction.
    + apply Hsub, H.
Qed.

(** So does a delete. *)
Lemma delete_in_memory_subset (m : Manager) (aid : string) :
  count_occ string_dec (selected_accounts m) aid <= 1 ->
  active_subset m -> active_subset (delete_in_memory m aid).
Proof.
  intros Honce Hsub x. unfold active, configured, delete_in_memory. simpl.
  destruct (list_mem aid (selected_accounts m)) eqn:Emem; simpl; intros H.
  - apply PyDictFacts.In_keys_del. split.
    + intros ->. exact (list_remove_once _ _ Honce H).
    + apply Hsub. eapply list_remove_incl. exact H.
  - apply PyDictFacts.In_keys_del. split.
    + intros ->. apply list_mem_false in Emem. contradiction.
    + apply Hsub, H.
Qed.

(** C7.  The claim is that every registry operation keeps the Active Set
    inside the configured identifiers.  The code does not: start the
    process on a file with accounts [alice] and [bob], activate all (the
    non-interactive start-up), rename [alice] to [bob] through the update
    endpoint, then delete [bob].  Both requests answer success.  After the
    rename the Active Set is [bob; bob] and still inside the configured
    identifiers; the delete removes the account and only the first of
    the two entries, leaving [bob] active but no longer configured. *)
Theorem active_subset_broken_by_delete :
  let s0 := run_ops [SetActive []] (boot [Sample.alice; Sample.bob]) in
  let s1 := run_op (Update true "alice" Sample.as_bob) s0 in
  let s2 := run_op (Delete true "bob") s1 in
  (exists m0, account_manager s0 = Some m0 /\
              selected_accounts m0 = ["alice"; "bob"] /\ active_subset m0) /\
  fst (update_account true "alice" Sample.as_bob s0)
    = OK (message_body "Account updated successfully" "bob") /\
  (exists m1, account_manager s1 = Some m1 /\
              selected_accounts m1 = ["bob"; "bob"] /\
              PyDict.keys (accounts m1) = ["bob"] /\ active_subset m1) /\
  fst (delete_account true "bob" s1)
    = OK (message_body "Account deleted successfully" "bob") /\
  (exists m2, account_manager s2 = Some m2 /\
              selected_accounts m2 = ["bob"] /\
              PyDict.keys (accounts m2) = [] /\
              active m2 "bob" /\ ~ configured m2 "bob" /\
              ~ active_subset m2).
Proof.
  cbv zeta. split; [|split; [|split; [|split]]].
  - eexists. split; [reflexivity|]. split; [reflexivity|].
    intros x H. exact H.
  - reflexivity.
  - eexists. split; [reflexivity|]. split; [reflexivity|].
    split; [reflexivity|].
    intros x [H|[H|[]]]; left; exact H.
  - reflexivity.
  - eexists. split; [reflexivity|]. split; [reflexivity|].
    split; [reflexivity|].
    assert (Ha : In "bob" ["bob"]) by (left; reflexivity).
    split; [exact Ha|]. split; [intros []|].
    intros Hsub. exact (Hsub "bob" Ha).
Qed.

(** C8.  When [create_account] reaches the save and the save fails, the
    caller gets the 500 answer, the file is unchanged, and the new record
    stays in the manager: it is in the table under its identifier and
    [GET /accounts/{id}] answers it. *)
Theorem create_persist_failure (s : Server) (m : Manager)
  (account : AccountCreate) :
  account_manager s = Some m ->
  ~ configured m (new_account_id account) ->
  let r := create_account false account s in
  fst r = HTTPException 500 "Failed to persist account configuration" /\
  config_file (snd r) = config_file s /\
  exists m',
    account_manager (snd r) = Some m' /\
    PyDict.get (new_account_id account) (accounts m')
      = Some (account_of account) /\
    configured m' (new_account_id account) /\
    (forall k, k <> new_account_id account ->
               PyDict.get k (accounts m') = PyDict.get k (accounts m)) /\
    selected_accounts m' = selected_accounts m /\
    exists body,
      fst (get_account_endpoint (new_account_id account) (snd r)) = OK body /\
      jget "account_id" body = Some (JStr (new_account_id account)) /\
      jget "email" body = Some (JStr (new_email account)).
Proof.
  intros Hm Hnew. apply PyDictFacts.mem_false in Hnew.
  cbv zeta. rewrite (create_account_run false account s m Hm Hnew). simpl.
  split; [reflexivity|]. split; [reflexivity|].
  exists (create_in_memory m account).
  assert (Hget : PyDict.get (new_account_id account)
                   (accounts (create_in_memory m account))
                 = Some (account_of account)).
  { unfold create_in_memory. simpl. apply PyDictFacts.get_set_same. }
  split; [reflexivity|]. split; [exact Hget|].
  split; [eapply PyDictFacts.get_Some_In; exact Hget|].
  split.
  { intros k Hk. unfold create_in_memory. simpl.
    apply PyDictFacts.get_set_other. exact Hk. }
  split; [reflexivity|].
  unfold get_account_endpoint. run_endpoint.
  unfold create_in_memory in Hget. simpl in Hget. rewrite Hget.
  eexists. split; [reflexivity|]. simpl.
  split; reflexivity.
Qed.

Lemma create_persist_failure_witness :
  fst (create_account false Sample.dave (Sample.server_of Sample.two))
    = HTTPException 500 "Failed to persist account configuration" /\
  exists m',
    account_manager
      (snd (create_account false Sample.dave (Sample.server_of Sample.two)))
      = Some m' /\
    PyDict.get "dave" (accounts m') = Some (account_of Sample.dave).
Proof.
  destruct (create_persist_failure (Sample.server_of Sample.two) Sample.two
              Sample.dave) as (H1 & _ & m' & H2 & H3 & _).
  - reflexivity.
  - intros [H|[H|[]]]; discriminate.
  - split; [exact H1|]. exists m'. split; [exact H2 | exact H3].
Defined.

(** C10 (amended).  Updating a configured account [oldId] with a record
    whose identifier is another configured account's is not refused: the
    answer is success exactly when the save succeeds and the persistence
    error otherwise, and in both cases the manager ends with the new
    record stored under the new identifier in place of the other
    account's record, [oldId] gone, and one account fewer.  If [oldId]
    was in the Active Set, its first occurrence is removed and the new
    identifier is appended at the end; if not, the Active Set is kept. *)
Theorem update_onto_existing_id (disk_ok : bool) (s : Server) (m : Manager)
  (oldId : string) (account : AccountCreate) :
  account_manager s = Some m ->
  PyDict.wf (accounts m) ->
  configured m oldId ->
  new_account_id account <> oldId ->
  configured m (new_account_id account) ->
  let r := update_account disk_ok oldId account s in
  (fst r = if disk_ok
           then OK (message_body "Account updated successfully"
                      (new_account_id account))
           else HTTPException 500 "Failed to persist account configuration") /\
  exists m',
    account_manager (snd r) = Some m' /\
    PyDict.get (new_account_id account) (accounts m')
      = Some (account_of account) /\
    PyDict.get oldId (accounts m') = None /\
    (forall k, k <> oldId -> k <> new_account_id account ->
               PyDict.get k (accounts m') = PyDict.get k (accounts m)) /\
    S (PyDict.len (accounts m')) = PyDict.len (accounts m) /\
    (active m oldId ->
       selected_accounts m' =
         (list_remove oldId (selected_accounts m)
            ++ [new_account_id account])%list) /\
    (~ active m oldId -> selected_accounts m' = selected_accounts m).
Proof.
  intros Hm Hwf Hold Hne Hnew.
  assert (Hmem : PyDict.mem oldId (accounts m) = true)
    by (apply PyDictFacts.mem_In; exact Hold).
  cbv zeta. rewrite (update_account_run disk_ok oldId account s m Hm Hmem).
  simpl. split; [reflexivity|].
  exists (update_in_memory m oldId account).
  split; [reflexivity|].
  assert (Hacc : accounts (update_in_memory m oldId account) =
                 PyDict.set (new_account_id account) (account_of account)
                   (PyDict.del oldId (accounts m))).
  { unfold update_in_memory.
    destruct (String.eqb_spec oldId (new_account_id account));
      [congruence|].
    simpl. destruct (list_mem oldId (selected_accounts m)); reflexivity. }
  assert (Hsel : selected_accounts (update_in_memory m oldId account) =
                 if list_mem oldId (selected_accounts m)
                 then (list_remove oldId (selected_accounts m)
                         ++ [new_account_id account])%list
                 else selected_accounts m).
  { unfold update_in_memory.
    destruct (String.eqb_spec oldId (new_account_id account));
      [congruence|].
    simpl. destruct (list_mem oldId (selected_accounts m)); reflexivity. }
  rewrite Hacc, Hsel.
  split; [apply PyDictFacts.get_set_same|].
  split.
  { rewrite PyDictFacts.get_set_other by congruence.
    apply PyDictFacts.get_del_same. }
  split.
  { intros k Hk1 Hk2. rewrite PyDictFacts.get_set_other by assumption.
    apply PyDictFacts.get_del_other. exact Hk1. }
  split.
  { rewrite PyDictFacts.len_set_present.
    - apply PyDictFacts.len_del; assumption.
    - apply PyDictFacts.In_keys_del. split; assumption. }
  split.
  - intros Hact. apply list_mem_In in Hact. rewrite Hact. reflexivity.
  - intros Hna. apply list_mem_false in Hna. rewrite Hna. reflexivity.
Qed.

Lemma update_onto_existing_id_witness :
  fst (update_account true "alice" Sample.as_bob (Sample.server_of Sample.two))
    = OK (message_body "Account updated successfully" "bob") /\
  exists m',
    account_manager
      (snd (update_account true "alice" Sample.as_bob
              (Sample.server_of Sample.two))) = Some m' /\
    PyDict.get "bob" (accounts m') = Some (account_of Sample.as_bob) /\
    S (PyDict.len (accounts m')) = 2 /\
    selected_accounts m' = ["bob"; "bob"].
Proof.
  destruct (update_onto_existing_id true (Sample.server_of Sample.two)
              Sample.two "alice" Sample.as_bob)
    as (H1 & m' & H2 & H3 & _ & _ & H4 & H5 & _).
  - reflexivity.
  - unfold PyDict.wf. simpl. constructor.
    + intros [H|[]]. discriminate.
    + constructor; [intros [] | constructor].
  - left. reflexivity.
  - discriminate.
  - right. left. reflexivity.
  - split; [exact H1|]. exists m'.
    split; [exact H2|]. split; [exact H3|]. split; [exact H4|].
    apply H5. left. reflexivity.
Defined.

(** C10 as stated says the update succeeds with no error reported; when
    the save fails the caller gets the 500 answer instead. *)
Lemma update_onto_existing_id_may_report_error :
  PyDict.mem "alice" (accounts Sample.two) = true /\
  PyDict.mem "bob" (accounts Sample.two) = true /\
  fst (update_account false "alice" Sample.as_bob
         (Sample.server_of Sample.two))
    = HTTPException 500 "Failed to persist account configuration".
Proof.
  repeat split.
Qed.

(* ================================================================== *)
(** * Base64: decoding undoes encoding *)

Module Base64Facts.
Import Base64.

Lemma sextet_table :
  forallb (fun k =>
             match sextet_of_char (char_of_sextet (N.of_nat k)) with
             | Some x => N.eqb x (N.of_nat k)
             | None => false
             end && negb (Ascii.eqb (char_of_sextet (N.of_nat k)) pad))
          (seq 0 64) = true.
Proof. vm_compute. reflexivity. Qed.

Lemma sextet_entry (n : N) :
  (n < 64)%N ->
  sextet_of_char (char_of_sextet n) = Some n /\
  Ascii.eqb (char_of_sextet n) pad = false.
Proof.
  intros Hn.
  pose proof (proj1 (forallb_forall _ _) sextet_table (N.to_nat n)) as H.
  assert (Hin : In (N.to_nat n) (seq 0 64)) by (apply in_seq; lia).
  specialize (H Hin). cbv beta in H. rewrite N2Nat.id in H. apply andb_true_iff in H. destruct H as [H1 H2].
  split.
  - destruct (sextet_of_char (char_of_sextet n)) as [x|]; [|discriminate].
    apply N.eqb_eq in H1. now subst.
  - now apply negb_true_iff in H2.
Qed.

Lemma group_bounds (a b c : N) :
  (a <= 255 -> b <= 255 -> c <= 255 ->
   let n := group a b c in
   s0 n < 64 /\ s1 n < 64 /\ s2 n < 64 /\ s3 n < 64 /\
   ungroup (s0 n) (s1 n) (s2 n) (s3 n) = n /\
   n / 65536 = a /\ (n / 256) mod 256 = b /\ n mod 256 = c)%N.
Proof.
  intros Ha Hb Hc. unfold group, s0, s1, s2, s3, ungroup. cbv zeta.
  repeat split.
  all: try (apply N.mod_lt; discriminate).
  all: zify; Z.to_euclidean_division_equations; lia.
Qed.

Lemma byte_of_to_N (x : byte) : Byte.of_N (Byte.to_N x) = Some x.
Proof. apply Byte.of_to_N. Qed.

Lemma to_N_le (x : byte) : (Byte.to_N x <= 255)%N.
Proof. pose proof (Byte.to_N_bounded x). lia. Qed.

(** One step of the decoder on a four-character group. *)
Lemma b64decode_group (c0 c1 c2 c3 : ascii) (rest : string) :
  b64decode (String c0 (String c1 (String c2 (String c3 rest)))) =
  match sextet_of_char c0, sextet_of_char c1 with
  | Some x0, Some x1 =>
      if Ascii.eqb c3 pad then
        match rest with
        | EmptyString =>
            if Ascii.eqb c2 pad then
              opt_cons (byte0 (ungroup x0 x1 0 0)) (Some [])
            else
              match sextet_of_char c2 with
              | Some x2 =>
                  opt_cons (byte0 (ungroup x0 x1 x2 0))
                    (opt_cons (byte1 (ungroup x0 x1 x2 0)) (Some []))
              | None => None
              end
        | _ => None
        end
      else
        match sextet_of_char c2, sextet_of_char c3 with
        | Some x2, Some x3 =>
            opt_cons (byte0 (ungroup x0 x1 x2 x3))
              (opt_cons (byte1 (ungroup x0 x1 x2 x3))
                 (opt_cons (byte2 (ungroup x0 x1 x2 x3)) (b64decode rest)))
        | _, _ => None
        end
  | _, _ => None
  end.
Proof. reflexivity. Qed.

Ltac sextets n :=
  match goal with
  | B0 : (s0 n < 64)%N, B1 : (s1 n < 64)%N,
    B2 : (s2 n < 64)%N, B3 : (s3 n < 64)%N |- _ =>
      let E := fresh "E" in let P := fresh "P" in
      destruct (sextet_entry _ B0) as [E P]; rewrite ?E, ?P; clear E P;
      destruct (sextet_entry _ B1) as [E P]; rewrite ?E, ?P; clear E P;
      destruct (sextet_entry _ B2) as [E P]; rewrite ?E, ?P; clear E P;
      destruct (sextet_entry _ B3) as [E P]; rewrite ?E, ?P; clear E P
  end.

(** Decoding the group that encodes three bytes. *)
Lemma decode_full_group (a b c : byte) (rest : string) :
  let n := group (Byte.to_N a) (Byte.to_N b) (Byte.to_N c) in
  b64decode
    (String (char_of_sextet (s0 n)) (String (char_of_sextet (s1 n))
       (String (char_of_sextet (s2 n)) (String (char_of_sextet (s3 n))
          rest))))
  = opt_cons (Some a) (opt_cons (Some b) (opt_cons (Some c) (b64decode rest))).
Proof.
  intros n.
  destruct (group_bounds (Byte.to_N a) (Byte.to_N b) (Byte.to_N c)
              (to_N_le a) (to_N_le b) (to_N_le c))
    as (B0 & B1 & B2 & B3 & Hun & H0 & H1 & H2).
  fold n in B0, B1, B2, B3, Hun, H0, H1, H2.
  rewrite b64decode_group. sextets n. rewrite Hun.
  unfold byte0, byte1, byte2. rewrite H0, H1, H2.
  rewrite !byte_of_to_N. reflexivity.
Qed.

Lemma low_sextets_zero (a b : N) :
  (s3 (group a b 0) = 0 /\ s2 (group a 0 0) = 0 /\ s3 (group a 0 0) = 0)%N.
Proof.
  unfold s2, s3, group. repeat split;
    zify; Z.to_euclidean_division_equations; lia.
Qed.

(** The last group of an input with two bytes left. *)
Lemma decode_two_bytes (a b : byte) :
  let n := group (Byte.to_N a) (Byte.to_N b) 0 in
  b64decode
    (String (char_of_sextet (s0 n)) (String (char_of_sextet (s1 n))
       (String (char_of_sextet (s2 n)) (String pad EmptyString))))
  = Some [a; b].
Proof.
  intros n.
  destruct (group_bounds (Byte.to_N a) (Byte.to_N b) 0
              (to_N_le a) (to_N_le b) ltac:(lia))
    as (B0 & B1 & B2 & B3 & Hun & H0 & H1 & _).
  destruct (low_sextets_zero (Byte.to_N a) (Byte.to_N b)) as (Z3 & _ & _).
  fold n in B0, B1, B2, B3, Hun, H0, H1, Z3.
  rewrite Z3 in Hun.
  rewrite b64decode_group. sextets n. rewrite Ascii.eqb_refl, Hun.
  unfold byte0, byte1. rewrite H0, H1.
  rewrite !byte_of_to_N. reflexivity.
Qed.

(** The last group of an input with one byte left. *)
Lemma decode_one_byte (a : byte) :
  let n := group (Byte.to_N a) 0 0 in
  b64decode
    (String (char_of_sextet (s0 n)) (String (char_of_sextet (s1 n))
       (String pad (String pad EmptyString))))
  = Some [a].
Proof.
  intros n.
  destruct (group_bounds (Byte.to_N a) 0 0 (to_N_le a) ltac:(lia) ltac:(lia))
    as (B0 & B1 & B2 & B3 & Hun & H0 & _ & _).
  destruct (low_sextets_zero (Byte.to_N a) 0) as (_ & Z2 & Z3).
  fold n in B0, B1, B2, B3, Hun, H0, Z2, Z3.
  rewrite Z2, Z3 in Hun.
  rewrite b64decode_group. sextets n. rewrite Ascii.eqb_refl, Hun.
  unfold byte0. rewrite H0.
  rewrite !byte_of_to_N. reflexivity.
Qed.

(** Lists three elements at a time. *)
Lemma list_ind3 {A : Type} (P : list A -> Prop) :
  P [] -> (forall a, P [a]) -> (forall a b, P [a; b]) ->
  (forall a b c l, P l -> P (a :: b :: c :: l)) ->
  forall l, P l.
Proof.
  intros H0 H1 H2 H3.
  assert (H : forall l, P l /\ (forall a, P (a :: l)) /\
                        (forall a b, P (a :: b :: l))).
  { induction l as [|x l (IH0 & IH1 & IH2)].
    - auto.
    - repeat split; auto. }
  intros l. apply H.
Qed.

(** Decoding undoes encoding. *)
Lemma b64decode_b64encode (bs : list byte) :
  b64decode (b64encode bs) = Some bs.
Proof.
  induction bs as [|a|a b|a b c rest IH] using list_ind3.
  - reflexivity.
  - apply decode_one_byte.
  - apply decode_two_bytes.
  - change (b64encode (a :: b :: c :: rest))
      with (let n := group (Byte.to_N a) (Byte.to_N b) (Byte.to_N c) in
            String (char_of_sextet (s0 n)) (String (char_of_sextet (s1 n))
              (String (char_of_sextet (s2 n)) (String (char_of_sextet (s3 n))
                 (b64encode rest))))).
    cbv zeta. rewrite decode_full_group, IH. reflexivity.
Qed.

(** The encoding is four characters for every three bytes, rounded up. *)
Lemma b64encode_length (bs : list byte) :
  String.length (b64encode bs) = 4 * ((List.length bs + 2) / 3).
Proof.
  induction bs as [|a|a b|a b c rest IH] using list_ind3.
  - reflexivity.
  - reflexivity.
  - reflexivity.
  - change (String.length (b64encode (a :: b :: c :: rest)))
      with (4 + String.length (b64encode rest)).
    rewrite IH. cbn [List.length].
    replace (S (S (S (List.length rest))) + 2) with (1 * 3 + (List.length rest + 2)) by lia.
    rewrite Nat.div_add_l by discriminate. lia.
Qed.
End Base64Facts.

(* ================================================================== *)
(** * Attachment extraction *)

Lemma walk_self (msg : Message) : In msg (walk msg).
Proof. destruct msg; left; reflexivity. Qed.

Lemma walk_sub (h : list (string * string)) (f : result (option string))
  (parts : list Message) (p q : Message) :
  In p parts -> In q (walk p) -> In q (walk (Multipart h f parts)).
Proof.
  intros Hp Hq. simpl. right. apply in_flat_map. exists p. auto.
Qed.

(** A part that becomes a record has a non-empty file name. *)
Lemma is_attachment_part_filename (part : Message) :
  is_attachment_part part = true ->
  marked_attachment part = true /\
  exists filename,
    get_filename part = Return (Some filename) /\ filename <> "".
Proof.
  unfold is_attachment_part, has_filename. intros H.
  apply andb_true_iff in H. destruct H as [Hm Hf]. split; [exact Hm|].
  destruct (get_filename part) as [[f|]|e]; try discriminate.
  exists f. split; [reflexivity|]. simpl in Hf.
  destruct (String.eqb_spec f ""); [discriminate | assumption].
Qed.

(** The loop on a list without a part it raises on. *)
Lemma collect_attachments_leaves (todo : list Message) (acc : list json) :
  (forall part, In part todo -> trips_extraction part = false) ->
  collect_attachments todo acc =
    Return (acc ++ map record_of (filter is_attachment_part todo))%list.
Proof.
  revert acc. induction todo as [|part rest IH]; intros acc Hclean; simpl.
  - now rewrite app_nil_r.
  - assert (Hrest : forall p, In p rest -> trips_extraction p = false)
      by (intros p Hp; apply Hclean; right; exact Hp).
    specialize (Hclean part (or_introl eq_refl)).
    unfold trips_extraction in Hclean.
    unfold is_attachment_part at 1, has_filename, record_of.
    destruct (marked_attachment part) eqn:Em; simpl; [|apply IH, Hrest].
    simpl in Hclean.
    destruct (get_filename part) as [f|e] eqn:Ef; [|discriminate]. simpl.
    destruct (PyStr.truthy f) eqn:Et; [|apply IH, Hrest].
    simpl in Hclean.
    destruct part as [h f0 payload | h f0 parts]; [|discriminate].
    destruct f as [filename|]; [|discriminate].
    simpl in Ef. subst f0.
    simpl. rewrite IH by exact Hrest.
    rewrite <- app_assoc. reflexivity.
Qed.

(** The loop raises on the first part it trips on. *)
Lemma collect_attachments_raises (todo : list Message) (acc : list json)
  (part : Message) :
  find trips_extraction todo = Some part ->
  collect_attachments todo acc = Raise (raised_on part).
Proof.
  revert acc. induction todo as [|p rest IH]; intros acc Hfind; simpl in *.
  - discriminate.
  - unfold trips_extraction in Hfind at 1.
    destruct (marked_attachment p) eqn:Em; simpl in Hfind;
      [|apply IH, Hfind].
    destruct (get_filename p) as [f|e] eqn:Ef; simpl.
    + destruct (PyStr.truthy f) eqn:Et; simpl in Hfind; [|apply IH, Hfind].
      destruct f as [filename|]; [|discriminate].
      destruct p as [h f0 payload | h f0 parts]; simpl in *.
      * apply IH, Hfind.
      * injection Hfind as <-. unfold raised_on. simpl. rewrite Ef.
        reflexivity.
    + injection Hfind as <-. unfold raised_on. rewrite Ef. reflexivity.
Qed.

(** C6 (amended).  A message that is not multi-part yields no records,
    whatever its own disposition.  For a multi-part message in which the
    loop trips on no part (no part whose disposition text contains
    [attachment] has a file name lookup that raises, or is a container
    with a non-empty file name), the extraction visits every part of the
    traversal and yields, in traversal order, one record for exactly the
    parts whose disposition text contains [attachment] and whose file
    name is non-empty; each record holds the part's file name and the
    base64 text of its decoded payload, which decodes back to that
    payload.  A part without a file name yields no record. *)
Theorem attachment_extraction (msg : Message) :
  (is_multipart msg = false -> extract_attachments msg = Return []) /\
  (is_multipart msg = true ->
   (forall part, In part (walk msg) -> trips_extraction part = false) ->
   extract_attachments msg =
     Return (map record_of (filter is_attachment_part (walk msg))) /\
   forall part, In part (walk msg) -> is_attachment_part part = true ->
     exists filename payload,
       get_filename part = Return (Some filename) /\
       filename <> "" /\
       get_payload_decoded part = Some payload /\
       record_of part =
         JDict [("filename", JStr filename);
                ("content", JStr (Base64.b64encode payload))] /\
       Base64.b64decode (Base64.b64encode payload) = Some payload) /\
  (forall part,
     get_filename part = Return None \/ get_filename part = Return (Some "") ->
     is_attachment_part part = false).
Proof.
  split; [|split].
  - intros H. unfold extract_attachments. now rewrite H.
  - intros Hmulti Hclean. split.
    + unfold extract_attachments. rewrite Hmulti.
      now rewrite collect_attachments_leaves.
    + intros part Hin Hatt.
      destruct (is_attachment_part_filename part Hatt)
        as (Hm & filename & Hf & Hne).
      specialize (Hclean part Hin).
      unfold trips_extraction in Hclean. rewrite Hm, Hf in Hclean.
      simpl in Hclean.
      destruct (String.eqb_spec filename ""); [contradiction|].
      simpl in Hclean.
      destruct part as [h f payload | h f parts]; [|discriminate].
      exists filename, payload. unfold record_of. rewrite Hf.
      repeat split; try assumption.
      apply Base64Facts.b64decode_b64encode.
  - intros part [Hnone|Hnone]; unfold is_attachment_part, has_filename;
      rewrite Hnone; apply andb_false_r.
Qed.

Lemma attachment_extraction_witness :
  extract_attachments Sample.report =
    Return [JDict [("filename", JStr "a.txt"); ("content", JStr "aGVsbG8=")]] /\
  Base64.b64decode "aGVsbG8=" = Some (Sample.bytes_of "hello") /\
  extract_attachments Sample.plain = Return [].
Proof.
  destruct (attachment_extraction Sample.report) as (_ & H & _).
  destruct H as [H1 H2].
  - reflexivity.
  - intros part [<-|[<-|[<-|[]]]]; reflexivity.
  - split; [exact H1|]. split.
    + destruct (H2 Sample.a_txt) as (f & payload & _ & _ & Hp & _ & Hrt).
      * right. right. left. reflexivity.
      * reflexivity.
      * injection Hp as <-. exact Hrt.
    + destruct (attachment_extraction Sample.plain) as (H & _).
      apply H. reflexivity.
Defined.

(** C6 as stated fails in several ways.  A message that is not
    multi-part: it is itself marked as an attachment and carries the
    file name [a.txt], the traversal consists of this one part, and no
    record is produced.  In a multi-part message: an inline part whose
    file name contains the word [attachment] is recorded although its
    disposition is [inline]; a part whose disposition is spelled
    [Attachment] and which carries the file name [b.txt] is not
    recorded; and a part marked as an attachment whose file name
    parameter is empty is not recorded. *)
Lemma lone_attachment_not_extracted :
  (walk Sample.lone = [Sample.lone] /\
   marked_attachment Sample.lone = true /\
   get_filename Sample.lone = Return (Some "a.txt") /\
   extract_attachments Sample.lone = Return []) /\
  (walk Sample.odd =
     [Sample.odd; Sample.inline_named; Sample.capitalised; Sample.unnamed] /\
   msg_get Sample.inline_named "Content-Disposition"
     = Some "inline; filename=attachment.txt" /\
   msg_get Sample.capitalised "Content-Disposition"
     = Some "Attachment; filename=b.txt" /\
   get_filename Sample.capitalised = Return (Some "b.txt") /\
   msg_get Sample.unnamed "Content-Disposition"
     = Some "attachment; filename=" /\
   get_filename Sample.unnamed = Return (Some "") /\
   extract_attachments Sample.odd =
     Return [JDict [("filename", JStr "attachment.txt");
                    ("content", JStr "eno=")]]).
Proof.
  split; repeat split.
Qed.

(* ================================================================== *)
(** * The send loop and the hook *)

Section HandlerFacts.

Context {py : StrMethods}.
Variable decode_utf8_ignore : list byte -> string.
Variable parsestr : string -> Message.
Variable post : nat -> json -> HttpOutcome.

(** Every account is posted for, in order, whatever the earlier posts
    answered; each outcome goes to exactly one of the two counters. *)
Lemma send_each_spec (mk : Account -> json) (accounts_to_use : list Account) :
  forall (i : nat) (sent : list json) (succeeded failed : nat),
  let r := send_each post mk i accounts_to_use sent succeeded failed in
  let outcomes := outcomes_from post mk i accounts_to_use in
  reply r = "250 OK" /\
  attempts r = (sent ++ map mk accounts_to_use)%list /\
  success_count r = succeeded + length (filter delivered outcomes) /\
  failed_count r =
    failed + length (filter (fun o => negb (delivered o)) outcomes).
Proof.
  induction accounts_to_use as [|account rest IH]; intros i sent su fa; simpl.
  - rewrite app_nil_r, !Nat.add_0_r. auto.
  - destruct (post i (mk account)) eqn:E; simpl;
      match goal with
      | |- context [send_each post mk (S i) rest ?s ?a ?b] =>
          destruct (IH (S i) s a b) as (H1 & H2 & H3 & H4)
      end;
      rewrite H1, H2, H3, H4, <- app_assoc; simpl;
      repeat split; lia.
Qed.

Lemma outcomes_from_length (mk : Account -> json)
  (accounts_to_use : list Account) (i : nat) :
  length (outcomes_from post mk i accounts_to_use) = length accounts_to_use.
Proof.
  revert i. induction accounts_to_use as [|a rest IH]; intros i; simpl;
    [reflexivity | now rewrite IH].
Qed.

Lemma filter_split_length {A : Type} (f : A -> bool) (l : list A) :
  length (filter f l) + length (filter (fun x => negb (f x)) l) = length l.
Proof.
  induction l as [|x l IH]; simpl; [reflexivity|].
  destruct (f x); simpl; lia.
Qed.

(** When the extraction and the choice of accounts return, the hook
    returns, the reply is [250 OK], the posts are one per account to
    use, in order, and the counters add up to the number of accounts. *)
Lemma handle_DATA_returns (m : Manager) (envelope : Envelope)
  (attachments : list json) (accounts_to_use : list Account) :
  let raw := decode_utf8_ignore (content envelope) in
  let msg := parsestr raw in
  let mk := fastapi_payload raw (effective_recipient envelope)
              (subject_of msg) attachments in
  let outcomes := outcomes_from post mk 0 accounts_to_use in
  extract_attachments msg = Return attachments ->
  accounts_to_use_of m (msg_get msg "X-Brityworks-Account")
    (effective_sender envelope) = Return accounts_to_use ->
  exists r,
    handle_DATA decode_utf8_ignore parsestr post m envelope = Return r /\
    reply r = "250 OK" /\
    attempts r = map mk accounts_to_use /\
    success_count r = length (filter delivered outcomes) /\
    failed_count r = length (filter (fun o => negb (delivered o)) outcomes) /\
    success_count r + failed_count r = length accounts_to_use.
Proof.
  intros raw msg mk outcomes Hext Haccs.
  unfold handle_DATA. fold raw. fold msg. rewrite Hext. simpl.
  rewrite Haccs. simpl. fold mk.
  destruct accounts_to_use as [|a rest] eqn:Eaccs.
  - eexists. split; [reflexivity|]. simpl. auto.
  - eexists. split; [reflexivity|].
    destruct (send_each_spec mk (a :: rest) 0 [] 0 0) as (H1 & H2 & H3 & H4).
    fold outcomes in H3, H4.
    pose proof (filter_split_length delivered outcomes) as Hs.
    pose proof (outcomes_from_length mk (a :: rest) 0) as Hl.
    fold outcomes in Hl.
    rewrite H1, H2, H3, H4. repeat split. lia.
Qed.

(** The hook raises what the extraction raises, and otherwise what the
    choice of accounts raises. *)
Lemma handle_DATA_raises (m : Manager) (envelope : Envelope) (e : PyException) :
  extract_attachments (parsestr (decode_utf8_ignore (content envelope)))
    = Raise e ->
  handle_DATA decode_utf8_ignore parsestr post m envelope = Raise e.
Proof.
  intros H. unfold handle_DATA. rewrite H. reflexivity.
Qed.

Lemma handle_DATA_raises_late (m : Manager) (envelope : Envelope)
  (attachments : list json) (e : PyException) :
  let msg := parsestr (decode_utf8_ignore (content envelope)) in
  extract_attachments msg = Return attachments ->
  accounts_to_use_of m (msg_get msg "X-Brityworks-Account")
    (effective_sender envelope) = Raise e ->
  handle_DATA decode_utf8_ignore parsestr post m envelope = Raise e.
Proof.
  intros msg Hext Haccs. unfold handle_DATA. fold msg.
  rewrite Hext. simpl. rewrite Haccs. reflexivity.
Qed.

(** A run that returns went through both steps. *)
Lemma handle_DATA_inv (m : Manager) (envelope : Envelope) (r : Completed) :
  let msg := parsestr (decode_utf8_ignore (content envelope)) in
  handle_DATA decode_utf8_ignore parsestr post m envelope = Return r ->
  exists attachments accounts_to_use,
    extract_attachments msg = Return attachments /\
    accounts_to_use_of m (msg_get msg "X-Brityworks-Account")
      (effective_sender envelope) = Return accounts_to_use.
Proof.
  intros msg H.
  destruct (extract_attachments msg) as [atts|e] eqn:Hext.
  - destruct (accounts_to_use_of m (msg_get msg "X-Brityworks-Account")
                (effective_sender envelope)) as [accs|e] eqn:Haccs.
    + exists atts, accs. split; reflexivity.
    + rewrite (handle_DATA_raises_late m envelope atts e Hext Haccs) in H.
      discriminate.
  - rewrite (handle_DATA_raises m envelope e Hext) in H. discriminate.
Qed.

(** Whenever the hook returns, its reply is the positive one. *)
Lemma handle_DATA_reply (m : Manager) (envelope : Envelope) (r : Completed) :
  handle_DATA decode_utf8_ignore parsestr post m envelope = Return r ->
  reply r = "250 OK".
Proof.
  intros H.
  destruct (handle_DATA_inv m envelope r H) as (atts & accs & Hext & Haccs).
  destruct (handle_DATA_returns m envelope atts accs Hext Haccs)
    as (r' & Hr & Hrep & _).
  congruence.
Qed.

End HandlerFacts.

(** With every selected identifier configured, [get_all_selected_accounts]
    answers one account per entry of the Active Set, in its order. *)
Lemma lookup_all_Forall2 (d : PyDict.t Account) (sel : list string) :
  (forall x, In x sel -> In x (PyDict.keys d)) ->
  Forall2 (fun aid account => PyDict.get aid d = Some account)
          sel (lookup_all d sel).
Proof.
  induction sel as [|aid rest IH]; intros Hsub; simpl; [constructor|].
  destruct (PyDictFacts.In_get aid d (Hsub aid (or_introl eq_refl)))
    as [a Ha].
  rewrite Ha. constructor; [exact Ha|].
  apply IH. intros x Hx. apply Hsub. right. exact Hx.
Qed.

Lemma get_all_selected_accounts_spec (m : Manager) :
  active_subset m ->
  Forall2 (fun aid account => PyDict.get aid (accounts m) = Some account)
          (selected_accounts m) (get_all_selected_accounts m) /\
  length (get_all_selected_accounts m) = length (selected_accounts m).
Proof.
  intros Hsub.
  assert (H := lookup_all_Forall2 (accounts m) (selected_accounts m) Hsub).
  split; [exact H|]. symmetry. eapply Forall2_length. exact H.
Qed.

(** The fan-out itself: with the routing header equal to [ALL] in any
    case, when the extraction returns, the hook posts once for every
    active account, in order, and counts each outcome once; no outcome
    changes which posts are made. *)
Lemma fan_out_all {py : StrMethods}
  (decode_utf8_ignore : list byte -> string)
  (parsestr : string -> Message) (post : nat -> json -> HttpOutcome)
  (m : Manager) (envelope : Envelope) (attachments : list json) :
  let raw := decode_utf8_ignore (content envelope) in
  let msg := parsestr raw in
  let mk := fastapi_payload raw (effective_recipient envelope)
              (subject_of msg) attachments in
  let outcomes := outcomes_from post mk 0 (get_all_selected_accounts m) in
  send_from_all_of (msg_get msg "X-Brityworks-Account") = true ->
  extract_attachments msg = Return attachments ->
  exists r,
    handle_DATA decode_utf8_ignore parsestr post m envelope = Return r /\
    reply r = "250 OK" /\
    attempts r = map mk (get_all_selected_accounts m) /\
    success_count r = length (filter delivered outcomes) /\
    failed_count r = length (filter (fun o => negb (delivered o)) outcomes) /\
    success_count r + failed_count r = length (get_all_selected_accounts m).
Proof.
  intros raw msg mk outcomes Hall Hext.
  apply (handle_DATA_returns decode_utf8_ignore parsestr post m envelope
           attachments (get_all_selected_accounts m) Hext).
  fold raw. fold msg. unfold accounts_to_use_of. now rewrite Hall.
Qed.

(* ================================================================== *)
(** * What the vendor document says about sender and recipient *)

(** C1 (amended).  Whenever the hook returns, it has posted one body per
    account to use, in order, and for each such account: if the account
    has no stored address the body does not validate and no vendor
    document is built; otherwise the vendor document built from the body
    has its three sender fields made from the account's stored address
    [e] - [email] and [userID] equal to [e], [sendrIndiVal] equal to
    [e<e>] - and its recipient entry carries the effective recipient
    (first envelope recipient, or the placeholder) in [email], [rcvrName]
    and [displayName].  The envelope sender only takes part in choosing
    the account. *)
Theorem vendor_sender_fields {py : StrMethods}
  (decode_utf8_ignore : list byte -> string)
  (parsestr : string -> Message) (post : nat -> json -> HttpOutcome)
  (m : Manager) (envelope : Envelope) (r : Completed) :
  handle_DATA decode_utf8_ignore parsestr post m envelope = Return r ->
  let raw := decode_utf8_ignore (content envelope) in
  let msg := parsestr raw in
  let rcpt := effective_recipient envelope in
  exists attachments accounts_to_use,
    extract_attachments msg = Return attachments /\
    accounts_to_use_of m (msg_get msg "X-Brityworks-Account")
      (effective_sender envelope) = Return accounts_to_use /\
    attempts r =
      map (fastapi_payload raw rcpt (subject_of msg) attachments)
          accounts_to_use /\
    forall account, In account accounts_to_use ->
      let body :=
        fastapi_payload raw rcpt (subject_of msg) attachments account in
      (email account = None -> parse_payload body = None) /\
      (forall e, email account = Some e ->
         exists payload,
           parse_payload body = Some payload /\
           jget "from" (brittymail_json_data payload) =
             Some (JDict [("email", JStr e);
                          ("dcomp", JStr "O");
                          ("userID", JStr e);
                          ("sendrIndiVal", JStr (e ++ "<" ++ e ++ ">"))]) /\
           jget "recipients" (brittymail_json_data payload) =
             Some (JList [JDict [("email", JStr rcpt);
                                 ("recipientType", JStr "TO");
                                 ("directKeyin", JBool false);
                                 ("rcvrName", JStr rcpt);
                                 ("displayName", JStr rcpt)]])).
Proof.
  intros Hret raw msg rcpt.
  destruct (handle_DATA_inv decode_utf8_ignore parsestr post m envelope r
              Hret) as (atts & accs & Hext & Haccs).
  exists atts, accs. split; [exact Hext|]. split; [exact Haccs|].
  destruct (handle_DATA_returns decode_utf8_ignore parsestr post m envelope
              atts accs Hext Haccs) as (r' & Hr' & _ & Hatt & _).
  rewrite Hret in Hr'. injection Hr' as <-.
  split; [exact Hatt|].
  intros account _ body. subst body. unfold fastapi_payload, parse_payload.
  split.
  - intros ->. reflexivity.
  - intros e ->. simpl. eexists. split; [reflexivity|].
    split; reflexivity.
Qed.

Lemma vendor_sender_fields_witness :
  exists r body payload,
    handle_DATA Sample.decode Sample.parsestr (Sample.post_to Sample.two)
      Sample.two (Sample.envelope_of "foo@bar.com" Sample.raw_plain)
      = Return r /\
    attempts r = [body] /\
    parse_payload body = Some payload /\
    jget "from" (brittymail_json_data payload) =
      Some (JDict [("email", JStr "Foo@Bar.com ");
                   ("dcomp", JStr "O");
                   ("userID", JStr "Foo@Bar.com ");
                   ("sendrIndiVal", JStr "Foo@Bar.com <Foo@Bar.com >")]).
Proof.
  destruct (handle_DATA Sample.decode Sample.parsestr
              (Sample.post_to Sample.two) Sample.two
              (Sample.envelope_of "foo@bar.com" Sample.raw_plain))
    as [r|e] eqn:Hrun; [|vm_compute in Hrun; discriminate Hrun].
  exists r.
  destruct (vendor_sender_fields Sample.decode Sample.parsestr
              (Sample.post_to Sample.two) Sample.two
              (Sample.envelope_of "foo@bar.com" Sample.raw_plain)
              r Hrun) as (atts & accs & Hext & Haccs & Hatt & Hall).
  vm_compute in Haccs. injection Haccs as <-.
  vm_compute in Hext. injection Hext as <-.
  destruct (Hall Sample.bob (or_introl eq_refl)) as [_ H].
  destruct (H "Foo@Bar.com " eq_refl) as (payload & Hp & Hfrom & _).
  eexists. exists payload.
  split; [reflexivity|]. split; [exact Hatt|]. split; [exact Hp | exact Hfrom].
Defined.

(** C1 as stated fails: the envelope sender [stranger@else.org] matches
    no account, the first active account is used, and the vendor
    document names that account's address, not the envelope sender. *)
Lemma sender_fields_are_not_the_envelope_sender :
  exists r body payload,
    handle_DATA Sample.decode Sample.parsestr (Sample.post_to Sample.two)
      Sample.two (Sample.envelope_of "stranger@else.org" Sample.raw_plain)
      = Return r /\
    attempts r = [body] /\
    parse_payload body = Some payload /\
    effective_sender (Sample.envelope_of "stranger@else.org" Sample.raw_plain)
      = "stranger@else.org" /\
    jget "from" (brittymail_json_data payload) =
      Some (JDict [("email", JStr "a@x.com");
                   ("dcomp", JStr "O");
                   ("userID", JStr "a@x.com");
                   ("sendrIndiVal", JStr "a@x.com<a@x.com>")]) /\
    "a@x.com" <> "stranger@else.org".
Proof.
  do 3 eexists.
  split; [vm_compute; reflexivity|].
  split; [reflexivity|].
  split; [reflexivity|].
  split; [reflexivity|].
  split; [reflexivity | discriminate].
Qed.

(* ================================================================== *)
(** * The reply to the SMTP client and the fan-out *)

(** C2.  The claim is that the hook answers [250 OK] for every message.
    On a message with a forwarded mail attached ([message/rfc822] with
    disposition [attachment] and a file name) the extraction asks a
    container part for its decoded payload, gets [None], and the base64
    call raises: the hook ends in a [TypeError] and gives no reply,
    whatever the registry and the transport.  Whenever the hook
    returns, the reply is [250 OK] ([handle_DATA_reply]). *)
Theorem handler_raises_on_attached_message {py : StrMethods} :
  forall (m : Manager) (post : nat -> json -> HttpOutcome),
    handle_DATA Sample.decode Sample.parsestr post m
      (Sample.envelope_of "a@x.com" Sample.raw_forwarded)
    = Raise (TypeError "a bytes-like object is required, not 'NoneType'").
Proof.
  intros m post. apply handle_DATA_raises. vm_compute. reflexivity.
Qed.

(** C5.  The claim is that with the routing header [ALL] (any case) and
    [n] active accounts exactly [n] posts are made.  With the header
    [all], three active accounts and the message of C2, the same defect
    ends the hook before the loop: no post is made.  When the extraction
    returns, the fan-out is as claimed ([fan_out_all]). *)
Theorem fan_out_lost_on_attached_message :
  forall post : nat -> json -> HttpOutcome,
    let envelope := Sample.envelope_of "a@x.com" Sample.raw_forwarded_all in
    let msg := Sample.parsestr (Sample.decode (content envelope)) in
    send_from_all_of (msg_get msg "X-Brityworks-Account") = true /\
    active_subset Sample.three /\
    length (get_all_selected_accounts Sample.three) = 3 /\
    handle_DATA Sample.decode Sample.parsestr post Sample.three envelope
    = Raise (TypeError "a bytes-like object is required, not 'NoneType'").
Proof.
  intros post envelope msg.
  split; [vm_compute; reflexivity|].
  split; [intros x H; exact H|].
  split; [reflexivity|].
  apply handle_DATA_raises. vm_compute. reflexivity.
Qed.

(** The scenario of the specification: three active accounts, header
    [All], the second post fails in the transport; the first and the
    third are still made and the counters read two and one. *)
Example fan_out_three_second_fails :
  exists r,
    handle_DATA Sample.decode Sample.parsestr
      (Sample.post_second_fails Sample.three) Sample.three
      (Sample.envelope_of "a@x.com" Sample.raw_broadcast) = Return r /\
    reply r = "250 OK" /\
    map (jget "account_id") (attempts r) =
      [Some (JStr "alice"); Some (JStr "bob"); Some (JStr "carol")] /\
    success_count r = 2 /\ failed_count r = 1.
Proof.
  eexists. split; [vm_compute; reflexivity|]. repeat split.
Qed.

(* ================================================================== *)
(** * Loading and saving the account file *)

Lemma set_absent_app (k : string) (a : Account) (d : PyDict.t Account) :
  ~ In k (PyDict.keys d) -> PyDict.set k a d = (d ++ [(k, a)])%list.
Proof.
  induction d as [|[k' v'] d IH]; simpl; [reflexivity|].
  intros H. destruct (String.eqb_spec k' k) as [->|Hne].
  - exfalso. apply H. left. reflexivity.
  - rewrite IH; [reflexivity|]. intros Hin. apply H. right. exact Hin.
Qed.

Lemma keyed_set (k : string) (a : Account) (d : PyDict.t Account) :
  account_id a = k -> keyed d -> keyed (PyDict.set k a d).
Proof.
  intros Ha. unfold keyed. induction d as [|[k' v'] d IH]; simpl; intros H.
  - constructor; [exact Ha | constructor].
  - inversion H as [|? ? H1 H2]; subst.
    destruct (String.eqb_spec k' (account_id a)).
    + constructor; [reflexivity | exact H2].
    + constructor; [exact H1 | apply IH, H2].
Qed.

Lemma keyed_del (k : string) (d : PyDict.t Account) :
  keyed d -> keyed (PyDict.del k d).
Proof.
  unfold keyed. induction d as [|[k' v'] d IH]; simpl; intros H;
    [constructor|].
  inversion H as [|? ? H1 H2]; subst.
  destruct (String.eqb_spec k' k); [apply IH, H2|].
  constructor; [exact H1 | apply IH, H2].
Qed.

Lemma keyed_get (k : string) (a : Account) (d : PyDict.t Account) :
  keyed d -> PyDict.get k d = Some a -> account_id a = k.
Proof.
  unfold keyed. induction d as [|[k' v'] d IH]; simpl; intros H Hg;
    [discriminate|].
  inversion H as [|? ? H1 H2]; subst.
  destruct (String.eqb_spec k' k) as [->|Hne].
  - injection Hg as <-. exact H1.
  - apply IH; assumption.
Qed.

Lemma ids_nonempty_keys (d : PyDict.t Account) :
  ids_nonempty d <-> ~ In "" (PyDict.keys d).
Proof.
  unfold ids_nonempty, PyDict.keys. rewrite Forall_forall. split.
  - intros H Hin. apply in_map_iff in Hin. destruct Hin as [e [He Hin]].
    exact (H e Hin He).
  - intros H e Hin He. apply H. apply in_map_iff. exists e. auto.
Qed.

Lemma find_app_first {A : Type} (f : A -> bool) (l1 l2 : list A) :
  find f (l1 ++ l2) =
    match find f l1 with
    | Some x => Some x
    | None => find f l2
    end.
Proof.
  induction l1 as [|x l1 IH]; simpl; [reflexivity|].
  destruct (f x); [reflexivity | exact IH].
Qed.

(** What the loading loop keeps of the table it starts from. *)
Lemma load_into_spec (accounts_list : list Account) :
  forall d : PyDict.t Account,
    PyDict.wf d -> keyed d -> ids_nonempty d ->
    let d' := load_into d accounts_list in
    PyDict.wf d' /\ keyed d' /\ ids_nonempty d' /\
    length d <= length d' /\
    (forall k, In k (PyDict.keys d') <->
               In k (PyDict.keys d) \/
               (k <> "" /\ exists a, In a accounts_list /\ account_id a = k)) /\
    (forall k, PyDict.get k d' =
               match find (fun a => account_id a =? k) (rev accounts_list) with
               | Some a => if k =? "" then PyDict.get k d else Some a
               | None => PyDict.get k d
               end).
Proof.
  induction accounts_list as [|a l IH]; intros d Hwf Hk Hne; simpl.
  - repeat split; auto. intros [H|[_ [a [[] _]]]]. exact H.
  - destruct (String.eqb_spec (account_id a) "") as [Ea|Ea]; simpl.
    + destruct (IH d Hwf Hk Hne) as (I1 & I2 & I3 & I4 & I5 & I6).
      repeat split; auto.
      * intros H. apply I5 in H. destruct H as [H|[H1 [x [H2 H3]]]]; auto.
        right. split; [exact H1|]. exists x. auto.
      * intros [H|[H1 [x [[<-|H2] H3]]]].
        -- apply I5. auto.
        -- congruence.
        -- apply I5. right. split; [exact H1|]. exists x. auto.
      * intros k. rewrite I6, find_app_first. 
        destruct (find (fun a0 => account_id a0 =? k) (rev l)); [reflexivity|].
        simpl. rewrite Ea.
        destruct (String.eqb_spec "" k) as [<-|Hk']; reflexivity.
    + assert (Hwf' : PyDict.wf (PyDict.set (account_id a) a d))
        by (apply PyDictFacts.wf_set; exact Hwf).
      assert (Hk' : keyed (PyDict.set (account_id a) a d))
        by (apply keyed_set; [reflexivity | exact Hk]).
      assert (Hne' : ids_nonempty (PyDict.set (account_id a) a d)).
      { apply ids_nonempty_keys. intros Hin.
        apply PyDictFacts.In_keys_set in Hin. destruct Hin as [Hin|Hin].
        - congruence.
        - apply ids_nonempty_keys in Hne. contradiction. }
      destruct (IH _ Hwf' Hk' Hne') as (I1 & I2 & I3 & I4 & I5 & I6).
      repeat split; auto.
      * assert (length d <= length (PyDict.set (account_id a) a d)).
        { destruct (in_dec string_dec (account_id a) (PyDict.keys d)).
          - pose proof (PyDictFacts.len_set_present (account_id a) a d i) as E.
            unfold PyDict.len in E. lia.
          - rewrite set_absent_app by assumption. rewrite length_app. lia. }
        lia.
      * intros H. apply I5 in H. destruct H as [H|[H1 [x [H2 H3]]]].
        -- apply PyDictFacts.In_keys_set in H. destruct H as [->|H]; auto.
           right. split; [exact Ea|]. exists a. auto.
        -- right. split; [exact H1|]. exists x. auto.
      * intros [H|[H1 [x [[<-|H2] H3]]]]; apply I5.
        -- left. apply PyDictFacts.In_keys_set. auto.
        -- left. apply PyDictFacts.In_keys_set. auto.
        -- right. split; [exact H1|]. exists x. auto.
      * intros k. rewrite I6, find_app_first.
        destruct (find (fun a0 => account_id a0 =? k) (rev l)) as [x|] eqn:Ef.
        -- destruct (String.eqb_spec k "") as [->|Hk0]; [|reflexivity].
           apply PyDictFacts.get_set_other. congruence.
        -- simpl. destruct (String.eqb_spec (account_id a) k) as [<-|Hak].
           ++ destruct (String.eqb_spec (account_id a) ""); [contradiction|].
              apply PyDictFacts.get_set_same.
           ++ apply PyDictFacts.get_set_other. congruence.
Qed.

Lemma load_accounts_Some (accounts_list : list Account) (m : Manager) :
  load_accounts accounts_list = Some m ->
  m = {| accounts := load_into [] accounts_list; selected_accounts := [] |}.
Proof.
  unfold load_accounts. intros Hm.
  destruct (load_into [] accounts_list); [discriminate|].
  injection Hm as <-. reflexivity.
Qed.

(** X1.  [load_accounts] raises exactly when no record of the file has a
    non-empty identifier.  Otherwise nothing is selected yet, the table
    holds exactly the non-empty identifiers of the file, each once and
    each with its own record, and where an identifier is repeated the
    last record of the file is the one kept. *)
Theorem load_accounts_spec (accounts_list : list Account) :
  (load_accounts accounts_list = None <->
   forall a, In a accounts_list -> account_id a = "") /\
  (forall m, load_accounts accounts_list = Some m ->
     selected_accounts m = [] /\
     PyDict.wf (accounts m) /\ keyed (accounts m) /\
     ids_nonempty (accounts m) /\
     (forall k, configured m k <->
                k <> "" /\ exists a, In a accounts_list /\ account_id a = k) /\
     (forall k, k <> "" ->
                PyDict.get k (accounts m) =
                find (fun a => account_id a =? k) (rev accounts_list))).
Proof.
  destruct (load_into_spec accounts_list [])
    as (I1 & I2 & I3 & _ & I5 & I6);
    [constructor | constructor | constructor |].
  unfold load_accounts. split.
  - destruct (load_into [] accounts_list) as [|[k v] d'] eqn:E.
    + split; [|reflexivity]. intros _ a Ha.
      destruct (String.eqb_spec (account_id a) "") as [H|H]; [exact H|].
      exfalso. apply (proj2 (I5 (account_id a))).
      right. split; [exact H|]. exists a. auto.
    + split; [discriminate|]. intros Hall. exfalso.
      destruct (proj1 (I5 k) (or_introl eq_refl)) as [[]|[Hk [a [Ha Hid]]]].
      apply Hk. rewrite <- Hid. apply Hall, Ha.
  - intros m Hm.
    apply load_accounts_Some in Hm. subst m. simpl. unfold configured. simpl.
    split; [reflexivity|]. split; [exact I1|]. split; [exact I2|].
    split; [exact I3|]. split.
    + intros k. rewrite I5. simpl. tauto.
    + intros k Hk. rewrite I6. simpl.
      destruct (find (fun a => account_id a =? k) (rev accounts_list));
        [|reflexivity].
      destruct (String.eqb_spec k ""); [contradiction | reflexivity].
Qed.

(** Loading the records of a table gives the table back. *)
Lemma load_into_values (d1 : PyDict.t Account) :
  forall d0 : PyDict.t Account,
    PyDict.wf (d0 ++ d1)%list -> keyed d1 -> ids_nonempty d1 ->
    load_into d0 (PyDict.values d1) = (d0 ++ d1)%list.
Proof.
  induction d1 as [|[k a] d1 IH]; intros d0 Hwf Hk Hne; simpl.
  - now rewrite app_nil_r.
  - inversion Hk as [|? ? Hk1 Hk2]; subst.
    inversion Hne as [|? ? Hn1 Hn2]; subst. simpl in Hk1, Hn1.
    rewrite Hk1.
    destruct (String.eqb_spec k ""); [contradiction|]. simpl.
    assert (Hout : ~ In k (PyDict.keys d0)).
    { unfold PyDict.wf, PyDict.keys in Hwf. rewrite map_app in Hwf.
      simpl in Hwf. apply NoDup_remove_2 in Hwf.
      intros Hin. apply Hwf. apply in_or_app. left. exact Hin. }
    rewrite set_absent_app by exact Hout.
    rewrite IH; [now rewrite <- app_assoc | | exact Hk2 | exact Hn2].
    now rewrite <- app_assoc.
Qed.

(** X2.  A successful save followed by a restart gives the same account
    table back, in the same order, provided the table is not empty, each
    record sits under its own identifier and no identifier is empty; the
    selection is not part of the file and starts out empty. *)
Theorem save_then_load (s : Server) (m : Manager) :
  account_manager s = Some m ->
  accounts m <> [] ->
  PyDict.wf (accounts m) -> keyed (accounts m) -> ids_nonempty (accounts m) ->
  fst (save_accounts true s) = OK true /\
  exists file,
    config_file (snd (save_accounts true s)) = Some file /\
    load_accounts file =
      Some {| accounts := accounts m; selected_accounts := [] |}.
Proof.
  intros Hm Hne Hwf Hk Hids. unfold save_accounts. rewrite Hm. simpl.
  split; [reflexivity|]. eexists. split; [reflexivity|].
  unfold load_accounts.
  rewrite (load_into_values (accounts m) []) by assumption. simpl.
  destruct (accounts m); [contradiction | reflexivity].
Qed.

Lemma save_then_load_witness :
  exists file,
    config_file (snd (save_accounts true (Sample.server_of Sample.two)))
      = Some file /\
    load_accounts file =
      Some {| accounts := accounts Sample.two; selected_accounts := [] |}.
Proof.
  destruct (save_then_load (Sample.server_of Sample.two) Sample.two)
    as [_ H].
  - reflexivity.
  - discriminate.
  - unfold PyDict.wf. simpl. constructor.
    + intros [H|[]]. discriminate.
    + constructor; [intros [] | constructor].
  - repeat constructor.
  - repeat constructor; discriminate.
  - exact H.
Defined.

(** The manager an operation leaves keeps both table invariants. *)
Lemma run_op_keyed (op : RegistryOp) (s : Server) (m : Manager) :
  account_manager s = Some m -> keyed (accounts m) ->
  exists m', account_manager (run_op op s) = Some m' /\
             keyed (accounts m').
Proof.
  intros Hm Hk. eexists. split; [apply (run_op_manager op s m Hm)|].
  destruct op as [ids|aid|aid|dk account|dk aid account|dk aid].
  - rewrite set_selected_accounts_accounts. exact Hk.
  - unfold select_in_memory.
    destruct (PyDict.mem aid (accounts m)); [|exact Hk].
    destruct (negb _); exact Hk.
  - unfold deselect_in_memory.
    destruct (PyDict.mem aid (accounts m)); [|exact Hk].
    destruct (list_mem _ _); exact Hk.
  - destruct (PyDict.mem _ (accounts m)); [exact Hk|].
    simpl. apply keyed_set; [reflexivity | exact Hk].
  - destruct (PyDict.mem aid (accounts m)); [|exact Hk].
    unfold update_in_memory. simpl. apply keyed_set; [reflexivity|].
    destruct (negb (aid =? new_account_id account)); [|exact Hk].
    simpl. destruct (list_mem aid (selected_accounts m)); simpl;
      apply keyed_del; exact Hk.
  - destruct (PyDict.mem aid (accounts m)); [|exact Hk].
    unfold delete_in_memory. simpl.
    destruct (list_mem aid (selected_accounts m)); simpl;
      apply keyed_del; exact Hk.
Qed.

(** X3.  Whatever sequence of registry operations runs, with whatever
    answers and disk failures, the account table keeps unique keys and
    every record stays under its own identifier. *)
Theorem registry_table_invariants (ops : list RegistryOp) :
  forall (s : Server) (m : Manager),
    account_manager s = Some m ->
    PyDict.wf (accounts m) -> keyed (accounts m) ->
    exists m', account_manager (run_ops ops s) = Some m' /\
               PyDict.wf (accounts m') /\ keyed (accounts m') /\
               (forall k a, PyDict.get k (accounts m') = Some a ->
                            account_id a = k).
Proof.
  induction ops as [|op ops IH]; intros s m Hm Hwf Hk; simpl.
  - exists m. repeat split; auto. intros k a. apply keyed_get, Hk.
  - destruct (run_op_wf op s m Hm Hwf) as (m1 & H1 & Hwf1).
    destruct (run_op_keyed op s m Hm Hk) as (m1' & H1' & Hk1).
    rewrite H1 in H1'. injection H1' as <-.
    exact (IH (run_op op s) m1 H1 Hwf1 Hk1).
Qed.

Lemma registry_table_invariants_witness :
  exists m',
    account_manager
      (run_ops [SetActive []; Update true "alice" Sample.as_bob;
                Delete false "bob"; Create true Sample.dave]
         (Sample.server_of Sample.two)) = Some m' /\
    PyDict.wf (accounts m') /\ keyed (accounts m').
Proof.
  destruct (registry_table_invariants
              [SetActive []; Update true "alice" Sample.as_bob;
               Delete false "bob"; Create true Sample.dave]
              (Sample.server_of Sample.two) Sample.two)
    as (m' & H1 & H2 & H3 & _).
  - reflexivity.
  - unfold PyDict.wf. simpl. constructor.
    + intros [H|[]]. discriminate.
    + constructor; [intros [] | constructor].
  - repeat constructor.
  - exists m'. auto.
Defined.

(** X4.  The create endpoint accepts the empty identifier: the record is
    stored and written to the file, but the loader skips records with an
    empty identifier, so the account is gone after a restart. *)
Theorem empty_id_not_reloaded (s : Server) (m : Manager)
  (account : AccountCreate) :
  account_manager s = Some m ->
  new_account_id account = "" ->
  ~ configured m "" ->
  let r := create_account true account s in
  fst r = OK (message_body "Account created successfully" "") /\
  (exists m1, account_manager (snd r) = Some m1 /\
              PyDict.get "" (accounts m1) = Some (account_of account)) /\
  exists file,
    config_file (snd r) = Some file /\
    In (account_of account) file /\
    forall m', load_accounts file = Some m' -> ~ configured m' "".
Proof.
  intros Hm Hid Hnew. apply PyDictFacts.mem_false in Hnew.
  rewrite <- Hid in Hnew. cbv zeta.
  rewrite (create_account_run true account s m Hm Hnew). simpl.
  rewrite Hid. split; [reflexivity|]. split.
  - eexists. split; [reflexivity|]. unfold create_in_memory. simpl.
    rewrite Hid. apply PyDictFacts.get_set_same.
  - eexists. split; [reflexivity|]. split.
    + unfold create_in_memory, PyDict.values. simpl.
      apply in_map_iff. exists ("", account_of account). split; [reflexivity|].
      rewrite Hid in Hnew. apply PyDictFacts.mem_false in Hnew.
      rewrite set_absent_app by exact Hnew.
      apply in_or_app. right. left. reflexivity.
    + intros m' Hload Hc. apply load_accounts_Some in Hload. subst m'.
      unfold configured in Hc. simpl in Hc.
      match type of Hc with
      | In _ (PyDict.keys (load_into [] ?l)) =>
          destruct (load_into_spec l [])
            as (_ & _ & I3 & _); [constructor | constructor | constructor |]
      end.
      apply ids_nonempty_keys in I3. exact (I3 Hc).
Qed.

Lemma empty_id_not_reloaded_witness :
  let nameless :=
    {| new_account_id := ""; new_email := "n@n.org";
       new_display_name := "Nameless"; new_cookies := [];
       new_headers := [] |} in
  fst (create_account true nameless (Sample.server_of Sample.two))
    = OK (message_body "Account created successfully" "") /\
  exists file,
    config_file
      (snd (create_account true nameless (Sample.server_of Sample.two)))
      = Some file /\
    In (account_of nameless) file /\
    forall m', load_accounts file = Some m' -> ~ configured m' "".
Proof.
  intros nameless.
  destruct (empty_id_not_reloaded (Sample.server_of Sample.two) Sample.two
              nameless) as (H1 & _ & H3).
  - reflexivity.
  - reflexivity.
  - intros [H|[H|[]]]; discriminate.
  - split; [exact H1 | exact H3].
Defined.

(* ================================================================== *)
(** * Resolution stays inside the Active Set *)

Lemma find_by_email_active {py : StrMethods} (d : PyDict.t Account)
  (n : string) (sel : list string) (a : Account) :
  find_by_email d n sel = Return (Some a) ->
  exists k, In k sel /\ PyDict.get k d = Some a /\
            lower_strip_value (email_or_empty a) = Return n.
Proof.
  induction sel as [|x sel IH]; simpl; [discriminate|].
  destruct (PyDict.get x d) as [ax|] eqn:Ex.
  - destruct (lower_strip_value (email_or_empty ax)) as [nx|e] eqn:En;
      simpl; [|discriminate].
    destruct (String.eqb_spec nx n) as [E|E].
    + intros H. injection H as <-. subst nx. exists x. auto.
    + intros H. destruct (IH H) as (k & H1 & H2 & H3). exists k. auto.
  - intros H. destruct (IH H) as (k & H1 & H2 & H3). exists k. auto.
Qed.

Lemma get_account_by_email_active {py : StrMethods} (m : Manager)
  (sender : option string) (a : Account) :
  get_account_by_email m sender = Return (Some a) ->
  exists k, active m k /\ PyDict.get k (accounts m) = Some a.
Proof.
  unfold get_account_by_email. destruct sender as [s|]; [|discriminate].
  destruct (s =? ""); [discriminate|].
  intros H. apply find_by_email_active in H.
  destruct H as (k & H1 & H2 & _). exists k. auto.
Qed.

(** [get_account_by_email] already answers [None] for a falsy sender, so
    the guard in front of its call changes nothing. *)
Lemma guarded_sender_search {py : StrMethods} (m : Manager)
  (sender : option string) :
  (if PyStr.truthy sender then get_account_by_email m sender
   else Return None)
  = get_account_by_email m sender.
Proof.
  destruct sender as [s|]; simpl; [|reflexivity].
  destruct (s =? ""); reflexivity.
Qed.

Lemma lookup_all_active (d : PyDict.t Account) (sel : list string)
  (a : Account) :
  In a (lookup_all d sel) -> exists k, In k sel /\ PyDict.get k d = Some a.
Proof.
  induction sel as [|k sel IH]; simpl; [tauto|].
  destruct (PyDict.get k d) as [b|] eqn:Eb.
  - intros [<-|H].
    + exists k. auto.
    + destruct (IH H) as (k' & H1 & H2). exists k'. auto.
  - intros H. destruct (IH H) as (k' & H1 & H2). exists k'. auto.
Qed.

Lemma first_active_is_active (m : Manager) (k : string) (rest : list string) :
  selected_accounts m = k :: rest -> active m k.
Proof. unfold active. intros ->. left. reflexivity. Qed.

Lemma get_selected_account_active {py : StrMethods} (m : Manager)
  (aid sender : option string) (a : Account) :
  get_selected_account m aid sender = Return (Some a) ->
  exists k, active m k /\ PyDict.get k (accounts m) = Some a.
Proof.
  unfold get_selected_account.
  destruct (PyStr.truthy aid) eqn:Et.
  - destruct aid as [x|]; [|discriminate].
    destruct (list_mem x (selected_accounts m)) eqn:Emem; [|discriminate].
    intros H. injection H as H.
    exists x. split; [apply list_mem_In, Emem | exact H].
  - rewrite guarded_sender_search.
    destruct (get_account_by_email m sender) as [[b|]|e] eqn:Eb; simpl.
    + intros H. injection H as <-.
      apply get_account_by_email_active in Eb. exact Eb.
    + destruct (selected_accounts m) as [|k rest] eqn:Es; [discriminate|].
      intros H. injection H as H. exists k. split; [|exact H].
      eapply first_active_is_active. exact Es.
    + discriminate.
Qed.

(** X5.  Whatever identifier and sender are given, an account that
    [get_selected_account] returns is the record stored under some
    identifier of the Active Set; the same holds for the sender search
    and for every account of [get_all_selected_accounts]. *)
Theorem resolution_within_active_set {py : StrMethods} (m : Manager)
  (aid sender : option string) (a : Account) :
  (get_selected_account m aid sender = Return (Some a) ->
   exists k, active m k /\ PyDict.get k (accounts m) = Some a) /\
  (get_account_by_email m sender = Return (Some a) ->
   exists k, active m k /\ PyDict.get k (accounts m) = Some a) /\
  (In a (get_all_selected_accounts m) ->
   exists k, active m k /\ PyDict.get k (accounts m) = Some a).
Proof.
  split; [|split].
  - apply get_selected_account_active.
  - apply get_account_by_email_active.
  - apply lookup_all_active.
Qed.

(** X6.  With an empty Active Set, as it is between loading the file and
    the first selection, nothing resolves: every explicit id, every
    sender and the fallback fail, and the list for fan-out is empty. *)
Theorem nothing_resolves_without_selection {py : StrMethods} (m : Manager)
  (aid sender : option string) :
  selected_accounts m = [] ->
  get_selected_account m aid sender = Return None /\
  get_account_by_email m sender = Return None /\
  get_all_selected_accounts m = [].
Proof.
  intros Hs.
  assert (Hby : get_account_by_email m sender = Return None).
  { unfold get_account_by_email. rewrite Hs.
    destruct sender as [s|]; [|reflexivity].
    destruct (s =? ""); reflexivity. }
  split; [|split; [exact Hby|]].
  - unfold get_selected_account. rewrite guarded_sender_search, Hby, Hs.
    destruct (PyStr.truthy aid); [|reflexivity].
    destruct aid; reflexivity.
  - unfold get_all_selected_accounts. now rewrite Hs.
Qed.

Lemma nothing_resolves_without_selection_witness :
  exists m,
    load_accounts [Sample.alice; Sample.bob] = Some m /\
    get_selected_account m (Some "alice") (Some "a@x.com") = Return None /\
    get_all_selected_accounts m = [].
Proof.
  eexists. split; [reflexivity|].
  destruct (nothing_resolves_without_selection
              {| accounts := [("alice", Sample.alice); ("bob", Sample.bob)];
                 selected_accounts := [] |}
              (Some "alice") (Some "a@x.com") eq_refl) as (H1 & _ & H3).
  split; [exact H1 | exact H3].
Defined.

(** X7.  Without an explicit id, when the first identifier of the Active
    Set is configured, resolution never answers that there is no
    account: it answers the account the sender search finds, the first
    active account exactly when that search finds none (no sender, empty
    sender, or no match), and it raises what the search raises (a stored
    [null] address met before any match).  When no active account stores
    [null], it succeeds. *)
Theorem fallback_to_first_active {py : StrMethods} (m : Manager)
  (aid sender : option string)
  (k : string) (rest : list string) (a0 : Account) :
  PyStr.truthy aid = false ->
  selected_accounts m = k :: rest ->
  PyDict.get k (accounts m) = Some a0 ->
  (forall a, get_account_by_email m sender = Return (Some a) ->
             get_selected_account m aid sender = Return (Some a)) /\
  (get_account_by_email m sender = Return None ->
   get_selected_account m aid sender = Return (Some a0)) /\
  (forall e, get_account_by_email m sender = Raise e ->
             get_selected_account m aid sender = Raise e) /\
  get_selected_account m aid sender <> Return None /\
  (no_null_email m ->
   exists a, get_selected_account m aid sender = Return (Some a)).
Proof.
  intros Ht Hs Hk. unfold get_selected_account.
  rewrite Ht, guarded_sender_search, Hs, Hk.
  pose proof (get_account_by_email_returns m sender) as Hret.
  destruct (get_account_by_email m sender) as [[b|]|e]; simpl.
  - split; [intros a H; exact H|].
    split; [intros H; discriminate|].
    split; [intros e H; discriminate|].
    split; [discriminate|]. intros _. exists b. reflexivity.
  - split; [intros a H; discriminate|].
    split; [intros _; reflexivity|].
    split; [intros e H; discriminate|].
    split; [discriminate|]. intros _. exists a0. reflexivity.
  - split; [intros a H; discriminate|].
    split; [intros H; discriminate|].
    split; [intros e' H; exact H|].
    split; [discriminate|]. intros Hnn.
    destruct (Hret Hnn) as [r Hr]. discriminate.
Qed.

Lemma fallback_to_first_active_witness :
  get_selected_account Sample.two None (Some "unknown@x.com")
    = Return (Some Sample.alice) /\
  get_selected_account Sample.null_first None (Some "unknown@x.com")
    = Raise (AttributeError "'NoneType' object has no attribute 'lower'") /\
  get_selected_account Sample.null_first None None
    = Return (Some Sample.nul).
Proof.
  split; [|split].
  - destruct (fallback_to_first_active Sample.two None (Some "unknown@x.com")
                "alice" ["bob"] Sample.alice eq_refl eq_refl eq_refl)
      as (_ & H & _).
    apply H. reflexivity.
  - destruct (fallback_to_first_active Sample.null_first None
                (Some "unknown@x.com") "nul" ["bob"] Sample.nul
                eq_refl eq_refl eq_refl) as (_ & _ & H & _).
    apply H. reflexivity.
  - destruct (fallback_to_first_active Sample.null_first None None
                "nul" ["bob"] Sample.nul eq_refl eq_refl eq_refl)
      as (_ & H & _).
    apply H. reflexivity.
Defined.

(** X8.  [get_all_selected_accounts] answers the records of the active
    identifiers that are configured, in the order of the Active Set, and
    skips the others; so it is never longer than the Active Set, and
    when every active identifier is configured it has one account per
    entry, the [i]-th being the record of the [i]-th identifier. *)
Theorem all_selected_accounts_in_order (m : Manager) :
  get_all_selected_accounts m =
    flat_map (fun k => match PyDict.get k (accounts m) with
                       | Some a => [a]
                       | None => []
                       end) (selected_accounts m) /\
  length (get_all_selected_accounts m) <= length (selected_accounts m) /\
  (active_subset m ->
   length (get_all_selected_accounts m) = length (selected_accounts m) /\
   forall i k, nth_error (selected_accounts m) i = Some k ->
     exists a, nth_error (get_all_selected_accounts m) i = Some a /\
               PyDict.get k (accounts m) = Some a).
Proof.
  unfold get_all_selected_accounts, active_subset, active, configured.
  induction (selected_accounts m) as [|k sel IH]; simpl.
  - split; [reflexivity|]. split; [lia|]. intros _.
    split; [reflexivity|]. intros [|i] k H; discriminate.
  - destruct IH as (I1 & I2 & I3).
    destruct (PyDict.get k (accounts m)) as [a|] eqn:Ea; simpl.
    + split; [now rewrite I1|]. split; [lia|]. intros Hsub.
      destruct I3 as [I3 I4]; [intros x Hx; apply Hsub; right; exact Hx|].
      split; [now rewrite I3|].
      intros [|i] k' Hn; simpl in *.
      * injection Hn as <-. exists a. auto.
      * apply I4, Hn.
    + split; [exact I1|]. split; [lia|]. intros Hsub. exfalso.
      specialize (Hsub k (or_introl eq_refl)).
      apply PyDictFacts.In_get in Hsub. destruct Hsub as [a Ha]. congruence.
Qed.

Lemma set_selected_accounts_true (m : Manager) (ids : list string) :
  fst (set_selected_accounts m ids) = true ->
  active_subset (snd (set_selected_accounts m ids)) /\
  (accounts m <> [] ->
   selected_accounts (snd (set_selected_accounts m ids)) <> []).
Proof.
  unfold set_selected_accounts. destruct ids as [|a ids].
  - intros _. split; [intros x Hx; exact Hx|].
    unfold PyDict.keys. simpl. destruct (accounts m); simpl; congruence.
  - destruct (filter (fun aid => PyDict.mem aid (accounts m)) (a :: ids))
      as [|v vs] eqn:Ef; [discriminate|].
    intros _. split; [|discriminate].
    intros x Hx. change (In x (v :: vs)) in Hx. rewrite <- Ef in Hx.
    apply filter_In in Hx. destruct Hx as [_ Hx].
    apply PyDictFacts.mem_In in Hx. exact Hx.
Qed.

(** X9.  A successful [set_selected_accounts] leaves an Active Set made
    of configured identifiers only, whatever the state before; and
    calling it again with the same list changes nothing further. *)
Theorem set_selected_accounts_repairs (m : Manager) (ids : list string) :
  (fst (set_selected_accounts m ids) = true ->
   active_subset (snd (set_selected_accounts m ids)) /\
   (accounts m <> [] -> selected_accounts (snd (set_selected_accounts m ids))
                        <> [])) /\
  set_selected_accounts (snd (set_selected_accounts m ids)) ids
    = set_selected_accounts m ids.
Proof.
  unfold set_selected_accounts.
  destruct ids as [|a ids].
  - simpl. split; [|reflexivity]. intros _. split.
    + intros x Hx. exact Hx.
    + unfold PyDict.keys. destruct (accounts m); simpl; congruence.
  - destruct (filter (fun aid => PyDict.mem aid (accounts m)) (a :: ids))
      as [|v vs] eqn:Ef.
    + cbn [fst snd]. rewrite Ef. split; [discriminate | reflexivity].
    + cbn [fst snd with_selected accounts selected_accounts]. rewrite Ef.
      split; [|reflexivity]. intros _. split; [|discriminate].
      intros x Hx. change (In x (v :: vs)) in Hx. rewrite <- Ef in Hx.
      apply filter_In in Hx. destruct Hx as [_ Hx].
      apply PyDictFacts.mem_In in Hx. exact Hx.
Qed.

Lemma resolution_within_active_set_witness :
  get_selected_account Sample.two None (Some "foo@bar.com")
    = Return (Some Sample.bob) /\
  exists k, active Sample.two k /\
            PyDict.get k (accounts Sample.two) = Some Sample.bob.
Proof.
  split; [reflexivity|].
  destruct (resolution_within_active_set Sample.two None (Some "foo@bar.com")
              Sample.bob) as (H & _ & _).
  apply H. reflexivity.
Defined.

(* ================================================================== *)
(** * The account endpoints: refusals, compositions, what they show *)

Lemma server_eta (s : Server) (m : Manager) :
  account_manager s = Some m ->
  {| account_manager := Some m; config_file := config_file s |} = s.
Proof. destruct s as [am cf]. simpl. intros ->. reflexivity. Qed.

Lemma select_account_run (aid : string) (s : Server) (m : Manager) :
  account_manager s = Some m ->
  PyDict.mem aid (accounts m) = true ->
  select_account aid s =
    (OK (message_body "Account selected" aid),
     {| account_manager := Some (select_in_memory m aid);
        config_file := config_file s |}).
Proof.
  intros Hm Hmem. unfold select_account. run_endpoint.
  rewrite Hm, Hmem. reflexivity.
Qed.

Lemma deselect_account_run (aid : string) (s : Server) (m : Manager) :
  account_manager s = Some m ->
  PyDict.mem aid (accounts m) = true ->
  deselect_account aid s =
    (OK (message_body "Account deselected" aid),
     {| account_manager := Some (deselect_in_memory m aid);
        config_file := config_file s |}).
Proof.
  intros Hm Hmem. unfold deselect_account. run_endpoint.
  rewrite Hm, Hmem. reflexivity.
Qed.

(** X10.  A request that is refused changes nothing: with no manager
    every account endpoint, the listing included, answers 500; creating
    an identifier that is
    already configured answers 400; updating, deleting, selecting,
    deselecting or reading an identifier that is not configured answers
    404; in each case the state, file included, is left as it was and no
    save is attempted. *)
Theorem refused_requests_change_nothing (s : Server) (aid : string)
  (disk_ok : bool) (account : AccountCreate) :
  (account_manager s = None ->
   let refusal := (HTTPException 500 "Account manager not initialized", s) in
   create_account disk_ok account s = refusal /\
   update_account disk_ok aid account s = refusal /\
   delete_account disk_ok aid s = refusal /\
   select_account aid s = refusal /\
   deselect_account aid s = refusal /\
   get_account_endpoint aid s = refusal /\
   list_accounts_endpoint s = refusal) /\
  (forall m, account_manager s = Some m ->
     (configured m (new_account_id account) ->
      create_account disk_ok account s =
        (HTTPException 400
           ("Account '" ++ new_account_id account ++ "' already exists"), s)) /\
     (~ configured m aid ->
      let refusal :=
        (HTTPException 404 ("Account '" ++ aid ++ "' not found"), s) in
      update_account disk_ok aid account s = refusal /\
      delete_account disk_ok aid s = refusal /\
      select_account aid s = refusal /\
      deselect_account aid s = refusal /\
      get_account_endpoint aid s = refusal)).
Proof.
  split.
  - intros Hnone. cbv zeta.
    unfold create_account, update_account, delete_account, select_account,
      deselect_account, get_account_endpoint, list_accounts_endpoint.
    run_endpoint. rewrite Hnone. repeat split.
  - intros m Hm. split.
    + intros Hc. apply PyDictFacts.mem_In in Hc.
      unfold create_account. run_endpoint. rewrite Hm, Hc. reflexivity.
    + intros Hn. cbv zeta.
      assert (Hget : PyDict.get aid (accounts m) = None).
      { apply PyDictFacts.mem_false in Hn. unfold PyDict.mem in Hn.
        destruct (PyDict.get aid (accounts m)); [discriminate | reflexivity]. }
      apply PyDictFacts.mem_false in Hn.
      unfold update_account, delete_account, select_account,
        deselect_account, get_account_endpoint.
      run_endpoint. rewrite Hm, Hn, Hget. repeat split.
Qed.

Lemma refused_requests_change_nothing_witness :
  create_account true Sample.as_bob (Sample.server_of Sample.two)
    = (HTTPException 400 "Account 'bob' already exists",
       Sample.server_of Sample.two) /\
  delete_account true "zed" (Sample.server_of Sample.two)
    = (HTTPException 404 "Account 'zed' not found",
       Sample.server_of Sample.two).
Proof.
  destruct (refused_requests_change_nothing (Sample.server_of Sample.two)
              "zed" true Sample.as_bob) as [_ H].
  destruct (H Sample.two eq_refl) as [H1 H2].
  split.
  - apply H1. right. left. reflexivity.
  - destruct H2 as (_ & H2 & _); [|exact H2].
    intros [H0|[H0|[]]]; discriminate.
Defined.

(** X11.  A newly created account is stored but not active: the Active
    Set is unchanged and resolution by its identifier fails until the
    select endpoint is called, after which the identifier is the last
    entry of the Active Set and resolves to the new record.  This holds
    whether or not the save succeeded. *)
Theorem created_account_inactive_until_selected {py : StrMethods}
  (disk_ok : bool)
  (s : Server) (m : Manager) (account : AccountCreate)
  (sender : option string) :
  account_manager s = Some m ->
  new_account_id account <> "" ->
  ~ configured m (new_account_id account) ->
  ~ active m (new_account_id account) ->
  let aid := new_account_id account in
  let s1 := snd (create_account disk_ok account s) in
  let s2 := snd (select_account aid s1) in
  (exists m1, account_manager s1 = Some m1 /\
              selected_accounts m1 = selected_accounts m /\
              get_selected_account m1 (Some aid) sender = Return None) /\
  fst (select_account aid s1) = OK (message_body "Account selected" aid) /\
  (exists m2, account_manager s2 = Some m2 /\
              selected_accounts m2 = (selected_accounts m ++ [aid])%list /\
              get_selected_account m2 (Some aid) sender
                = Return (Some (account_of account))).
Proof.
  intros Hm Hid Hnew Hinact aid s1 s2.
  assert (Hmem : PyDict.mem aid (accounts m) = false)
    by (apply PyDictFacts.mem_false; exact Hnew).
  assert (Hs1 : s1 = {| account_manager := Some (create_in_memory m account);
                        config_file :=
                          if disk_ok
                          then Some (PyDict.values
                                       (accounts (create_in_memory m account)))
                          else config_file s |}).
  { unfold s1. now rewrite (create_account_run disk_ok account s m Hm Hmem). }
  assert (Hsel : list_mem aid (selected_accounts m) = false)
    by (apply list_mem_false; exact Hinact).
  assert (Hget : PyDict.get aid (accounts (create_in_memory m account))
                 = Some (account_of account))
    by (apply PyDictFacts.get_set_same).
  assert (Hmem1 : PyDict.mem aid (accounts (create_in_memory m account)) = true)
    by (unfold PyDict.mem; now rewrite Hget).
  assert (Hrun : select_account aid s1 =
                   (OK (message_body "Account selected" aid),
                    {| account_manager :=
                         Some (select_in_memory (create_in_memory m account)
                                 aid);
                       config_file := config_file s1 |})).
  { apply select_account_run; [rewrite Hs1; reflexivity | exact Hmem1]. }
  split; [|split].
  - exists (create_in_memory m account). rewrite Hs1.
    split; [reflexivity|]. split; [reflexivity|].
    rewrite get_selected_account_explicit by exact Hid.
    change (selected_accounts (create_in_memory m account))
      with (selected_accounts m).
    fold aid. now rewrite Hsel.
  - now rewrite Hrun.
  - exists (select_in_memory (create_in_memory m account) aid).
    unfold s2. rewrite Hrun. split; [reflexivity|].
    assert (Hsel2 : selected_accounts
                      (select_in_memory (create_in_memory m account) aid)
                    = (selected_accounts m ++ [aid])%list).
    { unfold select_in_memory.
      change (selected_accounts (create_in_memory m account))
        with (selected_accounts m).
      now rewrite Hsel. }
    split; [exact Hsel2|].
    rewrite get_selected_account_explicit by exact Hid. fold aid.
    rewrite Hsel2.
    assert (Hin : list_mem aid (selected_accounts m ++ [aid]) = true).
    { apply list_mem_In, in_or_app. right. left. reflexivity. }
    rewrite Hin.
    assert (Hacc : accounts (select_in_memory (create_in_memory m account) aid)
                   = accounts (create_in_memory m account)).
    { unfold select_in_memory. destruct (negb _); reflexivity. }
    rewrite Hacc. now rewrite Hget.
Qed.

Lemma created_account_inactive_until_selected_witness :
  let s1 := snd (create_account false Sample.dave
                   (Sample.server_of Sample.two)) in
  (exists m1, account_manager s1 = Some m1 /\
              get_selected_account m1 (Some "dave") (Some "d@w.com")
                = Return None) /\
  exists m2, account_manager (snd (select_account "dave" s1)) = Some m2 /\
             get_selected_account m2 (Some "dave") None
               = Return (Some (account_of Sample.dave)).
Proof.
  intros s1. split.
  - destruct (created_account_inactive_until_selected false
                (Sample.server_of Sample.two) Sample.two Sample.dave
                (Some "d@w.com")) as ((m1 & H1 & _ & H2) & _).
    + reflexivity.
    + discriminate.
    + intros [H|[H|[]]]; discriminate.
    + intros [H|[H|[]]]; discriminate.
    + exists m1. split; [exact H1 | exact H2].
  - destruct (created_account_inactive_until_selected false
                (Sample.server_of Sample.two) Sample.two Sample.dave
                None) as (_ & _ & (m2 & H1 & _ & H2)).
    + reflexivity.
    + discriminate.
    + intros [H|[H|[]]]; discriminate.
    + intros [H|[H|[]]]; discriminate.
    + exists m2. split; [exact H1 | exact H2].
Defined.

(** X12.  An update that keeps the identifier replaces the record where
    it stands: the order of the table, every other record and the Active
    Set are unchanged, and the answer is success exactly when the save
    succeeds. *)
Theorem update_in_place (disk_ok : bool) (s : Server) (m : Manager)
  (aid : string) (account : AccountCreate) :
  account_manager s = Some m ->
  configured m aid ->
  new_account_id account = aid ->
  let r := update_account disk_ok aid account s in
  (fst r = if disk_ok
           then OK (message_body "Account updated successfully" aid)
           else HTTPException 500 "Failed to persist account configuration") /\
  exists m',
    account_manager (snd r) = Some m' /\
    PyDict.keys (accounts m') = PyDict.keys (accounts m) /\
    PyDict.get aid (accounts m') = Some (account_of account) /\
    (forall k, k <> aid ->
               PyDict.get k (accounts m') = PyDict.get k (accounts m)) /\
    selected_accounts m' = selected_accounts m.
Proof.
  intros Hm Hc Hid.
  assert (Hmem : PyDict.mem aid (accounts m) = true)
    by (apply PyDictFacts.mem_In; exact Hc).
  cbv zeta. rewrite (update_account_run disk_ok aid account s m Hm Hmem).
  simpl. rewrite Hid. split; [reflexivity|].
  exists (update_in_memory m aid account). split; [reflexivity|].
  assert (Hacc : accounts (update_in_memory m aid account) =
                 PyDict.set aid (account_of account) (accounts m)).
  { unfold update_in_memory. rewrite Hid, String.eqb_refl. reflexivity. }
  assert (Hsel : selected_accounts (update_in_memory m aid account) =
                 selected_accounts m).
  { unfold update_in_memory. rewrite Hid, String.eqb_refl. reflexivity. }
  rewrite Hacc, Hsel.
  split; [apply PyDictFacts.keys_set_present; exact Hc|].
  split; [apply PyDictFacts.get_set_same|].
  split; [|reflexivity].
  intros k Hk. apply PyDictFacts.get_set_other. exact Hk.
Qed.

Lemma update_in_place_witness :
  exists m',
    account_manager
      (snd (update_account true "bob" Sample.as_bob
              (Sample.server_of Sample.two))) = Some m' /\
    PyDict.keys (accounts m') = ["alice"; "bob"] /\
    PyDict.get "bob" (accounts m') = Some (account_of Sample.as_bob) /\
    selected_accounts m' = ["alice"; "bob"].
Proof.
  destruct (update_in_place true (Sample.server_of Sample.two) Sample.two
              "bob" Sample.as_bob) as (_ & m' & H1 & H2 & H3 & _ & H5).
  - reflexivity.
  - right. left. reflexivity.
  - reflexivity.
  - exists m'. auto.
Defined.

Lemma count_occ_list_remove (x y : string) (l : list string) :
  count_occ string_dec (list_remove x l) y =
    if string_dec x y then pred (count_occ string_dec l y)
    else count_occ string_dec l y.
Proof.
  induction l as [|z l IH]; simpl.
  - destruct (string_dec x y); reflexivity.
  - destruct (String.eqb_spec z x) as [->|Hzx].
    + destruct (string_dec x y); reflexivity.
    + simpl. destruct (string_dec z y) as [->|Hzy].
      * destruct (string_dec x y); [congruence | now rewrite IH].
      * exact IH.
Qed.

Lemma list_remove_app_new (x : string) (l : list string) :
  ~ In x l -> list_remove x (l ++ [x]) = l.
Proof.
  induction l as [|z l IH]; simpl.
  - intros _. now rewrite String.eqb_refl.
  - intros H. destruct (String.eqb_spec z x) as [->|Hne].
    + exfalso. apply H. left. reflexivity.
    + rewrite IH; [reflexivity|]. intros Hin. apply H. right. exact Hin.
Qed.

(** X13.  Selecting is idempotent and never duplicates an identifier;
    deselecting removes exactly one occurrence of the identifier and
    touches no other entry; and deselecting an account right after
    selecting it, when it was not active before, restores the state. *)
Theorem select_deselect_algebra (s : Server) (aid : string) :
  snd (select_account aid (snd (select_account aid s)))
    = snd (select_account aid s) /\
  (forall m, account_manager s = Some m -> configured m aid ->
     (exists m1, account_manager (snd (select_account aid s)) = Some m1 /\
                 active m1 aid /\
                 count_occ string_dec (selected_accounts m1) aid =
                   Nat.max 1 (count_occ string_dec (selected_accounts m) aid)) /\
     (exists m2, account_manager (snd (deselect_account aid s)) = Some m2 /\
                 accounts m2 = accounts m /\
                 forall k, count_occ string_dec (selected_accounts m2) k =
                           if string_dec aid k
                           then pred (count_occ string_dec
                                        (selected_accounts m) k)
                           else count_occ string_dec (selected_accounts m) k) /\
     (~ active m aid ->
      snd (deselect_account aid (snd (select_account aid s))) = s)).
Proof.
  split.
  - destruct (account_manager s) as [m|] eqn:Hm.
    + destruct (PyDict.mem aid (accounts m)) eqn:Hmem.
      * rewrite (select_account_run aid s m Hm Hmem). simpl.
        assert (Hmem' : PyDict.mem aid (accounts (select_in_memory m aid))
                        = true).
        { unfold select_in_memory. destruct (negb _); exact Hmem. }
        rewrite (select_account_run aid
                   {| account_manager := Some (select_in_memory m aid);
                      config_file := config_file s |}
                   (select_in_memory m aid) eq_refl Hmem'). simpl.
        f_equal. f_equal. unfold select_in_memory.
        destruct (list_mem aid (selected_accounts m)) eqn:E; simpl.
        -- now rewrite E.
        -- assert (Hin : list_mem aid (selected_accounts m ++ [aid]) = true).
           { apply list_mem_In, in_or_app. right. left. reflexivity. }
           now rewrite Hin.
      * assert (E : select_account aid s =
                    (HTTPException 404 ("Account '" ++ aid ++ "' not found"), s)).
        { unfold select_account. run_endpoint. now rewrite Hm, Hmem. }
        rewrite E. simpl. now rewrite E.
    + assert (E : select_account aid s =
                  (HTTPException 500 "Account manager not initialized", s)).
      { unfold select_account. run_endpoint. now rewrite Hm. }
      rewrite E. simpl. now rewrite E.
  - intros m Hm Hc.
    assert (Hmem : PyDict.mem aid (accounts m) = true)
      by (apply PyDictFacts.mem_In; exact Hc).
    rewrite (select_account_run aid s m Hm Hmem).
    rewrite (deselect_account_run aid s m Hm Hmem). simpl.
    split; [|split].
    + exists (select_in_memory m aid). split; [reflexivity|].
      unfold select_in_memory, active.
      destruct (list_mem aid (selected_accounts m)) eqn:E; simpl.
      * apply list_mem_In in E. split; [exact E|].
        apply (count_occ_In string_dec) in E.
        destruct (count_occ string_dec (selected_accounts m) aid);
          [lia | reflexivity].
      * split; [apply in_or_app; right; left; reflexivity|].
        apply list_mem_false in E.
        rewrite count_occ_app. simpl.
        destruct (string_dec aid aid); [|congruence].
        apply (count_occ_not_In string_dec) in E. rewrite E. reflexivity.
    + exists (deselect_in_memory m aid). split; [reflexivity|].
      unfold deselect_in_memory.
      destruct (list_mem aid (selected_accounts m)) eqn:E; simpl.
      * split; [reflexivity|]. intros k. apply count_occ_list_remove.
      * split; [reflexivity|]. intros k.
        destruct (string_dec aid k) as [<-|]; [|reflexivity].
        apply list_mem_false in E.
        apply (count_occ_not_In string_dec) in E. now rewrite E.
    + intros Hna.
      assert (Hmem' : PyDict.mem aid (accounts (select_in_memory m aid))
                      = true).
      { unfold select_in_memory. destruct (negb _); exact Hmem. }
      rewrite (deselect_account_run aid
                 {| account_manager := Some (select_in_memory m aid);
                    config_file := config_file s |}
                 (select_in_memory m aid) eq_refl Hmem'). simpl.
      rewrite <- (server_eta s m Hm) at 2. f_equal. f_equal.
      apply list_mem_false in Hna.
      unfold select_in_memory. rewrite Hna. simpl.
      unfold deselect_in_memory. simpl.
      assert (Hin : list_mem aid (selected_accounts m ++ [aid]) = true).
      { apply list_mem_In, in_or_app. right. left. reflexivity. }
      rewrite Hin. apply list_mem_false in Hna.
      rewrite list_remove_app_new by exact Hna.
      destruct m. reflexivity.
Qed.

Lemma select_deselect_algebra_witness :
  snd (deselect_account "bob"
         (snd (select_account "bob" (Sample.server_of Sample.only_bob))))
  = Sample.server_of {| accounts := accounts Sample.only_bob;
                        selected_accounts := [] |} /\
  snd (deselect_account "alice"
         (snd (select_account "alice"
                 (Sample.server_of
                    {| accounts := accounts Sample.two;
                       selected_accounts := ["bob"] |}))))
  = Sample.server_of {| accounts := accounts Sample.two;
                        selected_accounts := ["bob"] |}.
Proof.
  split; [reflexivity|].
  destruct (select_deselect_algebra
              (Sample.server_of {| accounts := accounts Sample.two;
                                   selected_accounts := ["bob"] |}) "alice")
    as [_ H].
  destruct (H _ eq_refl) as (_ & _ & H3).
  - left. reflexivity.
  - apply H3. intros [H0|[]]. discriminate.
Defined.

(** X14.  After a delete, whether or not the save succeeded, the
    identifier is no longer configured and reading it answers 404, every
    other record is unchanged and the table is one shorter; and if the
    identifier occurred at most once in the Active Set it is no longer
    active. *)
Theorem delete_removes_account (disk_ok : bool) (s : Server) (m : Manager)
  (aid : string) :
  account_manager s = Some m ->
  PyDict.wf (accounts m) ->
  configured m aid ->
  let r := delete_account disk_ok aid s in
  exists m',
    account_manager (snd r) = Some m' /\
    ~ configured m' aid /\
    (forall k, k <> aid ->
               PyDict.get k (accounts m') = PyDict.get k (accounts m)) /\
    S (PyDict.len (accounts m')) = PyDict.len (accounts m) /\
    fst (get_account_endpoint aid (snd r))
      = HTTPException 404 ("Account '" ++ aid ++ "' not found") /\
    (count_occ string_dec (selected_accounts m) aid <= 1 -> ~ active m' aid).
Proof.
  intros Hm Hwf Hc.
  assert (Hmem : PyDict.mem aid (accounts m) = true)
    by (apply PyDictFacts.mem_In; exact Hc).
  cbv zeta. rewrite (delete_account_run disk_ok aid s m Hm Hmem). simpl.
  exists (delete_in_memory m aid). split; [reflexivity|].
  assert (Hacc : accounts (delete_in_memory m aid)
                 = PyDict.del aid (accounts m)).
  { unfold delete_in_memory. simpl.
    destruct (list_mem aid (selected_accounts m)); reflexivity. }
  assert (Hnc : ~ configured (delete_in_memory m aid) aid).
  { unfold configured. rewrite Hacc. intros H.
    apply PyDictFacts.In_keys_del in H. tauto. }
  split; [exact Hnc|]. split.
  { intros k Hk. rewrite Hacc. apply PyDictFacts.get_del_other. exact Hk. }
  split.
  { rewrite Hacc. apply PyDictFacts.len_del; assumption. }
  split.
  { unfold get_account_endpoint. run_endpoint.
    rewrite Hacc, PyDictFacts.get_del_same. reflexivity. }
  intros Honce. unfold active, delete_in_memory. simpl.
  destruct (list_mem aid (selected_accounts m)) eqn:E; simpl.
  - apply list_remove_once. exact Honce.
  - apply list_mem_false. exact E.
Qed.

Lemma delete_removes_account_witness :
  exists m',
    account_manager
      (snd (delete_account false "alice" (Sample.server_of Sample.two)))
      = Some m' /\
    ~ configured m' "alice" /\ ~ active m' "alice" /\
    PyDict.get "bob" (accounts m') = Some Sample.bob.
Proof.
  destruct (delete_removes_account false (Sample.server_of Sample.two)
              Sample.two "alice") as (m' & H1 & H2 & H3 & _ & _ & H6).
  - reflexivity.
  - unfold PyDict.wf. simpl. constructor.
    + intros [H|[]]. discriminate.
    + constructor; [intros [] | constructor].
  - left. reflexivity.
  - exists m'. split; [exact H1|]. split; [exact H2|]. split.
    + apply H6. simpl. lia.
    + rewrite H3; [reflexivity | discriminate].
Defined.

(** X15.  What [GET /accounts/{id}] and [GET /accounts/] answer does not
    depend on the contents of the cookie and header bundles: two states
    whose accounts differ only there give the same listing, and the same
    details as long as each bundle is empty in both or in neither. *)
Theorem account_views_hide_credentials (s1 s2 : Server) (m1 m2 : Manager) :
  account_manager s1 = Some m1 ->
  account_manager s2 = Some m2 ->
  selected_accounts m1 = selected_accounts m2 ->
  Forall2 (fun e1 e2 =>
             fst e1 = fst e2 /\
             email (snd e1) = email (snd e2) /\
             display_name (snd e1) = display_name (snd e2))
          (accounts m1) (accounts m2) ->
  fst (list_accounts_endpoint s1) = fst (list_accounts_endpoint s2) /\
  forall aid a1 a2,
    PyDict.get aid (accounts m1) = Some a1 ->
    PyDict.get aid (accounts m2) = Some a2 ->
    (cookies a1 = [] <-> cookies a2 = []) ->
    (headers a1 = [] <-> headers a2 = []) ->
    fst (get_account_endpoint aid s1) = fst (get_account_endpoint aid s2).
Proof.
  intros H1 H2 Hsel Hall.
  assert (Hget : forall aid a1 a2,
             PyDict.get aid (accounts m1) = Some a1 ->
             PyDict.get aid (accounts m2) = Some a2 ->
             email a1 = email a2 /\ display_name a1 = display_name a2).
  { induction Hall as [|[k1 v1] [k2 v2] l1 l2 (Hk & He & Hd) Hrest IH];
      intros aid a1 a2; simpl; [discriminate|].
    simpl in Hk, He, Hd. subst k2.
    destruct (String.eqb_spec k1 aid).
    - intros E1 E2. injection E1 as <-. injection E2 as <-. auto.
    - apply IH. }
  split.
  - unfold list_accounts_endpoint. run_endpoint. rewrite H1, H2. simpl.
    rewrite <- Hsel.
    assert (Hmap : map (listing_entry m1) (accounts m1)
                   = map (listing_entry m2) (accounts m2)).
    { clear Hget. induction Hall as [|[k1 v1] [k2 v2] l1 l2 (Hk & He & Hd) Hrest IH];
        simpl; [reflexivity|].
      simpl in Hk, He, Hd. subst k2. rewrite IH.
      unfold listing_entry. simpl. now rewrite He, Hd, Hsel. }
    rewrite Hmap. reflexivity.
  - intros aid a1 a2 G1 G2 Hck Hhd.
    destruct (Hget aid a1 a2 G1 G2) as [He Hd].
    unfold get_account_endpoint. run_endpoint.
    rewrite H1, H2, G1, G2. simpl. rewrite He, Hd, Hsel.
    assert (Ec : Nat.eqb (length (cookies a1)) 0
                 = Nat.eqb (length (cookies a2)) 0).
    { destruct (cookies a1), (cookies a2); simpl; try reflexivity;
        exfalso; [apply proj1 in Hck | apply proj2 in Hck];
        specialize (Hck eq_refl); discriminate. }
    assert (Eh : Nat.eqb (length (headers a1)) 0
                 = Nat.eqb (length (headers a2)) 0).
    { destruct (headers a1), (headers a2); simpl; try reflexivity;
        exfalso; [apply proj1 in Hhd | apply proj2 in Hhd];
        specialize (Hhd eq_refl); discriminate. }
    now rewrite Ec, Eh.
Qed.

Lemma account_views_hide_credentials_witness :
  let bob' := {| account_id := "bob"; email_field := Text "Foo@Bar.com ";
                 display_name := Some "bob";
                 cookies := [("EP_LOGINID", "other"); ("SCOUTER", "x")];
                 headers := [("accept", "text/plain")] |} in
  let two' := {| accounts := [("alice", Sample.alice); ("bob", bob')];
                 selected_accounts := ["alice"; "bob"] |} in
  fst (list_accounts_endpoint (Sample.server_of Sample.two))
    = fst (list_accounts_endpoint (Sample.server_of two')) /\
  fst (get_account_endpoint "bob" (Sample.server_of Sample.two))
    = fst (get_account_endpoint "bob" (Sample.server_of two')).
Proof.
  intros bob' two'.
  destruct (account_views_hide_credentials
              (Sample.server_of Sample.two) (Sample.server_of two')
              Sample.two two') as [H1 H2].
  - reflexivity.
  - reflexivity.
  - reflexivity.
  - repeat constructor.
  - split; [exact H1|].
    apply (H2 "bob" Sample.bob bob'); try reflexivity;
      split; intros H; discriminate H.
Defined.

Lemma filter_map_swap {A B : Type} (f : A -> B) (p : B -> bool) (l : list A) :
  filter p (map f l) = map f (filter (fun x => p (f x)) l).
Proof.
  induction l as [|x l IH]; simpl; [reflexivity|].
  destruct (p (f x)); simpl; now rewrite IH.
Qed.

(** X16.  [GET /accounts/] leaves the state alone and lists the accounts
    in table order; [total] is their number and [selected] the length of
    the Active Set, which equals the number of entries flagged as
    selected whenever the Active Set has no repeated identifier and holds
    configured identifiers only. *)
Theorem listing_counts (s : Server) (m : Manager) :
  account_manager s = Some m ->
  exists entries,
    list_accounts_endpoint s =
      (OK (JDict [("total", JNum (PyDict.len (accounts m)));
                  ("selected", JNum (length (selected_accounts m)));
                  ("accounts", JList entries)]), s) /\
    map (jget "account_id") entries =
      map (fun k => Some (JStr k)) (PyDict.keys (accounts m)) /\
    (PyDict.wf (accounts m) -> NoDup (selected_accounts m) ->
     active_subset m ->
     length (filter flagged_selected entries)
       = length (selected_accounts m)).
Proof.
  intros Hm. exists (map (listing_entry m) (accounts m)).
  split; [|split].
  - unfold list_accounts_endpoint. run_endpoint. rewrite Hm. simpl.
    unfold PyDict.len. now rewrite length_map.
  - unfold PyDict.keys. rewrite !map_map. reflexivity.
  - intros Hwf Hnd Hsub.
    rewrite filter_map_swap, length_map.
    assert (E : filter (fun x => flagged_selected (listing_entry m x))
                  (accounts m)
                = filter (fun x => list_mem (fst x) (selected_accounts m))
                    (accounts m)).
    { apply filter_ext. intros [k a]. unfold flagged_selected, listing_entry.
      simpl. destruct (list_mem k (selected_accounts m)); reflexivity. }
    rewrite E.
    rewrite <- (length_map fst).
    assert (Emap : map fst (filter (fun x => list_mem (fst x)
                                               (selected_accounts m))
                              (accounts m))
                   = filter (fun k => list_mem k (selected_accounts m))
                       (PyDict.keys (accounts m))).
    { unfold PyDict.keys. now rewrite filter_map_swap. }
    rewrite Emap. apply Nat.le_antisymm.
    + apply NoDup_incl_length.
      * apply NoDup_filter. exact Hwf.
      * intros k Hk. apply filter_In in Hk. apply list_mem_In. tauto.
    + apply NoDup_incl_length; [exact Hnd|].
      intros k Hk. apply filter_In. split.
      * apply Hsub, Hk.
      * apply list_mem_In, Hk.
Qed.

Lemma listing_counts_witness :
  exists entries,
    fst (list_accounts_endpoint (Sample.server_of Sample.three)) =
      OK (JDict [("total", JNum 3); ("selected", JNum 3);
                 ("accounts", JList entries)]) /\
    length (filter flagged_selected entries) = 3.
Proof.
  destruct (listing_counts (Sample.server_of Sample.three) Sample.three
              eq_refl) as (entries & H1 & _ & H3).
  exists entries. split.
  - rewrite H1. reflexivity.
  - apply H3.
    + unfold PyDict.wf. simpl.
      repeat (constructor; [simpl; intuition discriminate|]). constructor.
    + simpl.
      repeat (constructor; [simpl; intuition discriminate|]). constructor.
    + intros x H. exact H.
Defined.

(* ================================================================== *)
(** * The forwarding endpoint *)

Ltac by_key k H :=
  repeat match goal with
         | |- context [if String.eqb ?a k then _ else _] =>
             destruct (String.eqb_spec a k) as [<-|?];
             [first [reflexivity
                    | exfalso; apply H; unfold variable_fields; simpl; tauto]|]
         end.

(** X17.  The vendor document is a fixed template: apart from
    [contentText], [from], [attachs], [subject] and [recipients], every
    field has the same value for every request; and those three of the
    five not about addresses carry the request's raw message, its
    attachment list and its subject unchanged. *)
Theorem vendor_template_constant (p1 p2 : ParsedEmailPayload) (k : string) :
  ~ In k variable_fields ->
  jget k (brittymail_json_data p1) = jget k (brittymail_json_data p2) /\
  jget "contentText" (brittymail_json_data p1) = Some (JStr (p_raw_email p1)) /\
  jget "attachs" (brittymail_json_data p1) = Some (JList (p_attachments p1)) /\
  jget "subject" (brittymail_json_data p1) = Some (JStr (p_subject p1)).
Proof.
  intros H. split; [|repeat split].
  unfold brittymail_json_data, jget. cbn [PyDict.get].
  by_key k H. reflexivity.
Qed.

Lemma vendor_template_constant_witness :
  let p1 := {| p_raw_email := "Subject: a"; p_sender_email := "a@x.com";
               p_recipient_email := "r@z.com"; p_subject := "a";
               p_account_id := None; p_attachments := [] |} in
  let p2 := {| p_raw_email := "Subject: b"; p_sender_email := "b@y.com";
               p_recipient_email := "q@z.com"; p_subject := "b";
               p_account_id := Some "bob"; p_attachments := [JNull] |} in
  jget "contentType" (brittymail_json_data p1)
    = jget "contentType" (brittymail_json_data p2) /\
  jget "subject" (brittymail_json_data p2) = Some (JStr "b").
Proof.
  intros p1 p2.
  destruct (vendor_template_constant p1 p2 "contentType") as (H1 & _).
  - unfold variable_fields. simpl. intuition discriminate.
  - split; [exact H1|].
    destruct (vendor_template_constant p2 p1 "priority") as (_ & _ & _ & H4).
    + unfold variable_fields. simpl. intuition discriminate.
    + exact H4.
Defined.

(** X18.  The forwarding endpoint first resolves the account.  What the
    resolution raises (a stored [null] address met by the sender search)
    leaves the endpoint as it is, and the vendor is not asked.  The
    endpoint answers 400 exactly when no account resolves, and then the
    vendor is not asked either.  Otherwise it asks the vendor once, at
    the fixed address, with the cookies and headers of the resolved
    account, and answers success with the vendor's document when the
    vendor answers 2xx with a JSON body, and 500 for every other
    outcome, a 2xx answer whose body is no JSON included. *)
Theorem forward_email_outcomes {py : StrMethods} (m : Manager)
  (vendor : VendorCall -> HttpOutcome) (payload : ParsedEmailPayload) :
  let resolved :=
    get_selected_account m (p_account_id payload)
      (Some (p_sender_email payload)) in
  (forall e, resolved = Raise e <->
             forward_email_to_brittymail m vendor payload = Raise e) /\
  (resolved = Return None ->
   forward_email_to_brittymail m vendor payload =
     Return (HTTPException 400
               ("No matching account found for sender: "
                  ++ p_sender_email payload))) /\
  (forall detail,
     forward_email_to_brittymail m vendor payload
       = Return (HTTPException 400 detail) ->
     resolved = Return None) /\
  (forall account, resolved = Return (Some account) ->
     let call := {| call_url := BRITTYMAIL_SEND_URL;
                    call_cookies := cookies account;
                    call_headers := headers account;
                    call_json := brittymail_json_data payload |} in
     prepare_vendor_call m payload = Return (OK call) /\
     (forall status body, vendor call = Ok2xx status (Json body) ->
        forward_email_to_brittymail m vendor payload =
          Return (OK (JDict [("message",
                              JStr "Email forwarded successfully!");
                             ("brittymail_response", body)]))) /\
     (forall status error, vendor call = Ok2xx status (NotJson error) ->
        forward_email_to_brittymail m vendor payload =
          Return (HTTPException 500
                    ("An internal server error occurred: " ++ error))) /\
     (delivered (vendor call) = false ->
        exists detail,
          forward_email_to_brittymail m vendor payload
            = Return (HTTPException 500 detail))).
Proof.
  cbv zeta. unfold forward_email_to_brittymail, prepare_vendor_call.
  destruct (get_selected_account m (p_account_id payload)
              (Some (p_sender_email payload))) as [[account|]|e0]; simpl.
  - split; [intros e; split; discriminate|].
    split; [discriminate|]. split.
    + intros detail H. unfold answer_of_vendor in H.
      destruct (vendor _) as [st [b|err]|st t|err|err]; discriminate.
    + intros a Ha. injection Ha as <-. split; [reflexivity|]. split; [|split].
      * intros status body Hv. now rewrite Hv.
      * intros status error Hv. now rewrite Hv.
      * destruct (vendor _) as [st [b|err]|st t|err|err]; simpl; intros Hd;
          [discriminate | discriminate | eexists; reflexivity ..].
  - split; [intros e; split; discriminate|].
    split; [reflexivity|]. split; [reflexivity|].
    intros a Ha. discriminate.
  - split; [intros e; split; intros H; injection H as ->; reflexivity|].
    split; [discriminate|]. split; [discriminate|].
    intros a Ha. discriminate.
Qed.

Lemma forward_email_outcomes_witness :
  let payload := {| p_raw_email := "Subject: hi"; p_sender_email := "a@x.com";
                    p_recipient_email := "r@z.com"; p_subject := "hi";
                    p_account_id := Some "bob"; p_attachments := [] |} in
  forward_email_to_brittymail Sample.two Sample.vendor_ok payload =
    Return (OK (JDict [("message", JStr "Email forwarded successfully!");
                       ("brittymail_response",
                        JDict [("result", JStr "SUCCESS")])])) /\
  forward_email_to_brittymail Sample.two Sample.vendor_html payload =
    Return (HTTPException 500
      "An internal server error occurred: Expecting value: line 1 column 1 (char 0)") /\
  exists call,
    prepare_vendor_call Sample.two payload = Return (OK call) /\
    call_cookies call = cookies Sample.bob.
Proof.
  intros payload.
  destruct (forward_email_outcomes Sample.two Sample.vendor_ok payload)
    as (_ & _ & _ & H).
  destruct (H Sample.bob eq_refl) as (H1 & H2 & _).
  split; [|split].
  - apply (H2 200). reflexivity.
  - destruct (forward_email_outcomes Sample.two Sample.vendor_html payload)
      as (_ & _ & _ & G).
    destruct (G Sample.bob eq_refl) as (_ & _ & G3 & _).
    apply (G3 200). reflexivity.
  - eexists. split; [exact H1 | reflexivity].
Defined.

(* ================================================================== *)
(** * The hook: when it raises, what it posts, when everything succeeds *)

(** X19.  The extraction raises exactly when the message is multi-part
    and the loop trips on some part of its traversal: a part whose
    disposition text contains [attachment] and whose file name lookup
    raises, or which is a container with a non-empty file name.  The
    exception is the one of the first such part: what the lookup raised
    (a [ValueError] for a malformed RFC 2231 parameter), or the
    [TypeError] of the base64 call on a container.  In every other case
    it returns, with the records of the parts to be recorded. *)
Theorem extraction_raises_iff (msg : Message) :
  let tripped := is_multipart msg && existsb trips_extraction (walk msg) in
  (tripped = true ->
   exists part,
     find trips_extraction (walk msg) = Some part /\
     extract_attachments msg = Raise (raised_on part)) /\
  (tripped = false ->
   extract_attachments msg =
     Return (if is_multipart msg
             then map record_of (filter is_attachment_part (walk msg))
             else [])) /\
  (forall e, extract_attachments msg = Raise e -> tripped = true).
Proof.
  cbv zeta.
  assert (Hno : is_multipart msg && existsb trips_extraction (walk msg) = false ->
                extract_attachments msg =
                  Return (if is_multipart msg
                          then map record_of
                                 (filter is_attachment_part (walk msg))
                          else [])).
  { intros H. unfold extract_attachments.
    destruct (is_multipart msg); [|reflexivity].
    simpl in H. rewrite collect_attachments_leaves; [reflexivity|].
    intros part Hin.
    destruct (trips_extraction part) eqn:Ep; [|reflexivity].
    assert (Hex : existsb trips_extraction (walk msg) = true).
    { apply existsb_exists. exists part. split; [exact Hin | exact Ep]. }
    congruence. }
  split; [|split; [exact Hno|]].
  - intros H. apply andb_true_iff in H. destruct H as [Hm Hex].
    destruct (find trips_extraction (walk msg)) as [part|] eqn:Ef.
    + exists part. split; [reflexivity|].
      unfold extract_attachments. rewrite Hm.
      apply collect_attachments_raises. exact Ef.
    + apply existsb_exists in Hex. destruct Hex as [part [Hin Ht]].
      rewrite (find_none _ _ Ef part Hin) in Ht. discriminate.
  - intros e He.
    destruct (is_multipart msg && existsb trips_extraction (walk msg));
      [reflexivity|].
    rewrite (Hno eq_refl) in He. discriminate.
Qed.

Lemma extraction_raises_iff_witness :
  extract_attachments Sample.forwarded =
    Raise (TypeError "a bytes-like object is required, not 'NoneType'") /\
  extract_attachments Sample.garbled =
    Raise (ValueError "embedded null character") /\
  exists attachments, extract_attachments Sample.report = Return attachments.
Proof.
  split; [|split].
  - destruct (extraction_raises_iff Sample.forwarded) as (H & _).
    destruct (H eq_refl) as (part & Hf & Hr).
    vm_compute in Hf. injection Hf as <-. exact Hr.
  - destruct (extraction_raises_iff Sample.garbled) as (H & _).
    destruct (H eq_refl) as (part & Hf & Hr).
    vm_compute in Hf. injection Hf as <-. exact Hr.
  - destruct (extraction_raises_iff Sample.report) as (_ & H & _).
    eexists. apply H. reflexivity.
Defined.


Lemma accounts_to_use_active {py : StrMethods} (m : Manager)
  (hdr : option string) (sender : string) (accs : list Account)
  (a : Account) :
  accounts_to_use_of m hdr sender = Return accs ->
  In a accs ->
  exists k, active m k /\ PyDict.get k (accounts m) = Some a.
Proof.
  unfold accounts_to_use_of.
  destruct (send_from_all_of hdr).
  - intros H. injection H as <-. apply lookup_all_active.
  - destruct (get_selected_account m hdr (Some sender)) as [[b|]|e] eqn:Eb;
      simpl; intros H; [| |discriminate]; injection H as <-.
    + intros [<-|[]].
      destruct (get_selected_account_active m hdr (Some sender) b Eb)
        as (k & H1 & H2).
      exists k. auto.
    + intros [].
Qed.

(** Under the table invariants the forwarder, asked for the identifier of
    an account the hook posts for, resolves that same account. *)
Lemma posted_account_resolves_back {py : StrMethods} (m : Manager)
  (hdr : option string) (sender : string) (accs : list Account)
  (a : Account) (s' : option string) :
  keyed (accounts m) -> ids_nonempty (accounts m) ->
  accounts_to_use_of m hdr sender = Return accs ->
  In a accs ->
  get_selected_account m (Some (account_id a)) s' = Return (Some a).
Proof.
  intros Hk Hne Haccs Hin.
  destruct (accounts_to_use_active m hdr sender accs a Haccs Hin)
    as (k & Hact & Hget).
  assert (Eid : account_id a = k) by (eapply keyed_get; eassumption).
  assert (Hk0 : k <> "").
  { intros ->. apply ids_nonempty_keys in Hne. apply Hne.
    eapply PyDictFacts.get_Some_In. exact Hget. }
  rewrite Eid, get_selected_account_explicit by exact Hk0.
  apply list_mem_In in Hact. now rewrite Hact, Hget.
Qed.



(** X21.  When the hook returns, every body it posted carries the same
    raw message, effective recipient, subject and attachment list, and
    the identifier and stored address of an account stored under an
    active identifier; and the whole run depends on the envelope's
    recipient list only through its first element, so further recipients
    of a message are never used. *)
Theorem posted_bodies {py : StrMethods}
  (decode_utf8_ignore : list byte -> string)
  (parsestr : string -> Message) (post : nat -> json -> HttpOutcome)
  (m : Manager) (envelope : Envelope) (r : Completed) :
  handle_DATA decode_utf8_ignore parsestr post m envelope = Return r ->
  let raw := decode_utf8_ignore (content envelope) in
  let msg := parsestr raw in
  (exists attachments,
     extract_attachments msg = Return attachments /\
     forall body, In body (attempts r) ->
       jget "raw_email" body = Some (JStr raw) /\
       jget "recipient_email" body
         = Some (JStr (effective_recipient envelope)) /\
       jget "subject" body = Some (JStr (subject_of msg)) /\
       jget "attachments" body = Some (JList attachments) /\
       exists k a,
         active m k /\ PyDict.get k (accounts m) = Some a /\
         jget "account_id" body = Some (JStr (account_id a)) /\
         jget "sender_email" body = Some (jstr_opt (email a))) /\
  (forall first others others',
     rcpt_tos envelope = first :: others ->
     handle_DATA decode_utf8_ignore parsestr post m
       {| mail_from := mail_from envelope;
          rcpt_tos := first :: others';
          content := content envelope |} = Return r).
Proof.
  intros Hret raw msg. split.
  - destruct (handle_DATA_inv decode_utf8_ignore parsestr post m envelope r
                Hret) as (atts & accs & Hext & Haccs).
    exists atts. split; [exact Hext|].
    destruct (handle_DATA_returns decode_utf8_ignore parsestr post m envelope
                atts accs Hext Haccs) as (r' & Hr' & _ & Hatt & _).
    rewrite Hret in Hr'. injection Hr' as <-.
    intros body Hin. rewrite Hatt in Hin. apply in_map_iff in Hin.
    destruct Hin as (a & <- & Ha).
    destruct (accounts_to_use_active m _ _ accs a Haccs Ha)
      as (k & Hk1 & Hk2).
    repeat split. exists k, a. repeat split; assumption.
  - intros first others others' Hr. rewrite <- Hret.
    unfold handle_DATA, effective_recipient, effective_sender. simpl.
    rewrite Hr. reflexivity.
Qed.

Lemma posted_bodies_witness :
  exists r,
    handle_DATA Sample.decode Sample.parsestr (Sample.post_to Sample.two)
      Sample.two (Sample.envelope_of "a@x.com" Sample.raw_report) = Return r /\
    (forall body, In body (attempts r) ->
       jget "recipient_email" body = Some (JStr "r@z.com")) /\
    handle_DATA Sample.decode Sample.parsestr (Sample.post_to Sample.two)
      Sample.two
      {| mail_from := Some "a@x.com"; rcpt_tos := ["r@z.com"];
         content := Sample.bytes_of Sample.raw_report |} = Return r.
Proof.
  eexists. split; [vm_compute; reflexivity|].
  match goal with
  | |- (forall body, In body (attempts ?r) -> _) /\ _ =>
      destruct (posted_bodies Sample.decode Sample.parsestr
                  (Sample.post_to Sample.two) Sample.two
                  (Sample.envelope_of "a@x.com" Sample.raw_report) r)
        as [(atts & _ & H1) H2]; [vm_compute; reflexivity|]
  end.
  split.
  - intros body Hin. destruct (H1 body Hin) as (_ & H & _). exact H.
  - apply (H2 "r@z.com" ["cc@z.com"] []). reflexivity.
Defined.

Lemma all_delivered (post : nat -> json -> HttpOutcome) (mk : Account -> json)
  (accs : list Account) :
  (forall i a, In a accs -> delivered (post i (mk a)) = true) ->
  forall i,
    length (filter delivered (outcomes_from post mk i accs)) = length accs /\
    length (filter (fun o => negb (delivered o))
              (outcomes_from post mk i accs)) = 0.
Proof.
  induction accs as [|a accs IH]; intros H i; simpl; [auto|].
  rewrite (H i a (or_introl eq_refl)). simpl.
  destruct (IH (fun j b Hb => H j b (or_intror Hb)) (S i)) as [I1 I2].
  now rewrite I1, I2.
Qed.

Lemma none_delivered (post : nat -> json -> HttpOutcome) (mk : Account -> json)
  (accs : list Account) :
  (forall i a, In a accs -> delivered (post i (mk a)) = false) ->
  forall i,
    length (filter delivered (outcomes_from post mk i accs)) = 0 /\
    length (filter (fun o => negb (delivered o))
              (outcomes_from post mk i accs)) = length accs.
Proof.
  induction accs as [|a accs IH]; intros H i; simpl; [auto|].
  rewrite (H i a (or_introl eq_refl)). simpl.
  destruct (IH (fun j b Hb => H j b (or_intror Hb)) (S i)) as [I1 I2].
  now rewrite I1, I2.
Qed.

(** X22.  End to end: when the extraction returns, the choice of
    accounts returns (it raises when the sender search meets a stored
    [null] address), every record of the table sits under its own
    non-empty identifier, every account to use has a stored address, the
    posts reach the forwarder on the same registry and the vendor
    answers every call 2xx with a JSON body, then every post succeeds:
    the success counter is the number of accounts to use and the failure
    counter is zero.  For each account the forwarder resolves that same
    account again and calls the vendor with its cookies and headers. *)
Theorem relay_succeeds_end_to_end {py : StrMethods}
  (decode_utf8_ignore : list byte -> string)
  (parsestr : string -> Message) (vendor : VendorCall -> HttpOutcome)
  (m : Manager) (envelope : Envelope) (attachments : list json)
  (accounts_to_use : list Account) :
  let raw := decode_utf8_ignore (content envelope) in
  let msg := parsestr raw in
  let mk := fastapi_payload raw (effective_recipient envelope)
              (subject_of msg) attachments in
  extract_attachments msg = Return attachments ->
  accounts_to_use_of m (msg_get msg "X-Brityworks-Account")
    (effective_sender envelope) = Return accounts_to_use ->
  keyed (accounts m) -> ids_nonempty (accounts m) ->
  (forall a, In a accounts_to_use -> email a <> None) ->
  (forall call, exists status doc, vendor call = Ok2xx status (Json doc)) ->
  (exists r,
     handle_DATA decode_utf8_ignore parsestr
       (fun _ body => serve_forward_email m vendor body) m envelope
       = Return r /\
     success_count r = length accounts_to_use /\ failed_count r = 0) /\
  forall a, In a accounts_to_use ->
    exists payload call,
      parse_payload (mk a) = Some payload /\
      prepare_vendor_call m payload = Return (OK call) /\
      call_cookies call = cookies a /\ call_headers call = headers a /\
      call_url call = BRITTYMAIL_SEND_URL.
Proof.
  intros raw msg mk Hext Haccs Hk Hne Hmail Hvendor.
  assert (Hcall : forall a, In a accounts_to_use ->
            exists payload,
              parse_payload (mk a) = Some payload /\
              prepare_vendor_call m payload =
                Return (OK {| call_url := BRITTYMAIL_SEND_URL;
                              call_cookies := cookies a;
                              call_headers := headers a;
                              call_json := brittymail_json_data payload |})).
  { intros a Ha.
    destruct (email a) as [e|] eqn:Ee; [|exfalso; exact (Hmail a Ha Ee)].
    eexists. split.
    - unfold mk, fastapi_payload, parse_payload. simpl. rewrite Ee. simpl.
      reflexivity.
    - unfold prepare_vendor_call. simpl.
      rewrite (posted_account_resolves_back m _ _ accounts_to_use a (Some e)
                 Hk Hne Haccs Ha).
      reflexivity. }
  split.
  - destruct (handle_DATA_returns decode_utf8_ignore parsestr
                (fun _ body => serve_forward_email m vendor body) m envelope
                attachments accounts_to_use Hext Haccs)
      as (r & Hr & _ & _ & Hs & Hf & _).
    fold raw in Hs, Hf. fold msg in Hs, Hf. fold mk in Hs, Hf.
    exists r. split; [exact Hr|].
    destruct (all_delivered (fun _ body => serve_forward_email m vendor body)
                mk accounts_to_use) with (i := 0) as [D1 D2].
    + intros i a Ha. destruct (Hcall a Ha) as (payload & Hp & Hprep).
      unfold serve_forward_email, forward_email_to_brittymail.
      rewrite Hp, Hprep. simpl.
      destruct (Hvendor {| call_url := BRITTYMAIL_SEND_URL;
                           call_cookies := cookies a;
                           call_headers := headers a;
                           call_json := brittymail_json_data payload |})
        as (status & doc & Hv).
      rewrite Hv. reflexivity.
    + rewrite Hs, Hf, D1, D2. split; reflexivity.
  - intros a Ha. destruct (Hcall a Ha) as (payload & Hp & Hprep).
    exists payload. eexists. split; [exact Hp|]. split; [exact Hprep|].
    repeat split.
Qed.

Lemma relay_succeeds_end_to_end_witness :
  exists r,
    handle_DATA Sample.decode Sample.parsestr
      (fun _ body => serve_forward_email Sample.three Sample.vendor_ok body)
      Sample.three (Sample.envelope_of "a@x.com" Sample.raw_broadcast)
      = Return r /\
    success_count r = 3 /\ failed_count r = 0.
Proof.
  destruct (relay_succeeds_end_to_end Sample.decode Sample.parsestr
              Sample.vendor_ok Sample.three
              (Sample.envelope_of "a@x.com" Sample.raw_broadcast) []
              [Sample.alice; Sample.bob; Sample.carol])
    as [(r & H1 & H2 & H3) _].
  - reflexivity.
  - reflexivity.
  - repeat constructor.
  - repeat constructor; discriminate.
  - intros a [<-|[<-|[<-|[]]]]; discriminate.
  - intros call. do 2 eexists. reflexivity.
  - exists r. split; [exact H1|]. split; [exact H2 | exact H3].
Defined.

(** X23.  An account without a stored address cannot send: the body the
    hook builds for it fails the forwarder's validation, so the answer is
    422 whatever the vendor would do, the vendor is not asked, and when
    no account to use has an address every post of the run is counted as
    failed. *)
Theorem account_without_address_fails {py : StrMethods}
  (decode_utf8_ignore : list byte -> string)
  (parsestr : string -> Message) (vendor : VendorCall -> HttpOutcome)
  (m m' : Manager) (envelope : Envelope) (attachments : list json)
  (accounts_to_use : list Account) :
  let raw := decode_utf8_ignore (content envelope) in
  let msg := parsestr raw in
  let mk := fastapi_payload raw (effective_recipient envelope)
              (subject_of msg) attachments in
  (forall a, email a = None ->
     parse_payload (mk a) = None /\
     serve_forward_email m' vendor (mk a)
       = HTTPStatusError 422 "Unprocessable Entity") /\
  (extract_attachments msg = Return attachments ->
   accounts_to_use_of m (msg_get msg "X-Brityworks-Account")
     (effective_sender envelope) = Return accounts_to_use ->
   (forall a, In a accounts_to_use -> email a = None) ->
   exists r,
     handle_DATA decode_utf8_ignore parsestr
       (fun _ body => serve_forward_email m' vendor body) m envelope
       = Return r /\
     success_count r = 0 /\ failed_count r = length accounts_to_use).
Proof.
  intros raw msg mk.
  assert (Hbody : forall a, email a = None ->
            parse_payload (mk a) = None /\
            serve_forward_email m' vendor (mk a)
              = HTTPStatusError 422 "Unprocessable Entity").
  { intros a Hnone.
    assert (Hp : parse_payload (mk a) = None).
    { unfold mk, fastapi_payload, parse_payload. simpl. now rewrite Hnone. }
    split; [exact Hp|]. unfold serve_forward_email. now rewrite Hp. }
  split; [exact Hbody|].
  intros Hext Haccs Hnone.
  destruct (handle_DATA_returns decode_utf8_ignore parsestr
              (fun _ body => serve_forward_email m' vendor body) m envelope
              attachments accounts_to_use Hext Haccs)
    as (r & Hr & _ & _ & Hs & Hf & _).
  fold raw in Hs, Hf. fold msg in Hs, Hf. fold mk in Hs, Hf.
  exists r. split; [exact Hr|].
  destruct (none_delivered (fun _ body => serve_forward_email m' vendor body)
              mk accounts_to_use) with (i := 0) as [D1 D2].
  - intros i a Ha. destruct (Hbody a (Hnone a Ha)) as [_ H]. now rewrite H.
  - rewrite Hs, Hf, D1, D2. split; reflexivity.
Qed.

Lemma account_without_address_fails_witness :
  let ghost := {| account_id := "ghost"; email_field := Absent;
                  display_name := None; cookies := []; headers := [] |} in
  let m := {| accounts := [("ghost", ghost)];
              selected_accounts := ["ghost"] |} in
  exists r,
    handle_DATA Sample.decode Sample.parsestr
      (fun _ body => serve_forward_email m Sample.vendor_ok body) m
      (Sample.envelope_of "a@x.com" Sample.raw_plain) = Return r /\
    success_count r = 0 /\ failed_count r = 1.
Proof.
  intros ghost m.
  destruct (account_without_address_fails Sample.decode Sample.parsestr
              Sample.vendor_ok m m
              (Sample.envelope_of "a@x.com" Sample.raw_plain) [] [ghost])
    as [_ H].
  destruct H as (r & H1 & H2 & H3).
  - reflexivity.
  - reflexivity.
  - intros a [<-|[]]. reflexivity.
  - exists r. split; [exact H1|]. split; [exact H2 | exact H3].
Defined.

(* ================================================================== *)
(** * The selection menu and the start-up *)

Lemma menu_loop_cons {py : StrMethods}
  (parse_indices : string -> option (list Z))
  (m : Manager) (line : string) (rest : list string) :
  menu_loop parse_indices m (line :: rest) =
    if str_strip line =? "0"
    then (true, snd (set_selected_accounts m []))
    else
      match parse_indices (str_strip line) with
      | None => menu_loop parse_indices m rest
      | Some selected_indices =>
          if existsb (out_of_range m) selected_indices
          then menu_loop parse_indices m rest
          else
            if fst (set_selected_accounts m
                      (ids_of_indices m selected_indices))
            then (true, snd (set_selected_accounts m
                               (ids_of_indices m selected_indices)))
            else (false, m)
      end.
Proof. reflexivity. Qed.

Lemma menu_loop_outcome {py : StrMethods}
  (parse_indices : string -> option (list Z))
  (m : Manager) (inputs : list string) :
  accounts (snd (menu_loop parse_indices m inputs)) = accounts m /\
  (fst (menu_loop parse_indices m inputs) = false ->
   snd (menu_loop parse_indices m inputs) = m) /\
  (fst (menu_loop parse_indices m inputs) = true ->
   active_subset (snd (menu_loop parse_indices m inputs)) /\
   (accounts m <> [] ->
    selected_accounts (snd (menu_loop parse_indices m inputs)) <> [])).
Proof.
  induction inputs as [|line rest IH].
  - simpl. repeat split; discriminate.
  - rewrite menu_loop_cons.
    destruct (str_strip line =? "0").
    + cbn [fst snd].
      split; [apply set_selected_accounts_accounts|].
      split; [discriminate|]. intros _.
      apply set_selected_accounts_true. reflexivity.
    + destruct (parse_indices (str_strip line)) as [idxs|]; [|exact IH].
      destruct (existsb (out_of_range m) idxs); [exact IH|].
      destruct (fst (set_selected_accounts m (ids_of_indices m idxs)))
        eqn:Ef; cbn [fst snd].
      * split; [apply set_selected_accounts_accounts|].
        split; [discriminate|]. intros _.
        apply set_selected_accounts_true. exact Ef.
      * repeat split; discriminate.
Qed.

(** X24.  The selection menu never changes the account table.  When it
    answers [False] (no account, input exhausted, or no valid choice)
    the manager is exactly as before; when it answers [True] the Active
    Set is non-empty and holds configured identifiers only.  This holds
    for every way of reading numbers from a line. *)
Theorem menu_outcome {py : StrMethods}
  (parse_indices : string -> option (list Z))
  (m : Manager) (inputs : list string) :
  let r := display_accounts_menu parse_indices m inputs in
  accounts (snd r) = accounts m /\
  (fst r = false -> snd r = m) /\
  (fst r = true ->
   accounts m <> [] /\ selected_accounts (snd r) <> [] /\
   active_subset (snd r)) /\
  (accounts m = [] -> r = (false, m)) /\
  (inputs = [] -> r = (false, m)).
Proof.
  cbv zeta. unfold display_accounts_menu.
  destruct (accounts m) as [|e d] eqn:Ea.
  - simpl. repeat split; try discriminate; try reflexivity; congruence.
  - destruct (menu_loop_outcome parse_indices m inputs) as (H1 & H2 & H3).
    rewrite Ea in H1, H3.
    split; [exact H1|]. split; [exact H2|]. split.
    + intros Ht. destruct (H3 Ht) as [Hs Hn].
      split; [discriminate|]. split; [apply Hn; discriminate | exact Hs].
    + split; [discriminate|]. intros ->. reflexivity.
Qed.

Lemma ids_of_indices_valid (m : Manager) (idxs : list Z) :
  existsb (out_of_range m) idxs = false ->
  filter (fun aid => PyDict.mem aid (accounts m)) (ids_of_indices m idxs)
    = ids_of_indices m idxs.
Proof.
  induction idxs as [|idx idxs IH]; simpl; [reflexivity|].
  intros H. apply orb_false_iff in H. destruct H as [Hidx Hrest].
  unfold out_of_range in Hidx. apply orb_false_iff in Hidx.
  destruct Hidx as [H1 H2].
  apply Z.ltb_ge in H1. apply Z.ltb_ge in H2.
  assert (Hlt : Z.to_nat (idx - 1) < length (accounts m)) by lia.
  assert (Hin : In (fst (nth (Z.to_nat (idx - 1)) (accounts m) no_entry))
                   (PyDict.keys (accounts m))).
  { unfold PyDict.keys. apply in_map. apply nth_In. exact Hlt. }
  apply PyDictFacts.mem_In in Hin. rewrite Hin.
  fold (ids_of_indices m idxs). now rewrite IH.
Qed.

(** X25.  A line other than [0] whose numbers all lie between 1 and the
    number of accounts ends the menu with success, and the Active Set
    becomes the identifiers at those positions of the table, in the
    order typed and with repetitions kept; a line that does not parse or
    has a number out of range is skipped. *)
Theorem menu_selects_typed_accounts {py : StrMethods}
  (parse_indices : string -> option (list Z))
  (m : Manager) (line : string) (rest : list string) :
  str_strip line <> "0" ->
  (forall idxs,
     parse_indices (str_strip line) = Some idxs -> idxs <> [] ->
     existsb (out_of_range m) idxs = false ->
     menu_loop parse_indices m (line :: rest) =
       (true, with_selected m (ids_of_indices m idxs))) /\
  (parse_indices (str_strip line) = None ->
   menu_loop parse_indices m (line :: rest) = menu_loop parse_indices m rest) /\
  (forall idxs,
     parse_indices (str_strip line) = Some idxs ->
     existsb (out_of_range m) idxs = true ->
     menu_loop parse_indices m (line :: rest) = menu_loop parse_indices m rest).
Proof.
  intros Hnz. rewrite menu_loop_cons.
  destruct (String.eqb_spec (str_strip line) "0"); [contradiction|].
  split; [|split].
  - intros idxs Hp Hne Hok. rewrite Hp, Hok.
    assert (Hset : set_selected_accounts m (ids_of_indices m idxs)
                   = (true, with_selected m (ids_of_indices m idxs))).
    { unfold set_selected_accounts.
      rewrite (ids_of_indices_valid m idxs Hok).
      destruct idxs as [|i idxs]; [congruence | reflexivity]. }
    rewrite Hset. reflexivity.
  - intros Hp. now rewrite Hp.
  - intros idxs Hp Hbad. now rewrite Hp, Hbad.
Qed.

Lemma menu_selects_typed_accounts_witness :
  menu_loop sample_parse_indices Sample.three ["x"; "7"; " 2,1 "; "1,1"]
    = (true, with_selected Sample.three ["bob"; "alice"]).
Proof.
  destruct (menu_selects_typed_accounts sample_parse_indices Sample.three
              "x" ["7"; " 2,1 "; "1,1"]) as (_ & H & _); [discriminate|].
  rewrite H by reflexivity.
  destruct (menu_selects_typed_accounts sample_parse_indices Sample.three
              "7" [" 2,1 "; "1,1"]) as (_ & _ & H7); [discriminate|].
  rewrite (H7 [7%Z]) by reflexivity.
  destruct (menu_selects_typed_accounts sample_parse_indices Sample.three
              " 2,1 " ["1,1"]) as (H2 & _); [discriminate|].
  apply (H2 [2%Z; 1%Z]); [reflexivity | discriminate | reflexivity].
Defined.







(* ================================================================== *)
(** * The general statements at concrete inputs *)

Lemma load_accounts_spec_witness :
  let nameless := {| account_id := ""; email_field := Text "n@n.org";
                     display_name := None; cookies := []; headers := [] |} in
  load_accounts [nameless] = None /\
  exists m, load_accounts [Sample.alice; nameless; Sample.bob] = Some m /\
            selected_accounts m = [] /\
            PyDict.get "bob" (accounts m) = Some Sample.bob.
Proof.
  intros nameless. split.
  - destruct (load_accounts_spec [nameless]) as [H _].
    apply H. intros a [<-|[]]. reflexivity.
  - eexists. split; [reflexivity|].
    destruct (load_accounts_spec [Sample.alice; nameless; Sample.bob])
      as [_ H].
    destruct (H _ eq_refl) as (H1 & _ & _ & _ & _ & H6).
    split; [exact H1|]. rewrite H6; [reflexivity | discriminate].
Defined.

Lemma all_selected_accounts_in_order_witness :
  length (get_all_selected_accounts Sample.three) = 3 /\
  exists a, nth_error (get_all_selected_accounts Sample.three) 1 = Some a /\
            PyDict.get "bob" (accounts Sample.three) = Some a.
Proof.
  destruct (all_selected_accounts_in_order Sample.three) as (_ & _ & H).
  destruct H as [H1 H2]; [intros x Hx; exact Hx|].
  split; [exact H1|]. apply (H2 1 "bob"). reflexivity.
Defined.

Lemma set_selected_accounts_repairs_witness :
  let stale := {| accounts := accounts Sample.two;
                  selected_accounts := ["gone"; "bob"] |} in
  ~ active_subset stale /\
  active_subset (snd (set_selected_accounts stale ["bob"; "gone"])) /\
  selected_accounts (snd (set_selected_accounts stale ["bob"; "gone"]))
    = ["bob"].
Proof.
  intros stale. split; [|split].
  - intros H. specialize (H "gone" (or_introl eq_refl)).
    destruct H as [H|[H|[]]]; discriminate.
  - destruct (set_selected_accounts_repairs stale ["bob"; "gone"]) as [H _].
    apply H. reflexivity.
  - reflexivity.
Defined.


Lemma menu_outcome_witness :
  display_accounts_menu sample_parse_indices Sample.three ["x"; "7"]
    = (false, Sample.three) /\
  active_subset
    (snd (display_accounts_menu sample_parse_indices Sample.three
            ["x"; " 0 "])).
Proof.
  split.
  - destruct (menu_outcome sample_parse_indices Sample.three ["x"; "7"])
      as (_ & H & _).
    rewrite <- (H eq_refl). reflexivity.
  - destruct (menu_outcome sample_parse_indices Sample.three ["x"; " 0 "])
      as (_ & _ & H & _).
    destruct (H eq_refl) as (_ & _ & Hs). exact Hs.
Defined.
